(** * Timeline fishbone generator: layout engine and LaTeX generator

    A shallow embedding of the core of [timeline_fishbone]:
    - [core/config.py]           (the configuration dataclasses and
                                  [ColorConfig.get_category_colors]),
    - [core/layout_engine.py]    ([SmartLayoutEngine]),
    - [core/latex_generator.py]  ([LaTeXGenerator]).

    Modelling conventions.
    - A [pandas.DataFrame] with the four validated columns is a list of
      [Row]s in file order.
    - Python [int] is [Z] (years) or [nat] (lengths, counts, indices).
    - Python [float] is modelled twice.  In the generator and in the
      first model of the layout engine a float is the exact rational
      [Q] it stands for and products are exact: this serves the
      statements on comparisons, on [max_nodes * 2.5] (a product
      that binary64 does not round, see [required_width_exact]) and on
      text, where the text [str] gives for a float is a parameter.  [RoundedLayout] models the layout engine
      again in IEEE 754 binary64 ([Binary64], on the standard library's
      [SpecFloat]), every operation rounded as the interpreter rounds
      it; the statements on the values of positions, widths and branch
      distances are made there.
    - Python [str] is held as its UTF-8 encoding.  [lower], [strip]
      and [int] work on the characters, with the tables of CPython 3.11
      (Unicode 14.0.0): white space and decimal digits of every script,
      the full lower-case mapping with its rule for the final sigma,
      and the limit of 4300 digits in [int].
    - Python [dict] is a [gmap]; no code path iterates over a dict whose
      order could be observed, only look-ups are made.
    - Exceptions, the mutable attributes of the two classes and the
      records sent to [logger.warning] are threaded through a small monad.
      [logger.debug] and [logger.info] calls are not observed by any
      caller and are left out. *)

From Stdlib Require Import ZArith QArith Qminmax Strings.String Strings.Ascii.
From Stdlib Require Import Numbers.DecimalString OrdersEx Floats.SpecFloat.
From stdpp Require Import base gmap list strings sorting.

(* ================================================================== *)
(** * Python run-time model *)
(* ================================================================== *)

Module Py.

(** ** Exceptions, state and the warning log *)

Inductive exn : Type :=
| ValueError
| KeyError
| IndexError
| AttributeError.

Definition exn_eqb (a b : exn) : bool :=
  match a, b with
  | ValueError, ValueError | KeyError, KeyError
  | IndexError, IndexError | AttributeError, AttributeError => true
  | _, _ => false
  end.

Inductive result (A : Type) : Type :=
| Ok (a : A)
| Raise (e : exn).
Arguments Ok {A} a.
Arguments Raise {A} e.

(** Pure code that may raise. *)
Definition rbind {A B} (r : result A) (k : A -> result B) : result B :=
  match r with
  | Ok a => k a
  | Raise e => Raise e
  end.

Fixpoint rmapM {A B} (f : A -> result B) (l : list A) : result (list B) :=
  match l with
  | [] => Ok []
  | x :: l' => rbind (f x) (fun y => rbind (rmapM f l') (fun ys => Ok (y :: ys)))
  end.

(** A method of an object whose mutable attributes have type [S]:
    it returns a value or raises, leaves the attributes in a new state
    and appends records to the warning log. *)
Definition M (S A : Type) : Type := S -> result A * S * list string.

Definition ret {S A} (a : A) : M S A := fun s => (Ok a, s, []).

Definition bind {S A B} (m : M S A) (k : A -> M S B) : M S B :=
  fun s =>
    match m s with
    | (Ok a, s1, w1) =>
        match k a s1 with
        | (r, s2, w2) => (r, s2, w1 ++ w2)
        end
    | (Raise e, s1, w1) => (Raise e, s1, w1)
    end.

Definition raise {S A} (e : exn) : M S A := fun s => (Raise e, s, []).

Definition lift {S A} (r : result A) : M S A := fun s => (r, s, []).

Definition get {S} : M S S := fun s => (Ok s, s, []).

Definition put {S} (s' : S) : M S unit := fun _ => (Ok tt, s', []).

Definition modify {S} (f : S -> S) : M S unit := fun s => (Ok tt, f s, []).

Definition warning {S} (msg : string) : M S unit := fun s => (Ok tt, s, [msg]).

(** [try: body / except (e1, ..., en): handler]. *)
Definition try_except {S A} (body : M S A) (caught : list exn) (handler : M S A)
  : M S A :=
  fun s =>
    match body s with
    | (Ok a, s1, w1) => (Ok a, s1, w1)
    | (Raise e, s1, w1) =>
        if existsb (exn_eqb e) caught then
          match handler s1 with
          | (r, s2, w2) => (r, s2, w1 ++ w2)
          end
        else (Raise e, s1, w1)
    end.

(** Run a method of a sub-object stored in an attribute. *)
Definition zoom {S T A} (proj : S -> T) (upd : T -> S -> S) (m : M T A) : M S A :=
  fun s =>
    match m (proj s) with
    | (r, t, w) => (r, upd t s, w)
    end.

(** [for x in l: body x], collecting the values the body produces. *)
Fixpoint for_each {S A B} (body : A -> M S B) (l : list A) : M S (list B) :=
  match l with
  | [] => ret []
  | x :: l' =>
      bind (body x) (fun y =>
      bind (for_each body l') (fun ys => ret (y :: ys)))
  end.

Definition value {S A} (x : result A * S * list string) : result A := x.1.1.
Definition state {S A} (x : result A * S * list string) : S := x.1.2.
Definition log {S A} (x : result A * S * list string) : list string := x.2.

(** ** Numbers *)

(** [max(a, b)]: the first argument is kept unless the second is
    strictly greater. *)
Definition max (a b : Q) : Q :=
  match Qcompare a b with
  | Lt => b
  | _ => a
  end.

(** [min(a, b)]: the first argument is kept unless the second is
    strictly smaller. *)
Definition min (a b : Q) : Q :=
  match Qcompare b a with
  | Lt => b
  | _ => a
  end.

(** [int * float] on exact rationals: the product before rounding. *)
Definition int_mul_float (n : Z) (x : Q) : Q := Qmult (inject_Z n) x.

(** A value that is an [int] on one code path and a [float] on another. *)
Inductive num : Type :=
| Int (z : Z)
| Float (q : Q).

(** [str(n)] for an [int]. *)
Definition str_int (z : Z) : string := NilZero.string_of_int (Z.to_int z).

(** ** Sequences *)

Definition enumerate {A} (l : list A) : list (nat * A) := imap pair l.

(** [pandas.unique] / [Series.unique]: the distinct values in order of
    first appearance. *)
Fixpoint unique_from `{EqDecision A} (seen : list A) (l : list A) : list A :=
  match l with
  | [] => []
  | x :: l' =>
      if decide (x ∈ seen) then unique_from seen l'
      else x :: unique_from (x :: seen) l'
  end.

Definition unique `{EqDecision A} (l : list A) : list A := unique_from [] l.

(** [sorted(l)].  The keys used here ([int] and [str]) are totally
    ordered and equal keys are identical, so the result is the one
    sorted arrangement of [l]; it is computed by insertion. *)
Section Sorted.
Context {A : Type} (leb : A -> A -> bool).

Fixpoint insert_sorted (x : A) (l : list A) : list A :=
  match l with
  | [] => [x]
  | y :: l' => if leb x y then x :: l else y :: insert_sorted x l'
  end.

Definition sorted (l : list A) : list A := foldr insert_sorted [] l.
End Sorted.

Definition sorted_int : list Z -> list Z := sorted Z.leb.
Definition sorted_str : list string -> list string := sorted String.leb.

(** [l.index(x)]: position of the first occurrence, [ValueError] when
    there is none. *)
Fixpoint list_index (x : Z) (l : list Z) : result nat :=
  match l with
  | [] => Raise ValueError
  | y :: l' =>
      if Z.eqb y x then Ok 0%nat
      else rbind (list_index x l') (fun i => Ok (S i))
  end.

(** [l[i]]: [IndexError] when out of range (indices here are never
    negative). *)
Definition list_get {A} (l : list A) (i : nat) : result A :=
  match l !! i with
  | Some x => Ok x
  | None => Raise IndexError
  end.

(** [d[k]]: [KeyError] when absent. *)
Definition dict_get `{Countable K} {V} (d : gmap K V) (k : K) : result V :=
  match d !! k with
  | Some v => Ok v
  | None => Raise KeyError
  end.

(** ** Text

    A [str] is a sequence of Unicode code points; it is held here as
    its UTF-8 encoding, which keeps the order of strings and makes the
    comma, the digits and the other ASCII characters single bytes.  The
    character tables are those of the interpreter the package runs on
    (CPython 3.11, Unicode 14.0.0). *)

Definition code (b : ascii) : N := N_of_ascii b.

Definition is_continuation (b : ascii) : bool :=
  ((128 <=? code b) && (code b <=? 191))%N.

(** The first character of a string and what follows it.  A byte that
    starts no well-formed sequence (no [str] has one) is kept apart from
    every character as [1114112 + byte]. *)
Definition next_char (s : string) : option (N * string) :=
  match s with
  | EmptyString => None
  | String b1 s1 =>
      let n1 := code b1 in
      if (n1 <? 128)%N then Some (n1, s1)
      else
        let stray := Some (1114112 + n1, s1)%N in
        match s1 with
        | String b2 s2 =>
            if negb (is_continuation b2) then stray
            else
              let n2 := (code b2 - 128)%N in
              if ((194 <=? n1) && (n1 <=? 223))%N
              then Some ((n1 - 192) * 64 + n2, s2)%N
              else
                match s2 with
                | String b3 s3 =>
                    if negb (is_continuation b3) then stray
                    else
                      let n3 := (code b3 - 128)%N in
                      if ((224 <=? n1) && (n1 <=? 239))%N then
                        let c := (((n1 - 224) * 64 + n2) * 64 + n3)%N in
                        if ((2048 <=? c) && negb ((55296 <=? c) && (c <=? 57343)))%N
                        then Some (c, s3)
                        else stray
                      else
                        match s3 with
                        | String b4 s4 =>
                            if negb (is_continuation b4) then stray
                            else
                              let c := ((((n1 - 240) * 64 + n2) * 64 + n3) * 64
                                        + (code b4 - 128))%N in
                              if ((240 <=? n1) && (n1 <=? 244)
                                  && (65536 <=? c) && (c <=? 1114111))%N
                              then Some (c, s4)
                              else stray
                        | EmptyString => stray
                        end
                | EmptyString => stray
                end
        | EmptyString => stray
        end
  end.

Fixpoint decode_upto (fuel : nat) (s : string) : list N :=
  match fuel with
  | O => []
  | S fuel' =>
      match next_char s with
      | Some (c, rest) => c :: decode_upto fuel' rest
      | None => []
      end
  end.

(** The characters of a string. *)
Definition decode (s : string) : list N := decode_upto (String.length s) s.

Definition byte_of (n : N) : ascii := ascii_of_N n.

Definition encode_char (c : N) : string :=
  if (c <? 128)%N then String (byte_of c) EmptyString
  else if (c <? 2048)%N then
    String (byte_of (192 + c / 64))
      (String (byte_of (128 + c mod 64)) EmptyString)
  else if (c <? 65536)%N then
    String (byte_of (224 + c / 4096))
      (String (byte_of (128 + (c / 64) mod 64))
         (String (byte_of (128 + c mod 64)) EmptyString))
  else if (c <? 1114112)%N then
    String (byte_of (240 + c / 262144))
      (String (byte_of (128 + (c / 4096) mod 64))
         (String (byte_of (128 + (c / 64) mod 64))
            (String (byte_of (128 + c mod 64)) EmptyString)))
  else String (byte_of (c - 1114112)) EmptyString.

Definition encode (l : list N) : string :=
  foldr (fun c s => encode_char c +:+ s) EmptyString l.

(** Membership in a table of inclusive ranges. *)
Definition in_ranges (ranges : list (N * N)) (c : N) : bool :=
  existsb (fun r => ((fst r <=? c) && (c <=? snd r))%N) ranges.

(** [str.isspace] of one character. *)
Definition whitespace : list N :=
  [
    9; 10; 11; 12; 13; 28; 29; 30; 31; 32; 133; 160; 5760; 8192; 8193;
    8194; 8195; 8196; 8197; 8198; 8199; 8200; 8201; 8202; 8232; 8233; 8239;
    8287; 12288 ]%N.
Definition is_space (c : N) : bool := existsb (N.eqb c) whitespace.

(** The characters with a decimal digit value come in runs of ten, from
    the digit zero of a script to its digit nine; this is the table of
    the zeros. *)
Definition decimal_zeros : list N :=
  [
    48; 1632; 1776; 1984; 2406; 2534; 2662; 2790; 2918; 3046; 3174; 3302;
    3430; 3558; 3664; 3792; 3872; 4160; 4240; 6112; 6160; 6470; 6608; 6784;
    6800; 6992; 7088; 7232; 7248; 42528; 43216; 43264; 43472; 43504; 43600;
    44016; 65296; 66720; 68912; 69734; 69872; 69942; 70096; 70384; 70736;
    70864; 71248; 71360; 71472; 71904; 72016; 72784; 73040; 73120; 92768;
    92864; 93008; 120782; 120792; 120802; 120812; 120822; 123200; 123632;
    125264; 130032 ]%N.
Definition decimal_value (c : N) : option N :=
  match List.find (fun z => ((z <=? c) && (c <=? z + 9))%N) decimal_zeros with
  | Some z => Some (c - z)%N
  | None => None
  end.

(** Lower-case mapping of single characters that map to one character:
    the characters [first, first + stride, ..., last] map to themselves
    plus [delta]. *)
Definition lower_runs : list (N * N * N * Z) :=
  [
    (65, 90, 1, (32)%Z); (192, 214, 1, (32)%Z); (216, 222, 1, (32)%Z);
    (256, 302, 2, (1)%Z); (306, 310, 2, (1)%Z); (313, 327, 2, (1)%Z);
    (330, 374, 2, (1)%Z); (376, 376, 1, (-121)%Z); (377, 381, 2, (1)%Z);
    (385, 385, 1, (210)%Z); (386, 388, 2, (1)%Z); (390, 390, 1, (206)%Z);
    (391, 391, 1, (1)%Z); (393, 394, 1, (205)%Z); (395, 395, 1, (1)%Z);
    (398, 398, 1, (79)%Z); (399, 399, 1, (202)%Z); (400, 400, 1, (203)%Z);
    (401, 401, 1, (1)%Z); (403, 403, 1, (205)%Z); (404, 404, 1, (207)%Z);
    (406, 406, 1, (211)%Z); (407, 407, 1, (209)%Z); (408, 408, 1, (1)%Z);
    (412, 412, 1, (211)%Z); (413, 413, 1, (213)%Z); (415, 415, 1, (214)%Z);
    (416, 420, 2, (1)%Z); (422, 422, 1, (218)%Z); (423, 423, 1, (1)%Z);
    (425, 425, 1, (218)%Z); (428, 428, 1, (1)%Z); (430, 430, 1, (218)%Z);
    (431, 431, 1, (1)%Z); (433, 434, 1, (217)%Z); (435, 437, 2, (1)%Z);
    (439, 439, 1, (219)%Z); (440, 440, 1, (1)%Z); (444, 444, 1, (1)%Z);
    (452, 452, 1, (2)%Z); (453, 453, 1, (1)%Z); (455, 455, 1, (2)%Z);
    (456, 456, 1, (1)%Z); (458, 458, 1, (2)%Z); (459, 475, 2, (1)%Z);
    (478, 494, 2, (1)%Z); (497, 497, 1, (2)%Z); (498, 500, 2, (1)%Z);
    (502, 502, 1, (-97)%Z); (503, 503, 1, (-56)%Z); (504, 542, 2, (1)%Z);
    (544, 544, 1, (-130)%Z); (546, 562, 2, (1)%Z); (570, 570, 1, (10795)%Z);
    (571, 571, 1, (1)%Z); (573, 573, 1, (-163)%Z); (574, 574, 1, (10792)%Z);
    (577, 577, 1, (1)%Z); (579, 579, 1, (-195)%Z); (580, 580, 1, (69)%Z);
    (581, 581, 1, (71)%Z); (582, 590, 2, (1)%Z); (880, 882, 2, (1)%Z);
    (886, 886, 1, (1)%Z); (895, 895, 1, (116)%Z); (902, 902, 1, (38)%Z);
    (904, 906, 1, (37)%Z); (908, 908, 1, (64)%Z); (910, 911, 1, (63)%Z);
    (913, 929, 1, (32)%Z); (931, 939, 1, (32)%Z); (975, 975, 1, (8)%Z);
    (984, 1006, 2, (1)%Z); (1012, 1012, 1, (-60)%Z); (1015, 1015, 1, (1)%Z);
    (1017, 1017, 1, (-7)%Z); (1018, 1018, 1, (1)%Z); (1021, 1023, 1, (-130)%Z);
    (1024, 1039, 1, (80)%Z); (1040, 1071, 1, (32)%Z); (1120, 1152, 2, (1)%Z);
    (1162, 1214, 2, (1)%Z); (1216, 1216, 1, (15)%Z); (1217, 1229, 2, (1)%Z);
    (1232, 1326, 2, (1)%Z); (1329, 1366, 1, (48)%Z); (4256, 4293, 1, (7264)%Z);
    (4295, 4295, 1, (7264)%Z); (4301, 4301, 1, (7264)%Z);
    (5024, 5103, 1, (38864)%Z); (5104, 5109, 1, (8)%Z);
    (7312, 7354, 1, (-3008)%Z); (7357, 7359, 1, (-3008)%Z);
    (7680, 7828, 2, (1)%Z); (7838, 7838, 1, (-7615)%Z); (7840, 7934, 2, (1)%Z);
    (7944, 7951, 1, (-8)%Z); (7960, 7965, 1, (-8)%Z); (7976, 7983, 1, (-8)%Z);
    (7992, 7999, 1, (-8)%Z); (8008, 8013, 1, (-8)%Z); (8025, 8031, 2, (-8)%Z);
    (8040, 8047, 1, (-8)%Z); (8072, 8079, 1, (-8)%Z); (8088, 8095, 1, (-8)%Z);
    (8104, 8111, 1, (-8)%Z); (8120, 8121, 1, (-8)%Z); (8122, 8123, 1, (-74)%Z);
    (8124, 8124, 1, (-9)%Z); (8136, 8139, 1, (-86)%Z); (8140, 8140, 1, (-9)%Z);
    (8152, 8153, 1, (-8)%Z); (8154, 8155, 1, (-100)%Z); (8168, 8169, 1, (-8)%Z);
    (8170, 8171, 1, (-112)%Z); (8172, 8172, 1, (-7)%Z);
    (8184, 8185, 1, (-128)%Z); (8186, 8187, 1, (-126)%Z);
    (8188, 8188, 1, (-9)%Z); (8486, 8486, 1, (-7517)%Z);
    (8490, 8490, 1, (-8383)%Z); (8491, 8491, 1, (-8262)%Z);
    (8498, 8498, 1, (28)%Z); (8544, 8559, 1, (16)%Z); (8579, 8579, 1, (1)%Z);
    (9398, 9423, 1, (26)%Z); (11264, 11311, 1, (48)%Z); (11360, 11360, 1, (1)%Z);
    (11362, 11362, 1, (-10743)%Z); (11363, 11363, 1, (-3814)%Z);
    (11364, 11364, 1, (-10727)%Z); (11367, 11371, 2, (1)%Z);
    (11373, 11373, 1, (-10780)%Z); (11374, 11374, 1, (-10749)%Z);
    (11375, 11375, 1, (-10783)%Z); (11376, 11376, 1, (-10782)%Z);
    (11378, 11378, 1, (1)%Z); (11381, 11381, 1, (1)%Z);
    (11390, 11391, 1, (-10815)%Z); (11392, 11490, 2, (1)%Z);
    (11499, 11501, 2, (1)%Z); (11506, 11506, 1, (1)%Z); (42560, 42604, 2, (1)%Z);
    (42624, 42650, 2, (1)%Z); (42786, 42798, 2, (1)%Z); (42802, 42862, 2, (1)%Z);
    (42873, 42875, 2, (1)%Z); (42877, 42877, 1, (-35332)%Z);
    (42878, 42886, 2, (1)%Z); (42891, 42891, 1, (1)%Z);
    (42893, 42893, 1, (-42280)%Z); (42896, 42898, 2, (1)%Z);
    (42902, 42920, 2, (1)%Z); (42922, 42922, 1, (-42308)%Z);
    (42923, 42923, 1, (-42319)%Z); (42924, 42924, 1, (-42315)%Z);
    (42925, 42925, 1, (-42305)%Z); (42926, 42926, 1, (-42308)%Z);
    (42928, 42928, 1, (-42258)%Z); (42929, 42929, 1, (-42282)%Z);
    (42930, 42930, 1, (-42261)%Z); (42931, 42931, 1, (928)%Z);
    (42932, 42946, 2, (1)%Z); (42948, 42948, 1, (-48)%Z);
    (42949, 42949, 1, (-42307)%Z); (42950, 42950, 1, (-35384)%Z);
    (42951, 42953, 2, (1)%Z); (42960, 42960, 1, (1)%Z); (42966, 42968, 2, (1)%Z);
    (42997, 42997, 1, (1)%Z); (65313, 65338, 1, (32)%Z);
    (66560, 66599, 1, (40)%Z); (66736, 66771, 1, (40)%Z);
    (66928, 66938, 1, (39)%Z); (66940, 66954, 1, (39)%Z);
    (66956, 66962, 1, (39)%Z); (66964, 66965, 1, (39)%Z);
    (68736, 68786, 1, (64)%Z); (71840, 71871, 1, (32)%Z);
    (93760, 93791, 1, (32)%Z); (125184, 125217, 1, (34)%Z) ]%N.
Definition lower_char (c : N) : list N :=
  if (c =? 304)%N then [105; 775]%N
  else
    match List.find
            (fun r => let '(first, last, stride, _) := r in
                      ((first <=? c) && (c <=? last)
                       && ((c - first) mod stride =? 0))%N)
            lower_runs with
    | Some (_, _, _, delta) => [Z.to_N (Z.of_N c + delta)]
    | None => [c]
    end.

(** The properties Cased and Case_Ignorable, which decide the lower
    case of a capital sigma. *)
Definition cased_ranges : list (N * N) :=
  [
    (65, 90); (97, 122); (170, 170); (181, 181); (186, 186); (192, 214);
    (216, 246); (248, 442); (444, 447); (452, 659); (661, 696); (704, 705);
    (736, 740); (837, 837); (880, 883); (886, 887); (890, 893); (895, 895);
    (902, 902); (904, 906); (908, 908); (910, 929); (931, 1013);
    (1015, 1153); (1162, 1327); (1329, 1366); (1376, 1416); (4256, 4293);
    (4295, 4295); (4301, 4301); (4304, 4346); (4349, 4351); (5024, 5109);
    (5112, 5117); (7296, 7304); (7312, 7354); (7357, 7359); (7424, 7615);
    (7680, 7957); (7960, 7965); (7968, 8005); (8008, 8013); (8016, 8023);
    (8025, 8025); (8027, 8027); (8029, 8029); (8031, 8061); (8064, 8116);
    (8118, 8124); (8126, 8126); (8130, 8132); (8134, 8140); (8144, 8147);
    (8150, 8155); (8160, 8172); (8178, 8180); (8182, 8188); (8305, 8305);
    (8319, 8319); (8336, 8348); (8450, 8450); (8455, 8455); (8458, 8467);
    (8469, 8469); (8473, 8477); (8484, 8484); (8486, 8486); (8488, 8488);
    (8490, 8493); (8495, 8500); (8505, 8505); (8508, 8511); (8517, 8521);
    (8526, 8526); (8544, 8575); (8579, 8580); (9398, 9449); (11264, 11492);
    (11499, 11502); (11506, 11507); (11520, 11557); (11559, 11559);
    (11565, 11565); (42560, 42605); (42624, 42653); (42786, 42887);
    (42891, 42894); (42896, 42954); (42960, 42961); (42963, 42963);
    (42965, 42969); (42997, 42998); (43000, 43002); (43824, 43866);
    (43868, 43880); (43888, 43967); (64256, 64262); (64275, 64279);
    (65313, 65338); (65345, 65370); (66560, 66639); (66736, 66771);
    (66776, 66811); (66928, 66938); (66940, 66954); (66956, 66962);
    (66964, 66965); (66967, 66977); (66979, 66993); (66995, 67001);
    (67003, 67004); (67456, 67456); (67459, 67461); (67463, 67504);
    (67506, 67514); (68736, 68786); (68800, 68850); (71840, 71903);
    (93760, 93823); (119808, 119892); (119894, 119964); (119966, 119967);
    (119970, 119970); (119973, 119974); (119977, 119980); (119982, 119993);
    (119995, 119995); (119997, 120003); (120005, 120069); (120071, 120074);
    (120077, 120084); (120086, 120092); (120094, 120121); (120123, 120126);
    (120128, 120132); (120134, 120134); (120138, 120144); (120146, 120485);
    (120488, 120512); (120514, 120538); (120540, 120570); (120572, 120596);
    (120598, 120628); (120630, 120654); (120656, 120686); (120688, 120712);
    (120714, 120744); (120746, 120770); (120772, 120779); (122624, 122633);
    (122635, 122654); (125184, 125251); (127280, 127305); (127312, 127337);
    (127344, 127369) ]%N.

Definition case_ignorable_ranges : list (N * N) :=
  [
    (39, 39); (46, 46); (58, 58); (94, 94); (96, 96); (168, 168);
    (173, 173); (175, 175); (180, 180); (183, 184); (688, 879); (884, 885);
    (890, 890); (900, 901); (903, 903); (1155, 1161); (1369, 1369);
    (1375, 1375); (1425, 1469); (1471, 1471); (1473, 1474); (1476, 1477);
    (1479, 1479); (1524, 1524); (1536, 1541); (1552, 1562); (1564, 1564);
    (1600, 1600); (1611, 1631); (1648, 1648); (1750, 1757); (1759, 1768);
    (1770, 1773); (1807, 1807); (1809, 1809); (1840, 1866); (1958, 1968);
    (2027, 2037); (2042, 2042); (2045, 2045); (2070, 2093); (2137, 2139);
    (2184, 2184); (2192, 2193); (2200, 2207); (2249, 2306); (2362, 2362);
    (2364, 2364); (2369, 2376); (2381, 2381); (2385, 2391); (2402, 2403);
    (2417, 2417); (2433, 2433); (2492, 2492); (2497, 2500); (2509, 2509);
    (2530, 2531); (2558, 2558); (2561, 2562); (2620, 2620); (2625, 2626);
    (2631, 2632); (2635, 2637); (2641, 2641); (2672, 2673); (2677, 2677);
    (2689, 2690); (2748, 2748); (2753, 2757); (2759, 2760); (2765, 2765);
    (2786, 2787); (2810, 2815); (2817, 2817); (2876, 2876); (2879, 2879);
    (2881, 2884); (2893, 2893); (2901, 2902); (2914, 2915); (2946, 2946);
    (3008, 3008); (3021, 3021); (3072, 3072); (3076, 3076); (3132, 3132);
    (3134, 3136); (3142, 3144); (3146, 3149); (3157, 3158); (3170, 3171);
    (3201, 3201); (3260, 3260); (3263, 3263); (3270, 3270); (3276, 3277);
    (3298, 3299); (3328, 3329); (3387, 3388); (3393, 3396); (3405, 3405);
    (3426, 3427); (3457, 3457); (3530, 3530); (3538, 3540); (3542, 3542);
    (3633, 3633); (3636, 3642); (3654, 3662); (3761, 3761); (3764, 3772);
    (3782, 3782); (3784, 3789); (3864, 3865); (3893, 3893); (3895, 3895);
    (3897, 3897); (3953, 3966); (3968, 3972); (3974, 3975); (3981, 3991);
    (3993, 4028); (4038, 4038); (4141, 4144); (4146, 4151); (4153, 4154);
    (4157, 4158); (4184, 4185); (4190, 4192); (4209, 4212); (4226, 4226);
    (4229, 4230); (4237, 4237); (4253, 4253); (4348, 4348); (4957, 4959);
    (5906, 5908); (5938, 5939); (5970, 5971); (6002, 6003); (6068, 6069);
    (6071, 6077); (6086, 6086); (6089, 6099); (6103, 6103); (6109, 6109);
    (6155, 6159); (6211, 6211); (6277, 6278); (6313, 6313); (6432, 6434);
    (6439, 6440); (6450, 6450); (6457, 6459); (6679, 6680); (6683, 6683);
    (6742, 6742); (6744, 6750); (6752, 6752); (6754, 6754); (6757, 6764);
    (6771, 6780); (6783, 6783); (6823, 6823); (6832, 6862); (6912, 6915);
    (6964, 6964); (6966, 6970); (6972, 6972); (6978, 6978); (7019, 7027);
    (7040, 7041); (7074, 7077); (7080, 7081); (7083, 7085); (7142, 7142);
    (7144, 7145); (7149, 7149); (7151, 7153); (7212, 7219); (7222, 7223);
    (7288, 7293); (7376, 7378); (7380, 7392); (7394, 7400); (7405, 7405);
    (7412, 7412); (7416, 7417); (7468, 7530); (7544, 7544); (7579, 7679);
    (8125, 8125); (8127, 8129); (8141, 8143); (8157, 8159); (8173, 8175);
    (8189, 8190); (8203, 8207); (8216, 8217); (8228, 8228); (8231, 8231);
    (8234, 8238); (8288, 8292); (8294, 8303); (8305, 8305); (8319, 8319);
    (8336, 8348); (8400, 8432); (11388, 11389); (11503, 11505);
    (11631, 11631); (11647, 11647); (11744, 11775); (11823, 11823);
    (12293, 12293); (12330, 12333); (12337, 12341); (12347, 12347);
    (12441, 12446); (12540, 12542); (40981, 40981); (42232, 42237);
    (42508, 42508); (42607, 42610); (42612, 42621); (42623, 42623);
    (42652, 42655); (42736, 42737); (42752, 42785); (42864, 42864);
    (42888, 42890); (42994, 42996); (43000, 43001); (43010, 43010);
    (43014, 43014); (43019, 43019); (43045, 43046); (43052, 43052);
    (43204, 43205); (43232, 43249); (43263, 43263); (43302, 43309);
    (43335, 43345); (43392, 43394); (43443, 43443); (43446, 43449);
    (43452, 43453); (43471, 43471); (43493, 43494); (43561, 43566);
    (43569, 43570); (43573, 43574); (43587, 43587); (43596, 43596);
    (43632, 43632); (43644, 43644); (43696, 43696); (43698, 43700);
    (43703, 43704); (43710, 43711); (43713, 43713); (43741, 43741);
    (43756, 43757); (43763, 43764); (43766, 43766); (43867, 43871);
    (43881, 43883); (44005, 44005); (44008, 44008); (44013, 44013);
    (64286, 64286); (64434, 64450); (65024, 65039); (65043, 65043);
    (65056, 65071); (65106, 65106); (65109, 65109); (65279, 65279);
    (65287, 65287); (65294, 65294); (65306, 65306); (65342, 65342);
    (65344, 65344); (65392, 65392); (65438, 65439); (65507, 65507);
    (65529, 65531); (66045, 66045); (66272, 66272); (66422, 66426);
    (67456, 67461); (67463, 67504); (67506, 67514); (68097, 68099);
    (68101, 68102); (68108, 68111); (68152, 68154); (68159, 68159);
    (68325, 68326); (68900, 68903); (69291, 69292); (69446, 69456);
    (69506, 69509); (69633, 69633); (69688, 69702); (69744, 69744);
    (69747, 69748); (69759, 69761); (69811, 69814); (69817, 69818);
    (69821, 69821); (69826, 69826); (69837, 69837); (69888, 69890);
    (69927, 69931); (69933, 69940); (70003, 70003); (70016, 70017);
    (70070, 70078); (70089, 70092); (70095, 70095); (70191, 70193);
    (70196, 70196); (70198, 70199); (70206, 70206); (70367, 70367);
    (70371, 70378); (70400, 70401); (70459, 70460); (70464, 70464);
    (70502, 70508); (70512, 70516); (70712, 70719); (70722, 70724);
    (70726, 70726); (70750, 70750); (70835, 70840); (70842, 70842);
    (70847, 70848); (70850, 70851); (71090, 71093); (71100, 71101);
    (71103, 71104); (71132, 71133); (71219, 71226); (71229, 71229);
    (71231, 71232); (71339, 71339); (71341, 71341); (71344, 71349);
    (71351, 71351); (71453, 71455); (71458, 71461); (71463, 71467);
    (71727, 71735); (71737, 71738); (71995, 71996); (71998, 71998);
    (72003, 72003); (72148, 72151); (72154, 72155); (72160, 72160);
    (72193, 72202); (72243, 72248); (72251, 72254); (72263, 72263);
    (72273, 72278); (72281, 72283); (72330, 72342); (72344, 72345);
    (72752, 72758); (72760, 72765); (72767, 72767); (72850, 72871);
    (72874, 72880); (72882, 72883); (72885, 72886); (73009, 73014);
    (73018, 73018); (73020, 73021); (73023, 73029); (73031, 73031);
    (73104, 73105); (73109, 73109); (73111, 73111); (73459, 73460);
    (78896, 78904); (92912, 92916); (92976, 92982); (92992, 92995);
    (94031, 94031); (94095, 94111); (94176, 94177); (94179, 94180);
    (110576, 110579); (110581, 110587); (110589, 110590); (113821, 113822);
    (113824, 113827); (118528, 118573); (118576, 118598); (119143, 119145);
    (119155, 119170); (119173, 119179); (119210, 119213); (119362, 119364);
    (121344, 121398); (121403, 121452); (121461, 121461); (121476, 121476);
    (121499, 121503); (121505, 121519); (122880, 122886); (122888, 122904);
    (122907, 122913); (122915, 122916); (122918, 122922); (123184, 123197);
    (123566, 123566); (123628, 123631); (125136, 125142); (125252, 125259);
    (127995, 127999); (917505, 917505); (917536, 917631); (917760, 917999) ]%N.

Definition is_cased (c : N) : bool := in_ranges cased_ranges c.
Definition is_case_ignorable (c : N) : bool := in_ranges case_ignorable_ranges c.

(** The nearest character that is not case-ignorable. *)
Definition nearest_letter (l : list N) : option N :=
  List.find (fun c => negb (is_case_ignorable c)) l.

(** A capital sigma is final when a cased letter comes before it and
    none comes after it, case-ignorable characters apart. *)
Definition final_sigma (before_reversed after : list N) : bool :=
  match nearest_letter before_reversed with
  | Some p =>
      (is_cased p
       && match nearest_letter after with
          | Some q => negb (is_cased q)
          | None => true
          end)%bool
  | None => false
  end.

Fixpoint lower_chars (before_reversed l : list N) : list N :=
  match l with
  | [] => []
  | c :: rest =>
      (if (c =? 931)%N
       then [if final_sigma before_reversed rest then 962 else 963]%N
       else lower_char c)
      ++ lower_chars (c :: before_reversed) rest
  end.

(** [s.lower()]. *)
Definition lower (s : string) : string := encode (lower_chars [] (decode s)).

(** [s.lstrip()]: leading white-space characters, of one to three
    bytes each, are dropped. *)
Fixpoint lstrip (s : string) : string :=
  match s with
  | EmptyString => EmptyString
  | String _ s1 =>
      match next_char s with
      | Some (c, _) =>
          if is_space c then
            if (c <? 128)%N then lstrip s1
            else
              match s1 with
              | String _ s2 =>
                  if (c <? 2048)%N then lstrip s2
                  else
                    match s2 with
                    | String _ s3 => lstrip s3
                    | EmptyString => s
                    end
              | EmptyString => s
              end
          else s
      | None => s
      end
  end.

Fixpoint drop_while {A} (p : A -> bool) (l : list A) : list A :=
  match l with
  | [] => []
  | x :: l' => if p x then drop_while p l' else l
  end.

(** [s.rstrip()]. *)
Definition rstrip (s : string) : string :=
  encode (rev (drop_while is_space (rev (decode s)))).

(** [s.strip()]. *)
Definition strip (s : string) : string := rstrip (lstrip s).

(** [s.split(sep)] for a one-character separator: never an empty list. *)
Fixpoint split (sep : ascii) (s : string) : list string :=
  match s with
  | EmptyString => [EmptyString]
  | String c s' =>
      if Ascii.eqb c sep then EmptyString :: split sep s'
      else
        match split sep s' with
        | h :: t => String c h :: t
        | [] => [String c EmptyString]
        end
  end.

(** Truth value of a [str]. *)
Definition truthy (s : string) : bool :=
  match s with
  | EmptyString => false
  | _ => true
  end.

(** [a in s] for a one-character needle. *)
Fixpoint contains_char (c : ascii) (s : string) : bool :=
  match s with
  | EmptyString => false
  | String d s' => (Ascii.eqb d c || contains_char c s')%bool
  end.

(** [s.split(c)[0]]: the part of [s] before the first [c]. *)
Fixpoint before_char (c : ascii) (s : string) : string :=
  match s with
  | EmptyString => EmptyString
  | String d s' => if Ascii.eqb d c then EmptyString else String d (before_char c s')
  end.

(** [s.startswith(p)]. *)
Fixpoint startswith (p s : string) : bool :=
  match p with
  | EmptyString => true
  | String a p' =>
      match s with
      | EmptyString => false
      | String b s' => (Ascii.eqb a b && startswith p' s')%bool
      end
  end.

(** *** [int(s)]

    The interpreter first rewrites the string in ASCII: a character
    below 127 is kept, a white-space character becomes a space, a
    decimal digit of any script becomes the ASCII digit of its value,
    and the first character of any other kind becomes a question mark
    that ends the text. *)
Fixpoint to_ascii_digits (l : list N) : string :=
  match l with
  | [] => EmptyString
  | c :: rest =>
      if (c <? 127)%N then String (byte_of c) (to_ascii_digits rest)
      else if is_space c then String " " (to_ascii_digits rest)
      else
        match decimal_value c with
        | Some d => String (byte_of (48 + d)) (to_ascii_digits rest)
        | None => "?"
        end
  end.

(** White space as the number parser sees it: TAB, LF, VT, FF, CR and
    SPACE. *)
Definition is_c_space (b : ascii) : bool :=
  (((9 <=? code b) && (code b <=? 13)) || (code b =? 32))%N.

Fixpoint skip_spaces (s : string) : string :=
  match s with
  | EmptyString => EmptyString
  | String b s' => if is_c_space b then skip_spaces s' else s
  end.

(** The text without the white space at its end. *)
Fixpoint drop_trailing_spaces (s : string) : string :=
  match s with
  | EmptyString => EmptyString
  | String b s' =>
      match drop_trailing_spaces s' with
      | EmptyString => if is_c_space b then EmptyString else String b EmptyString
      | t => String b t
      end
  end.

Definition is_digit (c : ascii) : bool :=
  (Ascii.leb "0" c && Ascii.leb c "9")%bool.

Definition digit_value (c : ascii) : Z :=
  Z.of_nat (nat_of_ascii c - 48).

(** Digits after a first digit was read: more digits, each optionally
    preceded by one underscore. *)
Fixpoint int_digits (acc : Z) (s : string) : option Z :=
  match s with
  | EmptyString => Some acc
  | String c s' =>
      if is_digit c then int_digits (10 * acc + digit_value c)%Z s'
      else if Ascii.eqb c "_" then
        match s' with
        | String d s'' =>
            if is_digit d then int_digits (10 * acc + digit_value d)%Z s''
            else None
        | EmptyString => None
        end
      else None
  end.

Definition int_unsigned (s : string) : option Z :=
  match s with
  | String c s' => if is_digit c then int_digits (digit_value c) s' else None
  | EmptyString => None
  end.

(** [sys.get_int_max_str_digits()], at its default. *)
Definition int_max_str_digits : nat := 4300.

Fixpoint count_digits (s : string) : nat :=
  match s with
  | EmptyString => O
  | String c s' => if is_digit c then S (count_digits s') else count_digits s'
  end.

(** [int(s)] in base 10: surrounding white space, an optional sign,
    then digits, single underscores allowed between them; a text with
    more digits than the limit, or anything else, is a [ValueError]. *)
Definition int_of_str (s : string) : result Z :=
  let t := drop_trailing_spaces (skip_spaces (to_ascii_digits (decode s))) in
  let parsed :=
    match t with
    | String "+" r => int_unsigned r
    | String "-" r => Z.opp <$> int_unsigned r
    | _ => int_unsigned t
    end in
  match parsed with
  | Some z =>
      if (int_max_str_digits <? count_digits t)%nat then Raise ValueError else Ok z
  | None => Raise ValueError
  end.

Definition join (sep : string) (l : list string) : string := String.concat sep l.

End Py.

Export Py (Ok, Raise).

Declare Scope py_scope.
Delimit Scope py_scope with py.
Notation "x <- m ;; k" := (Py.bind m (fun x => k))
  (at level 20, m at level 99, k at level 200, only parsing) : py_scope.
Notation "m ;;; k" := (Py.bind m (fun _ => k))
  (at level 100, k at level 200, right associativity, only parsing) : py_scope.

(* ================================================================== *)
(** * [core/config.py] *)
(* ================================================================== *)

Record LayoutConfig : Type := {
  timeline_width : string;
  year_spacing : Q;
  branch_distance : Q;
  spine_length : Q;
  smart_spacing : bool;
  min_year_spacing : Q;
}.

Record TimeLogicConfig : Type := {
  time_direction : string;
  start_year : Z;
  end_year : Z;
  (** [None] stands for a missing (null) rule. *)
  upper_years : option string;
  lower_years : string;
}.

(* ================================================================== *)
(** * [core/layout_engine.py] *)
(* ================================================================== *)

(** The four columns 年份, 种类, 方法名 and 引用标识. *)
Record Row : Type := {
  year : Z;
  category : string;
  name : string;
  citation : string;
}.

Abbreviation DataFrame := (list Row).

(** [df["年份"]] and [df["种类"]]. *)
Definition col_year (df : DataFrame) : list Z := year <$> df.
Definition col_category (df : DataFrame) : list string := category <$> df.

(** [df.groupby("年份").get_group(y)]: the rows of that year, in file
    order. *)
Definition get_group (df : DataFrame) (y : Z) : list Row :=
  filter (fun r => year r = y) df.

(** [df.groupby("年份").size().to_dict()]. *)
Definition groupby_size (df : DataFrame) : gmap Z nat :=
  foldr (fun r m => <[year r := S (default 0%nat (m !! year r))]> m) ∅ df.

Record LayoutParams : Type := {
  year_counts : gmap Z nat;
  max_nodes : nat;
  years : list Z;
  positions : gmap Z Q;
  adjusted_spacing : Q;
  adjusted_branch : Q;
  total_width : Py.num;
}.

Module SmartLayoutEngine.

(** The mutable attribute of an engine; [config] and [time_config] are
    never assigned after construction and are passed as arguments. *)
Record t : Type := {
  _year_order : list Z;
}.

(** [__init__]. *)
Definition init : t := {| _year_order := [] |}.

Local Open Scope py_scope.

Definition calculate_layout (config : LayoutConfig) (df : DataFrame)
  : Py.M t LayoutParams :=
  let year_counts := groupby_size df in
  let max_nodes :=
    if decide (year_counts = ∅) then 1%nat
    else max_list (snd <$> map_to_list year_counts) in
  let years := Py.sorted_int (Py.unique (col_year df)) in
  Py.put {| _year_order := years |} ;;;
  let '(adjusted_spacing, adjusted_branch) :=
    if smart_spacing config then
      let base_spacing := year_spacing config in
      let req_width := Py.int_mul_float (Z.of_nat max_nodes) (5 # 2) in
      let adjusted_spacing :=
        Py.max (min_year_spacing config) (Py.min req_width base_spacing) in
      let base_branch := branch_distance config in
      let adjusted_branch :=
        Py.max base_branch (Py.int_mul_float (Z.of_nat max_nodes) (3 # 5)) in
      (adjusted_spacing, adjusted_branch)
    else (year_spacing config, branch_distance config) in
  let start := 0%Z in
  let positions :=
    foldl (fun (pos : gmap Z Q) '(i, year) =>
             <[year := (inject_Z start + Py.int_mul_float (Z.of_nat i) adjusted_spacing)%Q]> pos)
          ∅ (Py.enumerate years) in
  let total_w :=
    if (1 <? length years)%nat
    then Py.Float (Py.int_mul_float (Z.of_nat (length years) - 1) adjusted_spacing)
    else Py.Int 0 in
  Py.ret {| year_counts := year_counts;
            max_nodes := max_nodes;
            years := years;
            positions := positions;
            adjusted_spacing := adjusted_spacing;
            adjusted_branch := adjusted_branch;
            total_width := total_w |}.

(** [positions.get(year, 0.0)]. *)
Definition get_year_position (year : Z) (layout_params : LayoutParams) : Q :=
  default 0%Q (positions layout_params !! year).

Definition warn_msg (upper_rule : string) : string :=
  "无效的 upper_years 规则: " +:+ upper_rule +:+ "，使用默认值 'order'".

(** The block
    [try: index = year_order.index(year) / except ValueError: index = 0]
    followed by [return "above" if index % 2 == 0 else "below"]. *)
Definition side_by_order (year_order : list Z) (year : Z) : Py.M t string :=
  index <- Py.try_except (Py.lift (Py.list_index year year_order))
                         [Py.ValueError] (Py.ret 0%nat) ;;
  Py.ret (if (index mod 2 =? 0)%nat then "above" else "below").

Definition determine_side (time_config : TimeLogicConfig) (year : Z)
  : Py.M t string :=
  self <- Py.get ;;
  let upper_rule := Py.lower (default "" (upper_years time_config)) in
  let year_order :=
    match _year_order self with
    | [] => [year]
    | l => l
    end in
  if bool_decide (upper_rule ∈ ["order"; "sequence"; "index"]) then
    side_by_order year_order year
  else if String.eqb upper_rule "odd" then
    Py.ret (if (year mod 2 =? 1)%Z then "above" else "below")
  else if String.eqb upper_rule "even" then
    Py.ret (if (year mod 2 =? 0)%Z then "above" else "below")
  else
    Py.try_except
      (let year_strs := Py.split "," upper_rule in
       upper_list <- Py.lift
         (Py.rmapM (fun y => Py.int_of_str (Py.strip y))
                   (List.filter (fun y => Py.truthy (Py.strip y)) year_strs)) ;;
       Py.ret (if bool_decide (year ∈ upper_list) then "above" else "below"))
      [Py.ValueError; Py.AttributeError]
      (Py.warning (warn_msg upper_rule) ;;;
       side_by_order year_order year).

(** The loop [for year in years:] of [get_node_distribution], which
    stores one entry per year in [distribution]. *)
Fixpoint distribute (time_config : TimeLogicConfig) (df : DataFrame)
    (distribution : gmap Z (gmap string nat)) (years : list Z)
  : Py.M t (gmap Z (gmap string nat)) :=
  match years with
  | [] => Py.ret distribution
  | year :: rest =>
      side <- determine_side time_config year ;;
      let year_data := get_group df year in
      let count := length year_data in
      let entry : gmap string nat :=
        <["above" := if String.eqb side "above" then count else 0%nat]>
          (<["below" := if String.eqb side "below" then count else 0%nat]>
             (<["total" := count]> ∅)) in
      distribute time_config df (<[year := entry]> distribution) rest
  end.

Definition get_node_distribution (time_config : TimeLogicConfig) (df : DataFrame)
  : Py.M t (gmap Z (gmap string nat)) :=
  let years := Py.sorted_int (Py.unique (col_year df)) in
  self <- Py.get ;;
  (match _year_order self with
   | [] => Py.put {| _year_order := years |}
   | _ => Py.ret tt
   end) ;;;
  distribute time_config df ∅ years.

End SmartLayoutEngine.

(* ================================================================== *)
(** * [core/layout_engine.py] in binary64 arithmetic *)
(* ================================================================== *)

(** The interpreter's [float]: IEEE 754 binary64 with rounding to
    nearest, ties to even, as specified by the standard library's
    [SpecFloat].  Infinities, NaN and the two zeros are values. *)
Module Binary64.

Definition float : Type := spec_float.

Definition prec : Z := 53.
Definition emax : Z := 1024.

(** [float(n)] for an [int]: the nearest float.  The integers converted
    are counts and indices of rows, which are below [2 ** 63], far from
    the range where the conversion overflows. *)
Definition of_int (n : Z) : float := binary_normalize prec emax n 0 false.

Definition mul (x y : float) : float := SFmul prec emax x y.
Definition add (x y : float) : float := SFadd prec emax x y.
Definition div (x y : float) : float := SFdiv prec emax x y.

(** [x < y]; false as soon as one side is NaN. *)
Definition ltb (x y : float) : bool := SFltb x y.
(** [x <= y]. *)
Definition leb (x y : float) : bool := SFleb x y.

(** The literal [digits * 10 ** -places], for [digits] and
    [10 ** places] below [2 ** 53]: the nearest float, which is the
    correctly rounded quotient of two exact floats. *)
Definition decimal (digits : Z) (places : nat) : float :=
  div (of_int digits) (of_int (10 ^ Z.of_nat places)).

(** [int * float] and [int + float]: the [int] is converted first. *)
Definition int_mul_float (n : Z) (x : float) : float := mul (of_int n) x.
Definition int_add_float (n : Z) (x : float) : float := add (of_int n) x.

(** [max(a, b)]: the first argument is kept unless the second is
    strictly greater. *)
Definition max (a b : float) : float := if ltb a b then b else a.

(** [min(a, b)]: the first argument is kept unless the second is
    strictly smaller. *)
Definition min (a b : float) : float := if ltb b a then b else a.


(** The real number a finite float stands for. *)
Definition to_Q (x : float) : option Q :=
  match x with
  | S754_zero _ => Some 0%Q
  | S754_finite s m e => Some (inject_Z (cond_Zopp s (Zpos m)) * Qpower 2 e)%Q
  | S754_infinity _ | S754_nan => None
  end.

End Binary64.

(** [SmartLayoutEngine.calculate_layout] and [get_year_position] once
    more, with the configuration and the results in [Binary64.float]
    and every product rounded as the interpreter rounds it.  The
    mutable attribute of the engine is the one of [SmartLayoutEngine]. *)
Module RoundedLayout.

Record LayoutConfig : Type := {
  timeline_width : string;
  year_spacing : Binary64.float;
  branch_distance : Binary64.float;
  spine_length : Binary64.float;
  smart_spacing : bool;
  min_year_spacing : Binary64.float;
}.

(** A value that is an [int] on one code path and a [float] on another. *)
Inductive num : Type :=
| Int (z : Z)
| Float (x : Binary64.float).

Record LayoutParams : Type := {
  year_counts : gmap Z nat;
  max_nodes : nat;
  years : list Z;
  positions : gmap Z Binary64.float;
  adjusted_spacing : Binary64.float;
  adjusted_branch : Binary64.float;
  total_width : num;
}.

Local Open Scope py_scope.

Definition calculate_layout (config : LayoutConfig) (df : DataFrame)
  : Py.M SmartLayoutEngine.t LayoutParams :=
  let year_counts := groupby_size df in
  let max_nodes :=
    if decide (year_counts = ∅) then 1%nat
    else max_list (snd <$> map_to_list year_counts) in
  let years := Py.sorted_int (Py.unique (col_year df)) in
  Py.put {| SmartLayoutEngine._year_order := years |} ;;;
  let '(adjusted_spacing, adjusted_branch) :=
    if smart_spacing config then
      let base_spacing := year_spacing config in
      let req_width :=
        Binary64.int_mul_float (Z.of_nat max_nodes) (Binary64.decimal 25 1) in
      let adjusted_spacing :=
        Binary64.max (min_year_spacing config) (Binary64.min req_width base_spacing) in
      let base_branch := branch_distance config in
      let adjusted_branch :=
        Binary64.max base_branch
          (Binary64.int_mul_float (Z.of_nat max_nodes) (Binary64.decimal 6 1)) in
      (adjusted_spacing, adjusted_branch)
    else (year_spacing config, branch_distance config) in
  let start := 0%Z in
  let positions :=
    foldl (fun (pos : gmap Z Binary64.float) '(i, year) =>
             <[year := Binary64.int_add_float start
                         (Binary64.int_mul_float (Z.of_nat i) adjusted_spacing)]> pos)
          ∅ (Py.enumerate years) in
  let total_w :=
    if (1 <? length years)%nat
    then Float (Binary64.int_mul_float (Z.of_nat (length years) - 1) adjusted_spacing)
    else Int 0 in
  Py.ret {| year_counts := year_counts;
            max_nodes := max_nodes;
            years := years;
            positions := positions;
            adjusted_spacing := adjusted_spacing;
            adjusted_branch := adjusted_branch;
            total_width := total_w |}.

(** [float(positions.get(year, 0.0))]. *)
Definition get_year_position (year : Z) (layout_params : LayoutParams)
  : Binary64.float :=
  default (S754_zero false) (positions layout_params !! year).

End RoundedLayout.

(* ================================================================== *)
(** * [core/config.py], continued *)
(* ================================================================== *)

Record VisualConfig : Type := {
  node_width : string;
  node_height : string;
  node_font : string;
  ref_font : string;
  inner_sep : string;
  line_width : string;
  rounded_corners : string;
  max_lines : Z;
}.

Record ArrowConfig : Type := {
  arrow_style : string;
  arrow_color : string;
  arrow_shorten : string;
}.

Record OutputConfig : Type := {
  input_file : string;
  output_file : string;
  show_legend : bool;
  caption : string;
  label : string;
  adjustbox_width : string;
}.

Module ColorConfig.

Record t : Type := {
  color_single : string;
  color_multi : string;
  color_adaptive : string;
  color_vl : string;
  color_dense : string;
  color_attention : string;
  color_hybrid : string;
  axis_color : string;
  conn_color : string;
}.

(** The class attribute [DEFAULT_COLORS]. *)
Definition DEFAULT_COLORS : list string :=
  [ "cyan!20"; "green!20"; "yellow!40"; "purple!20"; "orange!30";
    "red!20"; "blue!20"; "pink!20"; "teal!20"; "lime!30";
    "magenta!20"; "brown!20"; "violet!20"; "olive!30"; "navy!20";
    "maroon!20"; "gray!30"; "indigo!20"; "gold!30"; "coral!20" ].

Definition legacy_mapping (self : t) : gmap string string :=
  list_to_map
    [ ("singleproto", color_single self);
      ("multiproto", color_multi self);
      ("adaptive", color_adaptive self);
      ("vl", color_vl self);
      ("dense", color_dense self);
      ("attention", color_attention self);
      ("hybrid", color_hybrid self) ].

(** One iteration of the loop over [enumerate(sorted(categories))]. *)
Definition assign_color (self : t) (color_map : gmap string string)
    (entry : nat * string) : Py.result (gmap string string) :=
  let '(i, category) := entry in
  match legacy_mapping self !! category with
  | Some legacy_color => Ok (<[category := legacy_color]> color_map)
  | None =>
      let default_len := length DEFAULT_COLORS in
      Py.rbind (Py.list_get DEFAULT_COLORS (i mod default_len))
               (fun color => Ok (<[category := color]> color_map))
  end.

Fixpoint assign_colors (self : t) (color_map : gmap string string)
    (entries : list (nat * string)) : Py.result (gmap string string) :=
  match entries with
  | [] => Ok color_map
  | entry :: rest =>
      Py.rbind (assign_color self color_map entry)
               (fun color_map' => assign_colors self color_map' rest)
  end.

Definition get_category_colors (self : t) (categories : list string)
  : Py.result (gmap string string) :=
  assign_colors self ∅ (Py.enumerate (Py.sorted_str categories)).

End ColorConfig.

(** The field defaults of the dataclasses. *)
Module Defaults.

Definition layout : LayoutConfig :=
  {| timeline_width := "16cm";
     year_spacing := 27 # 10;
     branch_distance := 12 # 10;
     spine_length := 4 # 10;
     smart_spacing := false;
     min_year_spacing := 2 |}.

Definition time_logic : TimeLogicConfig :=
  {| time_direction := "right";
     start_year := 2019;
     end_year := 2025;
     upper_years := Some "order";
     lower_years := "even" |}.

Definition visual : VisualConfig :=
  {| node_width := "2.6cm";
     node_height := "0.5cm";
     node_font := "\tiny\bfseries";
     ref_font := "\tiny";
     inner_sep := "1.5pt";
     line_width := "0.8pt";
     rounded_corners := "3pt";
     max_lines := 1 |}.

Definition colors : ColorConfig.t :=
  {| ColorConfig.color_single := "cyan!20";
     ColorConfig.color_multi := "green!20";
     ColorConfig.color_adaptive := "yellow!40";
     ColorConfig.color_vl := "purple!20";
     ColorConfig.color_dense := "orange!30";
     ColorConfig.color_attention := "red!20";
     ColorConfig.color_hybrid := "gray!30";
     ColorConfig.axis_color := "black!70";
     ColorConfig.conn_color := "gray!60" |}.

Definition arrows : ArrowConfig :=
  {| arrow_style := "-{Stealth[length=3mm, width=2mm]}";
     arrow_color := "gray!70";
     arrow_shorten := "0.38cm" |}.

Definition output : OutputConfig :=
  {| input_file := "";
     output_file := "timeline.tex";
     show_legend := true;
     caption := "时间线鱼骨图";
     label := "fig:timeline";
     adjustbox_width := "0.8\textwidth" |}.

End Defaults.

(* ================================================================== *)
(** * [core/latex_generator.py] *)
(* ================================================================== *)

Module LaTeXGenerator.

(** The newline character. *)
Definition nl : string := String (ascii_of_nat 10) EmptyString.

(** The mutable attributes of a generator: the engine it owns and the
    colour table cached by [_generate_styles]. *)
Record t : Type := {
  layout_engine : SmartLayoutEngine.t;
  category_colors : gmap string string;
}.

(** [__init__]. *)
Definition init : t :=
  {| layout_engine := SmartLayoutEngine.init; category_colors := ∅ |}.

Definition set_layout_engine (e : SmartLayoutEngine.t) (self : t) : t :=
  {| layout_engine := e; category_colors := category_colors self |}.

Definition set_category_colors (m : gmap string string) (self : t) : t :=
  {| layout_engine := layout_engine self; category_colors := m |}.

(** The immutable attributes. *)
Record Config : Type := {
  layout : LayoutConfig;
  time_logic : TimeLogicConfig;
  visual : VisualConfig;
  colors : ColorConfig.t;
  arrows : ArrowConfig;
  output : OutputConfig;
}.

(** A line appended by [_generate_method_nodes]. *)
Inductive node_line : Type :=
| Blank
| Banner
| Title
| YearComment (year : Z) (side_mark : string)
| SingleNode (style anchor : string) (branch_dist : Q) (year : Z) (text : string)
| MatrixOpen (position : string) (branch_dist : Q) (year : Z) (anchor : string)
| Cell (style text : string) (ampersand : bool)
| MatrixClose.

Definition is_node (l : node_line) : bool :=
  match l with
  | SingleNode _ _ _ _ _ | Cell _ _ _ => true
  | _ => false
  end.

Definition is_matrix (l : node_line) : bool :=
  match l with
  | MatrixOpen _ _ _ _ => true
  | _ => false
  end.

(** Style and text of the node a line emits. *)
Definition node_of (l : node_line) : option (string * string) :=
  match l with
  | SingleNode style _ _ _ text | Cell style text _ => Some (style, text)
  | _ => None
  end.


Section WithFloatFormat.

(** [str(x)] for a [float], as used by f-string interpolation; it is
    a pure function of the value. *)
Variable float_str : Q -> string.

Definition num_str (x : Py.num) : string :=
  match x with
  | Py.Int z => Py.str_int z
  | Py.Float q => float_str q
  end.

Local Open Scope py_scope.

Definition _generate_preamble (cfg : Config) : string :=
  let lines :=
    [ "% Required packages/settings (add these in LaTeX preamble):";
      "% \usepackage{tikz}";
      "% \usepackage{xcolor}";
      "% \usepackage{adjustbox} % provide smart scaling";
      "% \usepackage{geometry}";
      "% \geometry{a4paper, left=2.5cm, right=2.5cm,";
      "%   top=2.5cm, bottom=2.5cm}";
      "% \usetikzlibrary{positioning, matrix, fit,";
      "%   backgrounds, shapes, arrows.meta}";
      "";
      "\begin{figure}[htbp]";
      "\centering";
      "\begin{adjustbox}{center, " +:+
        "max width=" +:+ adjustbox_width (output cfg) +:+ ", " +:+
        "max height=0.8\textheight, keepaspectratio}";
      "\pgfdeclarelayer{background}";
      "\pgfdeclarelayer{foreground}";
      "\pgfsetlayers{background,main,foreground}";
      "\begin{tikzpicture}[";
      "    scale=1.0,";
      "    transform shape,";
      "    font=\footnotesize\sffamily," ] in
  Py.join nl lines.

(** [color.split("!")[0] if "!" in color else color], then
    [f"{base_color}!60!black"]. *)
Definition border_of (color : string) : string :=
  let base_color :=
    if Py.contains_char "!" color then Py.before_char "!" color else color in
  base_color +:+ "!60!black".

Definition style_def (cfg : Config) (cat color : string) : string :=
  let border_color := border_of color in
  "    " +:+ cat +:+ "/.style={" +:+ nl +:+
  "        fill=" +:+ color +:+ ", draw=" +:+ border_color +:+ ", " +:+
  "line width=" +:+ line_width (visual cfg) +:+ "," +:+ nl +:+
  "        rounded corners=" +:+ rounded_corners (visual cfg) +:+ ", " +:+
  "minimum width=" +:+ node_width (visual cfg) +:+ ", " +:+
  "minimum height=" +:+ node_height (visual cfg) +:+ "," +:+ nl +:+
  "        align=center, font=" +:+ node_font (visual cfg) +:+ ", " +:+
  "text=black!80, inner sep=" +:+ inner_sep (visual cfg) +:+ nl +:+
  "    },".

Definition _generate_styles (cfg : Config) (categories : list string)
  : Py.M t string :=
  let styles :=
    [ "    % ========================================";
      "    % Category color definitions";
      "    % ========================================" ] in
  color_map <- Py.lift (ColorConfig.get_category_colors (colors cfg) categories) ;;
  Py.modify (set_category_colors color_map) ;;;
  defs <- Py.for_each
            (fun cat =>
               self <- Py.get ;;
               color <- Py.lift (Py.dict_get (category_colors self) cat) ;;
               Py.ret (style_def cfg cat color))
            (Py.sorted_str categories) ;;
  let styles := styles ++ defs in
  let styles := styles ++
    [ "    year/.style={";
      "        circle, fill=white, draw=black,";
      "        line width=1.2pt,";
      "        minimum size=0.75cm, " +:+
        "font=\bfseries\footnotesize, inner sep=0pt";
      "    },";
      "    axis/.style={";
      "        line width=1.5pt, draw=" +:+ ColorConfig.axis_color (colors cfg);
      "    },";
      "    arrow/.style={";
      "        " +:+ arrow_style (arrows cfg) +:+ ",";
      "        line width=0.8pt,";
      "        draw=" +:+ arrow_color (arrows cfg) +:+ ",";
      "        shorten >=" +:+ arrow_shorten (arrows cfg) +:+ ",";
      "        shorten <=" +:+ arrow_shorten (arrows cfg);
      "    },";
      "    spine/.style={";
      "        line width=0.8pt, draw=gray!50, -";
      "    },";
      "    conn/.style={";
      "        line width=0.5pt, draw=" +:+ ColorConfig.conn_color (colors cfg);
      "    },";
      "    methodmatrix/.style={";
      "        matrix of nodes, row sep=4pt, column sep=3pt,";
      "        nodes in empty cells, inner sep=0pt";
      "    }";
      "]" ] in
  Py.ret (Py.join nl styles).

Definition _format_method_text (cfg : Config) (name ref : string) : string :=
  let ref_cmd := "{" +:+ ref_font (visual cfg) +:+ "\cite{" +:+ ref +:+ "}}" in
  if (max_lines (visual cfg) =? 1)%Z
  then name +:+ "~" +:+ ref_cmd
  else name +:+ "\\[-2pt]" +:+ ref_cmd.

Definition _generate_timeline_axis (layout_params : LayoutParams)
  : Py.result string :=
  let total_width := total_width layout_params in
  let years := years layout_params in
  let lines :=
    [ "    % ========================================";
      "    % 1. Draw timeline axis and define year coordinates";
      "    % ========================================";
      "    \draw[axis] (0,0) -- (" +:+ num_str total_width +:+ ",0);";
      "";
      "    % Define year positions" ] in
  Py.rbind
    (Py.rmapM
       (fun year =>
          Py.rbind (Py.dict_get (positions layout_params) year) (fun pos =>
          Ok ("    \coordinate (Y" +:+ Py.str_int year +:+ ") at (" +:+
              float_str pos +:+ ",0);")))
       years)
    (fun coords =>
       let lines := lines ++ coords in
       if (1 <? length years)%nat then
         let lines := lines ++ [ ""; "    % Draw arrows between year nodes" ] in
         Py.rbind
           (Py.rmapM
              (fun i =>
                 Py.rbind (Py.list_get years i) (fun y =>
                 Py.rbind (Py.list_get years (i + 1)) (fun y' =>
                 Ok (Py.str_int y +:+ "/" +:+ Py.str_int y'))))
              (seq 0 (length years - 1)))
           (fun arrow_pairs =>
              let lines := lines ++
                [ "    \foreach \year/\nextyear in {" +:+
                    Py.join "," arrow_pairs +:+ "} {" ] in
              let lines := lines ++ [ "        \draw[arrow] (Y\year) -- (Y\nextyear);" ] in
              let lines := lines ++ [ "    }" ] in
              Ok (Py.join nl lines))
       else Ok (Py.join nl lines)).

Definition render (l : node_line) : string :=
  match l with
  | Blank => ""
  | Banner => "    % ========================================"
  | Title => "    % 2. Define all method nodes"
  | YearComment year side_mark =>
      "    % --- " +:+ Py.str_int year +:+ " (" +:+ side_mark +:+ ") ---"
  | SingleNode style anchor branch_dist year text =>
      "    " +:+
      ("\node[" +:+ style +:+ ", " +:+ anchor +:+ "=" +:+ float_str branch_dist +:+ "cm " +:+
       "of Y" +:+ Py.str_int year +:+ "] (M" +:+ Py.str_int year +:+ ") {" +:+ text +:+ "};")
  | MatrixOpen position branch_dist year anchor =>
      let matrix_pos :=
        position +:+ "=" +:+ float_str branch_dist +:+ "cm of Y" +:+ Py.str_int year in
      "    " +:+
      ("\matrix[methodmatrix, " +:+ matrix_pos +:+ ", " +:+
       "anchor=" +:+ anchor +:+ "] (M" +:+ Py.str_int year +:+ ") {")
  | Cell style text ampersand =>
      "        \node[" +:+ style +:+ "] {" +:+ text +:+ "}; " +:+
      (if ampersand then "&" else "\\")
  | MatrixClose => "    };"
  end.

(** The body of [for idx, (_, row) in enumerate(group.iterrows())]. *)
Definition matrix_row (cfg : Config) (group : list Row) (entry : nat * Row)
  : Py.result (list node_line) :=
  let '(idx, row) := entry in
  let text := _format_method_text cfg (name row) (citation row) in
  let style := category row in
  let multi_col :=
    ((3 <? length group)%nat && (idx mod 2 =? 0)%nat
     && (idx <? length group - 1)%nat)%bool in
  if multi_col then
    Py.rbind (Py.list_get group (idx + 1)) (fun next_row =>
    let next_text := _format_method_text cfg (name next_row) (citation next_row) in
    let next_style := category next_row in
    Ok [ Cell style text true; Cell next_style next_text false ])
  else if negb ((3 <? length group)%nat && (idx mod 2 =? 1)%nat)%bool then
    Ok [ Cell style text false ]
  else Ok [].

(** The body of [for year in sorted(df["年份"].unique())]. *)
Definition year_block (cfg : Config) (df : DataFrame)
    (layout_params : LayoutParams) (year : Z) : Py.M t (list node_line) :=
  if negb (bool_decide (year ∈ col_year df)) then Py.ret []
  else
    let group := get_group df year in
    side <- Py.zoom layout_engine set_layout_engine
              (SmartLayoutEngine.determine_side (time_logic cfg) year) ;;
    let side_mark := if String.eqb side "above" then "upper" else "lower" in
    let lines := [ Blank; YearComment year side_mark ] in
    if (length group =? 1)%nat then
      row <- Py.lift (Py.list_get group 0) ;;
      let text := _format_method_text cfg (name row) (citation row) in
      let style := category row in
      let anchor := if String.eqb side "above" then "above" else "below" in
      let branch_dist := adjusted_branch layout_params in
      Py.ret (lines ++ [ SingleNode style anchor branch_dist year text ])
    else
      let anchor := if String.eqb side "above" then "south" else "north" in
      let position := if String.eqb side "above" then "above" else "below" in
      let branch_dist := adjusted_branch layout_params in
      let lines := lines ++ [ MatrixOpen position branch_dist year anchor ] in
      rows <- Py.lift (Py.rmapM (matrix_row cfg group) (Py.enumerate group)) ;;
      Py.ret (lines ++ concat rows ++ [ MatrixClose ]).

(** The list [lines] at the end of [_generate_method_nodes]. *)
Definition method_node_lines (cfg : Config) (df : DataFrame)
    (layout_params : LayoutParams) : Py.M t (list node_line) :=
  let lines := [ Blank; Banner; Title; Banner ] in
  blocks <- Py.for_each (year_block cfg df layout_params)
              (Py.sorted_int (Py.unique (col_year df))) ;;
  Py.ret (lines ++ concat blocks).

Definition _generate_method_nodes (cfg : Config) (df : DataFrame)
    (layout_params : LayoutParams) : Py.M t string :=
  lines <- method_node_lines cfg df layout_params ;;
  Py.ret (Py.join nl (render <$> lines)).

Definition _generate_background_layer (cfg : Config) (df : DataFrame)
  : Py.M t string :=
  let lines :=
    [ "";
      "    % ========================================";
      "    % 3. Draw all connections in background layer";
      "    % ========================================";
      "    \begin{pgfonlayer}{background}";
      "        % Year node spines" ] in
  let years := Py.sorted_int (Py.unique (col_year df)) in
  let years_str := Py.join "," (Py.str_int <$> years) in
  let lines := lines ++ [ "        \foreach \year in {" +:+ years_str +:+ "} {" ] in
  let lines := lines ++
    [ "            \draw[spine] (Y\year.north) -- " +:+
      "++(0," +:+ float_str (spine_length (layout cfg)) +:+ ");" ] in
  let lines := lines ++
    [ "            \draw[spine] (Y\year.south) -- " +:+
      "++(0,-" +:+ float_str (spine_length (layout cfg)) +:+ ");" ] in
  let lines := lines ++ [ "        }" ] in
  let lines := lines ++ [ "" ] in
  let lines := lines ++ [ "        % Connect methods to year nodes" ] in
  conns <- Py.for_each
             (fun year =>
                side <- Py.zoom layout_engine set_layout_engine
                          (SmartLayoutEngine.determine_side (time_logic cfg) year) ;;
                let spine_len := spine_length (layout cfg) in
                if String.eqb side "above" then
                  let conn_str :=
                    "\draw[conn] (M" +:+ Py.str_int year +:+ ".south) -- " +:+
                    "([yshift=" +:+ float_str spine_len +:+ "cm]Y" +:+
                    Py.str_int year +:+ ");" in
                  Py.ret ("        " +:+ conn_str)
                else
                  let conn_str :=
                    "\draw[conn] (M" +:+ Py.str_int year +:+ ".north) -- " +:+
                    "([yshift=-" +:+ float_str spine_len +:+ "cm]Y" +:+
                    Py.str_int year +:+ ");" in
                  Py.ret ("        " +:+ conn_str))
             years ;;
  let lines := lines ++ conns in
  let lines := lines ++ [ "    \end{pgfonlayer}" ] in
  Py.ret (Py.join nl lines).

Definition _generate_year_nodes (df : DataFrame) : string :=
  let years := Py.sorted_int (Py.unique (col_year df)) in
  let years_str := Py.join "," (Py.str_int <$> years) in
  let lines :=
    [ "";
      "    % ========================================";
      "    % 4. Draw year nodes on top layer";
      "    % ========================================";
      "    \foreach \year in {" +:+ years_str +:+ "} {";
      "        \node[year] at (Y\year) {\year};";
      "    }" ] in
  Py.join nl lines.

Definition _generate_bounding_box : string :=
  nl +:+
  "    % ========================================" +:+ nl +:+
  "    % 5. Extend bounding box" +:+ nl +:+
  "    % ========================================" +:+ nl +:+
  "    \path (current bounding box.south west) +(-0.3,-0.5) " +:+
  "(current bounding box.north east) +(0.3,0.5);".

Definition legend_part (category fill_color : string) : string :=
  let border_color := border_of fill_color in
  "{\protect\tikz[baseline=-0.5ex]" +:+
  "\protect\node[" +:+
  "fill=" +:+ fill_color +:+ "," +:+
  "draw=" +:+ border_color +:+ "," +:+
  "rounded corners=2pt," +:+
  "inner sep=2pt," +:+
  "font=\tiny" +:+
  "] {" +:+ category +:+ "};}".

Definition _generate_caption (cfg : Config) (categories : list string)
  : Py.M t string :=
  let lines :=
    [ "\end{tikzpicture}";
      "\end{adjustbox}";
      "\caption{" +:+ caption (output cfg) +:+ "。" ] in
  lines <-
    (if show_legend (output cfg) then
       parts <- Py.for_each
                  (fun category =>
                     self <- Py.get ;;
                     fill_color <- Py.lift (Py.dict_get (category_colors self) category) ;;
                     Py.ret (legend_part category fill_color +:+ " "))
                  (Py.sorted_str categories) ;;
       let legend_text := foldl String.append "颜色标识：" parts in
       Py.ret (lines ++ [ legend_text ])
     else Py.ret lines) ;;
  let lines := lines ++ [ "}}" ] in
  let lines := lines ++ [ "\label{" +:+ label (output cfg) +:+ "}" ] in
  let lines := lines ++ [ "\end{figure}" ] in
  Py.ret (Py.join nl lines).

Definition generate (cfg : Config) (df : DataFrame) : Py.M t string :=
  let categories := Py.unique (col_category df) in
  layout_params <- Py.zoom layout_engine set_layout_engine
                     (SmartLayoutEngine.calculate_layout (layout cfg) df) ;;
  p1 <- Py.ret (_generate_preamble cfg) ;;
  p2 <- _generate_styles cfg categories ;;
  p3 <- Py.lift (_generate_timeline_axis layout_params) ;;
  p4 <- _generate_method_nodes cfg df layout_params ;;
  p5 <- _generate_background_layer cfg df ;;
  p6 <- Py.ret (_generate_year_nodes df) ;;
  p7 <- Py.ret _generate_bounding_box ;;
  p8 <- _generate_caption cfg categories ;;
  let parts := [ p1; p2; p3; p4; p5; p6; p7; p8 ] in
  let latex_code := Py.join nl parts in
  Py.ret latex_code.

End WithFloatFormat.

End LaTeXGenerator.

(* ================================================================== *)
(** * Specification-side definitions *)
(* ================================================================== *)

Module Spec.

(** [clamp(x, min = lo, max = hi)], written with the mathematical
    maximum and minimum. *)
Definition clamp (x lo hi : Q) : Q := Qmax lo (Qmin x hi).

(** Number of entries of [year_order] before the first [year]. *)
Fixpoint position (year : Z) (year_order : list Z) : nat :=
  match year_order with
  | [] => 0
  | y :: rest => if decide (y = year) then 0 else S (position year rest)
  end.

(** Zero-based index of [year] in [year_order], taken as [0] when the
    year is absent. *)
Definition index_or_zero (year : Z) (year_order : list Z) : nat :=
  if decide (year ∈ year_order) then position year year_order else 0.

(** The order rule: above exactly when the index is even. *)
Definition order_rule (year_order : list Z) (year : Z) : string :=
  if Nat.even (index_or_zero year year_order) then "above" else "below".

(** The rule read as a comma-separated list of integers; blank items
    are skipped, [None] when an item is not an integer. *)
Definition year_list (rule : string) : option (list Z) :=
  match Py.rmapM (fun tok => Py.int_of_str (Py.strip tok))
          (List.filter (fun tok => Py.truthy (Py.strip tok)) (Py.split "," rule)) with
  | Ok l => Some l
  | Raise _ => None
  end.

Definition is_keyword (rule : string) : bool :=
  bool_decide (rule ∈ ["order"; "sequence"; "index"; "odd"; "even"]).

(** The side-assignment rule selected by [upper_years]. *)
Definition determine_side (upper_years : string) (year_order : list Z) (year : Z)
  : string :=
  let rule := Py.lower upper_years in
  if bool_decide (rule ∈ ["order"; "sequence"; "index"]) then
    order_rule year_order year
  else if bool_decide (rule = "odd") then
    if Z.odd year then "above" else "below"
  else if bool_decide (rule = "even") then
    if Z.even year then "above" else "below"
  else
    match year_list rule with
    | Some l => if bool_decide (year ∈ l) then "above" else "below"
    | None => order_rule year_order year
    end.

(** Lexicographic rank of [c] among [categories]: how many of them are
    strictly smaller. *)
Definition rank (c : string) (categories : list string) : nat :=
  length (filter (fun c' => String.ltb c' c = true) categories).

(** The colour of a category: its entry in the fixed table when it has
    one, else the palette colour at its rank modulo the palette size. *)
Definition color_of (colors : ColorConfig.t) (categories : list string) (c : string)
  : option string :=
  match ColorConfig.legacy_mapping colors !! c with
  | Some color => Some color
  | None =>
      ColorConfig.DEFAULT_COLORS
        !! (rank c categories mod length ColorConfig.DEFAULT_COLORS)%nat
  end.

(** Whether the cell at index [i] of a year with [k] records shares
    its matrix row with the next cell: only when [k > 3], for an even
    [i] that has a successor. *)
Definition paired_with_next (k i : nat) : bool :=
  ((3 <? k)%nat && Nat.even i && (i <? k - 1)%nat)%bool.

(** The node of a record: its category as style and its formatted
    text. *)
Definition node_for (cfg : LaTeXGenerator.Config) (r : Row) : string * string :=
  (category r,
   LaTeXGenerator._format_method_text cfg (name r) (citation r)).

(** The matrix cells of a year: one per record, in file order. *)
Definition cells (cfg : LaTeXGenerator.Config) (group : list Row)
  : list LaTeXGenerator.node_line :=
  imap (fun i r =>
          LaTeXGenerator.Cell (node_for cfg r).1 (node_for cfg r).2
            (paired_with_next (length group) i))
       group.

(** Whether an emitted line of text, indentation apart, opens a styled
    node or a matrix container. *)
Definition starts_node (line : string) : bool :=
  Py.startswith "\node[" (Py.lstrip line).

Definition starts_matrix (line : string) : bool :=
  Py.startswith "\matrix[" (Py.lstrip line).

(** Number of records of a year. *)
Definition records_of (df : DataFrame) (y : Z) : nat :=
  length (List.filter (fun r => Z.eqb (year r) y) df).

(** The largest number of records any year has, [1] for an empty
    dataset. *)
Definition max_nodes (df : DataFrame) : nat :=
  match df with
  | [] => 1
  | _ => max_list (records_of df <$> col_year df)
  end.

(** Index of the last occurrence of [c] once [categories] is sorted:
    the number of entries that are not above [c], less one. *)
Definition last_rank (c : string) (categories : list string) : nat :=
  length (filter (fun c' => String.leb c' c = true) categories) - 1.

(** The pairs of the arrow loop: every year with the one after it. *)
Definition arrow_pairs (years : list Z) : list string :=
  zip_with (fun y y' => Py.str_int y +:+ "/" +:+ Py.str_int y') years (tail years).

(** What one call of [determine_side] logs: the warning when the rule is
    neither a keyword nor a list of integers, nothing otherwise. *)
Definition side_warnings (upper_years : string) : list string :=
  let rule := Py.lower upper_years in
  if is_keyword rule then []
  else match year_list rule with
       | Some _ => []
       | None => [SmartLayoutEngine.warn_msg rule]
       end.

End Spec.

(* ================================================================== *)
(** * Concrete inputs used in examples *)
(* ================================================================== *)

Module Examples.

Definition row (y : Z) (c n k : string) : Row :=
  {| year := y; category := c; name := n; citation := k |}.

(** The end-to-end scenario of the specification. *)
Definition df3 : DataFrame :=
  [ row 2020 "a" "M1" "R1"; row 2021 "b" "M2" "R2"; row 2022 "a" "M3" "R3" ].

(** Year 2022 carries four records. *)
Definition df_dense : DataFrame :=
  [ row 2020 "a" "M1" "R1"; row 2021 "b" "M2" "R2";
    row 2022 "a" "M3" "R3"; row 2022 "a" "M4" "R4";
    row 2022 "a" "M5" "R5"; row 2022 "a" "M6" "R6" ].

Definition with_smart (c : LayoutConfig) : LayoutConfig :=
  {| timeline_width := timeline_width c;
     year_spacing := year_spacing c;
     branch_distance := branch_distance c;
     spine_length := spine_length c;
     smart_spacing := true;
     min_year_spacing := min_year_spacing c |}.

(** [--smart-spacing --year-spacing 1.5] with the default minimum of 2.0. *)
Definition narrow_layout : LayoutConfig :=
  {| timeline_width := "16cm";
     year_spacing := 3 # 2;
     branch_distance := 12 # 10;
     spine_length := 4 # 10;
     smart_spacing := true;
     min_year_spacing := 2 |}.

Definition with_upper_years (rule : option string) : TimeLogicConfig :=
  {| time_direction := "right";
     start_year := 2019;
     end_year := 2025;
     upper_years := rule;
     lower_years := "even" |}.

Definition engine3 : SmartLayoutEngine.t :=
  {| SmartLayoutEngine._year_order := [2020; 2021; 2022]%Z |}.

(** The layout of [df_dense] under the default configuration with
    smart spacing. *)
Definition layout_dense : LayoutParams :=
  match Py.value (SmartLayoutEngine.calculate_layout
                    (with_smart Defaults.layout) df_dense SmartLayoutEngine.init) with
  | Ok lp => lp
  | Raise _ => Build_LayoutParams ∅ 1 [] ∅ 0 0 (Py.Int 0)
  end.



(** The default layout in binary64, with a chosen year spacing and
    smart-spacing switch. *)
Definition rounded_layout (spacing : Binary64.float) (smart : bool)
  : RoundedLayout.LayoutConfig :=
  {| RoundedLayout.timeline_width := "16cm";
     RoundedLayout.year_spacing := spacing;
     RoundedLayout.branch_distance := Binary64.decimal 12 1;
     RoundedLayout.spine_length := Binary64.decimal 4 1;
     RoundedLayout.smart_spacing := smart;
     RoundedLayout.min_year_spacing := Binary64.decimal 20 1 |}.

Definition config : LaTeXGenerator.Config :=
  {| LaTeXGenerator.layout := Defaults.layout;
     LaTeXGenerator.time_logic := Defaults.time_logic;
     LaTeXGenerator.visual := Defaults.visual;
     LaTeXGenerator.colors := Defaults.colors;
     LaTeXGenerator.arrows := Defaults.arrows;
     LaTeXGenerator.output := Defaults.output |}.

End Examples.

(* ================================================================== *)
(** * [core/config.py]: dictionaries of the dataclasses *)
(* ================================================================== *)

Module Dataclass.

(** A field value; the configuration holds nothing but primitives. *)
Inductive value : Type :=
| VNone
| VBool (b : bool)
| VInt (z : Z)
| VFloat (q : Q)
| VStr (s : string).

(** A dataclass: the names in [cls.__annotations__] and the default of
    each field.  An instance is seen through its attributes, a map from
    attribute name to value. *)
Record class : Type := {
  annotations : list string;
  defaults : gmap string value;
}.

(** The constructor called with keyword arguments among the fields: a
    field takes its argument when there is one, else its default. *)
Definition construct (cls : class) (kwargs : gmap string value)
  : gmap string value :=
  kwargs ∪ defaults cls.

(** [asdict(self)]: every field, read from the instance (falling back on
    the class attribute that holds the default). *)
Definition to_dict (cls : class) (self : gmap string value)
  : gmap string value :=
  filter (fun kv => kv.1 ∈ annotations cls) (self ∪ defaults cls).

(** The constructor called with the items of [data] whose key is in
    [cls.__annotations__] as keyword arguments. *)
Definition from_dict (cls : class) (data : gmap string value)
  : gmap string value :=
  construct cls (filter (fun kv => kv.1 ∈ annotations cls) data).

End Dataclass.

(** The attributes of the typed configuration records. *)
Definition LayoutConfig_fields (c : LayoutConfig) : gmap string Dataclass.value :=
  list_to_map
    [ ("timeline_width", Dataclass.VStr (timeline_width c));
      ("year_spacing", Dataclass.VFloat (year_spacing c));
      ("branch_distance", Dataclass.VFloat (branch_distance c));
      ("spine_length", Dataclass.VFloat (spine_length c));
      ("smart_spacing", Dataclass.VBool (smart_spacing c));
      ("min_year_spacing", Dataclass.VFloat (min_year_spacing c)) ].

Definition TimeLogicConfig_fields (c : TimeLogicConfig) : gmap string Dataclass.value :=
  list_to_map
    [ ("time_direction", Dataclass.VStr (time_direction c));
      ("start_year", Dataclass.VInt (start_year c));
      ("end_year", Dataclass.VInt (end_year c));
      ("upper_years",
       match upper_years c with
       | Some rule => Dataclass.VStr rule
       | None => Dataclass.VNone
       end);
      ("lower_years", Dataclass.VStr (lower_years c)) ].

Definition VisualConfig_fields (c : VisualConfig) : gmap string Dataclass.value :=
  list_to_map
    [ ("node_width", Dataclass.VStr (node_width c));
      ("node_height", Dataclass.VStr (node_height c));
      ("node_font", Dataclass.VStr (node_font c));
      ("ref_font", Dataclass.VStr (ref_font c));
      ("inner_sep", Dataclass.VStr (inner_sep c));
      ("line_width", Dataclass.VStr (line_width c));
      ("rounded_corners", Dataclass.VStr (rounded_corners c));
      ("max_lines", Dataclass.VInt (max_lines c)) ].

Definition ColorConfig_fields (c : ColorConfig.t) : gmap string Dataclass.value :=
  list_to_map
    [ ("color_single", Dataclass.VStr (ColorConfig.color_single c));
      ("color_multi", Dataclass.VStr (ColorConfig.color_multi c));
      ("color_adaptive", Dataclass.VStr (ColorConfig.color_adaptive c));
      ("color_vl", Dataclass.VStr (ColorConfig.color_vl c));
      ("color_dense", Dataclass.VStr (ColorConfig.color_dense c));
      ("color_attention", Dataclass.VStr (ColorConfig.color_attention c));
      ("color_hybrid", Dataclass.VStr (ColorConfig.color_hybrid c));
      ("axis_color", Dataclass.VStr (ColorConfig.axis_color c));
      ("conn_color", Dataclass.VStr (ColorConfig.conn_color c)) ].

Definition ArrowConfig_fields (c : ArrowConfig) : gmap string Dataclass.value :=
  list_to_map
    [ ("arrow_style", Dataclass.VStr (arrow_style c));
      ("arrow_color", Dataclass.VStr (arrow_color c));
      ("arrow_shorten", Dataclass.VStr (arrow_shorten c)) ].

Definition OutputConfig_fields (c : OutputConfig) : gmap string Dataclass.value :=
  list_to_map
    [ ("input_file", Dataclass.VStr (input_file c));
      ("output_file", Dataclass.VStr (output_file c));
      ("show_legend", Dataclass.VBool (show_legend c));
      ("caption", Dataclass.VStr (caption c));
      ("label", Dataclass.VStr (label c));
      ("adjustbox_width", Dataclass.VStr (adjustbox_width c)) ].

(** The six configuration classes. *)
Definition LayoutConfig_class : Dataclass.class :=
  {| Dataclass.annotations :=
       [ "timeline_width"; "year_spacing"; "branch_distance"; "spine_length";
         "smart_spacing"; "min_year_spacing" ];
     Dataclass.defaults := LayoutConfig_fields Defaults.layout |}.

Definition TimeLogicConfig_class : Dataclass.class :=
  {| Dataclass.annotations :=
       [ "time_direction"; "start_year"; "end_year"; "upper_years"; "lower_years" ];
     Dataclass.defaults := TimeLogicConfig_fields Defaults.time_logic |}.

Definition VisualConfig_class : Dataclass.class :=
  {| Dataclass.annotations :=
       [ "node_width"; "node_height"; "node_font"; "ref_font"; "inner_sep";
         "line_width"; "rounded_corners"; "max_lines" ];
     Dataclass.defaults := VisualConfig_fields Defaults.visual |}.

(** [DEFAULT_COLORS] carries no annotation and is no field. *)
Definition ColorConfig_class : Dataclass.class :=
  {| Dataclass.annotations :=
       [ "color_single"; "color_multi"; "color_adaptive"; "color_vl";
         "color_dense"; "color_attention"; "color_hybrid"; "axis_color";
         "conn_color" ];
     Dataclass.defaults := ColorConfig_fields Defaults.colors |}.

Definition ArrowConfig_class : Dataclass.class :=
  {| Dataclass.annotations := [ "arrow_style"; "arrow_color"; "arrow_shorten" ];
     Dataclass.defaults := ArrowConfig_fields Defaults.arrows |}.

Definition OutputConfig_class : Dataclass.class :=
  {| Dataclass.annotations :=
       [ "input_file"; "output_file"; "show_legend"; "caption"; "label";
         "adjustbox_width" ];
     Dataclass.defaults := OutputConfig_fields Defaults.output |}.

Module TimelineFishboneConfig.

(** The six sub-configurations, each seen through its attributes. *)
Record t : Type := {
  layout : gmap string Dataclass.value;
  time_logic : gmap string Dataclass.value;
  visual : gmap string Dataclass.value;
  colors : gmap string Dataclass.value;
  arrows : gmap string Dataclass.value;
  output : gmap string Dataclass.value;
}.

(** [TimelineFishboneConfig()]: every section from its default factory. *)
Definition init : t :=
  {| layout := Dataclass.construct LayoutConfig_class ∅;
     time_logic := Dataclass.construct TimeLogicConfig_class ∅;
     visual := Dataclass.construct VisualConfig_class ∅;
     colors := Dataclass.construct ColorConfig_class ∅;
     arrows := Dataclass.construct ArrowConfig_class ∅;
     output := Dataclass.construct OutputConfig_class ∅ |}.

(** The items of [to_dict()], in insertion order. *)
Definition to_dict_items (self : t) : list (string * gmap string Dataclass.value) :=
  [ ("layout", Dataclass.to_dict LayoutConfig_class (layout self));
    ("time_logic", Dataclass.to_dict TimeLogicConfig_class (time_logic self));
    ("visual", Dataclass.to_dict VisualConfig_class (visual self));
    ("colors", Dataclass.to_dict ColorConfig_class (colors self));
    ("arrows", Dataclass.to_dict ArrowConfig_class (arrows self));
    ("output", Dataclass.to_dict OutputConfig_class (output self)) ].

Definition to_dict (self : t) : gmap string (gmap string Dataclass.value) :=
  list_to_map (to_dict_items self).

(** [data.get(section, {})]. *)
Definition section_of (data : gmap string (gmap string Dataclass.value))
    (section : string) : gmap string Dataclass.value :=
  default ∅ (data !! section).

Definition from_dict (data : gmap string (gmap string Dataclass.value)) : t :=
  {| layout := Dataclass.from_dict LayoutConfig_class (section_of data "layout");
     time_logic := Dataclass.from_dict TimeLogicConfig_class (section_of data "time_logic");
     visual := Dataclass.from_dict VisualConfig_class (section_of data "visual");
     colors := Dataclass.from_dict ColorConfig_class (section_of data "colors");
     arrows := Dataclass.from_dict ArrowConfig_class (section_of data "arrows");
     output := Dataclass.from_dict OutputConfig_class (section_of data "output") |}.

(** One iteration of [for section, values in other_dict.items()]:
    [merged_dict[section].update(values)] when the section is there. *)
Definition merge_section (merged_dict : gmap string (gmap string Dataclass.value))
    (item : string * gmap string Dataclass.value)
  : gmap string (gmap string Dataclass.value) :=
  let '(section, values) := item in
  match merged_dict !! section with
  | Some old => <[section := values ∪ old]> merged_dict
  | None => merged_dict
  end.

Definition merge (self other : t) : t :=
  let merged_dict := to_dict self in
  let other_items := to_dict_items other in
  let merged_dict := foldl merge_section merged_dict other_items in
  from_dict merged_dict.

(** The configuration whose sections are the given typed records. *)
Definition of_config (cfg : LaTeXGenerator.Config) : t :=
  {| layout := LayoutConfig_fields (LaTeXGenerator.layout cfg);
     time_logic := TimeLogicConfig_fields (LaTeXGenerator.time_logic cfg);
     visual := VisualConfig_fields (LaTeXGenerator.visual cfg);
     colors := ColorConfig_fields (LaTeXGenerator.colors cfg);
     arrows := ArrowConfig_fields (LaTeXGenerator.arrows cfg);
     output := OutputConfig_fields (LaTeXGenerator.output cfg) |}.

(** Every section holds exactly the fields of its class. *)
Definition well_formed (self : t) : Prop :=
  dom (layout self) = list_to_set (Dataclass.annotations LayoutConfig_class)
  /\ dom (time_logic self) = list_to_set (Dataclass.annotations TimeLogicConfig_class)
  /\ dom (visual self) = list_to_set (Dataclass.annotations VisualConfig_class)
  /\ dom (colors self) = list_to_set (Dataclass.annotations ColorConfig_class)
  /\ dom (arrows self) = list_to_set (Dataclass.annotations ArrowConfig_class)
  /\ dom (output self) = list_to_set (Dataclass.annotations OutputConfig_class).

End TimelineFishboneConfig.

(* ================================================================== *)
(** * Facts about the run-time model *)
(* ================================================================== *)

Section PyNumbers.

Lemma py_max_Qmax (a b : Q) : Py.max a b = Qmax a b.
Proof. reflexivity. Qed.

Lemma py_min_Qmin (a b : Q) : Py.min a b = Qmin a b.
Proof.
  unfold Py.min, Qmin, GenericMinMax.gmin.
  rewrite <- (Qcompare_antisym a b).
  destruct (Qcompare a b); reflexivity.
Qed.

Lemma py_max_lower (a b : Q) : (a <= Py.max a b)%Q.
Proof. rewrite py_max_Qmax. apply Q.le_max_l. Qed.

Lemma py_max_upper (a b : Q) : (b <= Py.max a b)%Q.
Proof. rewrite py_max_Qmax. apply Q.le_max_r. Qed.

Lemma py_min_upper (a b : Q) : (Py.min a b <= b)%Q.
Proof. rewrite py_min_Qmin. apply Q.le_min_r. Qed.

Lemma py_clamp_upper (x lo hi : Q) :
  (lo <= hi)%Q -> (Py.max lo (Py.min x hi) <= hi)%Q.
Proof.
  intros Hle. rewrite py_max_Qmax.
  apply Q.max_lub; [exact Hle | apply py_min_upper].
Qed.

End PyNumbers.

Section PyUnique.
Context `{EqDecision A}.

Lemma unique_from_elem (seen l : list A) (x : A) :
  x ∈ Py.unique_from seen l ↔ x ∈ l ∧ x ∉ seen.
Proof.
  revert seen. induction l as [|y l IH]; intros seen; simpl.
  - split; [intros H; inversion H | intros [H _]; inversion H].
  - destruct (decide (y ∈ seen)) as [Hin|Hnin].
    + rewrite IH, elem_of_cons. split; [tauto|].
      intros [[->|Hx] Hs]; [contradiction | tauto].
    + rewrite !elem_of_cons, IH, elem_of_cons. split.
      * intros [->|[Hx Hs]]; [tauto|]. split; [tauto|]. tauto.
      * intros [[->|Hx] Hs]; [tauto|].
        destruct (decide (x = y)) as [->|Hne]; [tauto|]. right. tauto.
Qed.

Lemma unique_from_NoDup (seen l : list A) : NoDup (Py.unique_from seen l).
Proof.
  revert seen. induction l as [|y l IH]; intros seen; simpl.
  - constructor.
  - destruct (decide (y ∈ seen)); [apply IH|].
    constructor; [|apply IH].
    rewrite unique_from_elem, elem_of_cons. tauto.
Qed.

Lemma unique_elem (l : list A) (x : A) : x ∈ Py.unique l ↔ x ∈ l.
Proof.
  unfold Py.unique. rewrite unique_from_elem.
  split; [tauto|]. intros Hx. split; [done|]. apply not_elem_of_nil.
Qed.

Lemma unique_NoDup (l : list A) : NoDup (Py.unique l).
Proof. apply unique_from_NoDup. Qed.

End PyUnique.

Section PySorted.
Context {A : Type} (leb : A -> A -> bool).

Lemma insert_sorted_perm (x : A) (l : list A) :
  Py.insert_sorted leb x l ≡ₚ x :: l.
Proof.
  induction l as [|y l IH]; simpl; [done|].
  destruct (leb x y); [done|].
  rewrite IH. apply Permutation_swap.
Qed.

Lemma sorted_perm (l : list A) : Py.sorted leb l ≡ₚ l.
Proof.
  induction l as [|x l IH]; simpl; [done|].
  rewrite insert_sorted_perm. by rewrite IH.
Qed.

Lemma sorted_elem (l : list A) (x : A) : x ∈ Py.sorted leb l ↔ x ∈ l.
Proof. by rewrite sorted_perm. Qed.

Lemma sorted_NoDup (l : list A) : NoDup l -> NoDup (Py.sorted leb l).
Proof. by rewrite sorted_perm. Qed.

Lemma sorted_length (l : list A) : length (Py.sorted leb l) = length l.
Proof. by rewrite sorted_perm. Qed.

Hypothesis leb_total : forall x y, leb x y = true ∨ leb y x = true.
Hypothesis leb_trans : forall x y z, leb x y = true -> leb y z = true -> leb x z = true.

Lemma insert_sorted_StronglySorted (x : A) (l : list A) :
  StronglySorted (fun a b => leb a b = true) l ->
  StronglySorted (fun a b => leb a b = true) (Py.insert_sorted leb x l).
Proof.
  induction 1 as [|y l Hl IH Hall]; simpl.
  - repeat constructor.
  - destruct (leb x y) eqn:Hxy.
    + constructor; [by constructor|].
      constructor; [done|].
      eapply Forall_impl; [exact Hall|]. intros z Hz. eauto.
    + constructor; [exact IH|].
      rewrite insert_sorted_perm. constructor; [|done].
      destruct (leb_total x y) as [H|H]; [congruence|done].
Qed.

Lemma sorted_StronglySorted (l : list A) :
  StronglySorted (fun a b => leb a b = true) (Py.sorted leb l).
Proof.
  induction l as [|x l IH]; simpl; [constructor|].
  by apply insert_sorted_StronglySorted.
Qed.

End PySorted.

Lemma sorted_int_ascending (l : list Z) :
  NoDup l -> StronglySorted Z.lt (Py.sorted_int l).
Proof.
  intros Hnd.
  assert (Hs : StronglySorted (fun a b => Z.leb a b = true) (Py.sorted_int l)).
  { apply sorted_StronglySorted; intros; lia. }
  assert (Hn : NoDup (Py.sorted_int l)) by by apply sorted_NoDup.
  induction Hs as [|x l' Hl IH Hall]; [constructor|].
  apply NoDup_cons in Hn as [Hx Hn].
  constructor; [by apply IH|].
  apply Forall_forall. intros y Hy.
  rewrite Forall_forall in Hall. specialize (Hall y Hy).
  assert (x ≠ y) by (intros ->; done). lia.
Qed.

(* ================================================================== *)
(** * Layout engine: [calculate_layout] *)
(* ================================================================== *)

Section GroupBy.

Lemma records_of_get_group (df : DataFrame) (y : Z) :
  length (get_group df y) = Spec.records_of df y.
Proof.
  unfold get_group, Spec.records_of.
  induction df as [|r df IH]; [done|].
  rewrite filter_cons. simpl.
  destruct (decide (year r = y)) as [->|Hne].
  - rewrite Z.eqb_refl. simpl. by rewrite IH.
  - destruct (Z.eqb_spec (year r) y); [done|]. exact IH.
Qed.

Lemma records_of_pos (df : DataFrame) (y : Z) :
  y ∈ col_year df ↔ (0 < Spec.records_of df y)%nat.
Proof.
  unfold col_year, Spec.records_of.
  induction df as [|r df IH]; simpl.
  - split; [intros H; inversion H | lia].
  - rewrite elem_of_cons, IH.
    destruct (Z.eqb_spec (year r) y) as [->|Hne]; simpl.
    + split; [lia | by left].
    + split; [intros [->|H]; [done|exact H] | by right].
Qed.

Lemma groupby_size_lookup (df : DataFrame) (y : Z) :
  groupby_size df !! y =
    if decide (y ∈ col_year df) then Some (Spec.records_of df y) else None.
Proof.
  induction df as [|r df IH]; simpl.
  - rewrite lookup_empty.
    destruct (decide (y ∈ col_year [])) as [Hin|_]; [inversion Hin | done].
  - pose proof (records_of_pos df y) as Hpos.
    unfold Spec.records_of in *. simpl.
    destruct (decide (year r = y)) as [Heq|Hne].
    + rewrite Heq, lookup_insert_eq, IH, Z.eqb_refl.
      destruct (decide (y ∈ y :: col_year df)) as [_|Hn];
        [|exfalso; apply Hn, list_elem_of_here].
      destruct (decide (y ∈ col_year df)) as [Hin|Hnin]; [reflexivity|].
      simpl. do 2 f_equal.
      destruct (length (List.filter (λ r0 : Row, (year r0 =? y)%Z) df)); [done|].
      exfalso. apply Hnin, Hpos. lia.
    + rewrite lookup_insert_ne by done. rewrite IH.
      destruct (Z.eqb_spec (year r) y); [done|].
      destruct (decide (y ∈ col_year df)) as [Hin|Hnin];
        destruct (decide (y ∈ year r :: col_year df)) as [Hin'|Hnin']; try done.
      * exfalso. apply Hnin'. by apply list_elem_of_further.
      * exfalso. apply elem_of_cons in Hin' as [->|?]; done.
Qed.

Lemma max_list_same_elements (l1 l2 : list nat) :
  (forall x, x ∈ l1 ↔ x ∈ l2) -> max_list l1 = max_list l2.
Proof.
  intros Heq.
  destruct l1 as [|a l1], l2 as [|b l2]; [done| | |].
  - exfalso. eapply not_elem_of_nil, Heq, list_elem_of_here.
  - exfalso. eapply not_elem_of_nil, Heq, list_elem_of_here.
  - apply Nat.le_antisymm.
    + apply max_list_elem_of_le, Heq, max_list_elem_of. done.
    + apply max_list_elem_of_le, Heq, max_list_elem_of. done.
Qed.

Lemma groupby_size_values (df : DataFrame) (v : nat) :
  v ∈ (snd <$> map_to_list (groupby_size df)) ↔
  v ∈ (Spec.records_of df <$> col_year df).
Proof.
  rewrite !list_elem_of_fmap. split.
  - intros [[y v'] [-> Hin]]. apply elem_of_map_to_list in Hin.
    rewrite groupby_size_lookup in Hin.
    destruct (decide (y ∈ col_year df)); [|done].
    exists y. split; [|done]. simpl. by inversion Hin.
  - intros [y [-> Hin]]. exists (y, Spec.records_of df y). split; [done|].
    apply elem_of_map_to_list. rewrite groupby_size_lookup.
    destruct (decide (y ∈ col_year df)); done.
Qed.

Lemma groupby_size_empty (df : DataFrame) : groupby_size df = ∅ ↔ df = [].
Proof.
  split; [|by intros ->].
  destruct df as [|r df]; [done|]. simpl. intros H.
  by apply insert_non_empty in H.
Qed.

End GroupBy.

(** Expose the record built by [calculate_layout]. *)
Ltac run_calculate_layout :=
  unfold SmartLayoutEngine.calculate_layout, Py.value, Py.bind, Py.put.

Section CalculateLayout.
Variables (config : LayoutConfig) (df : DataFrame) (self : SmartLayoutEngine.t).

Local Abbreviation layout_result :=
  (Py.value (SmartLayoutEngine.calculate_layout config df self)).

Lemma calculate_layout_returns : exists lp, layout_result = Ok lp.
Proof.
  run_calculate_layout.
  destruct (smart_spacing config); simpl; eauto.
Qed.

Lemma calculate_layout_max_nodes (lp : LayoutParams) :
  layout_result = Ok lp -> max_nodes lp = Spec.max_nodes df.
Proof.
  run_calculate_layout.
  intros H.
  assert (Hm : max_nodes lp =
               if decide (groupby_size df = ∅) then 1%nat
               else max_list (snd <$> map_to_list (groupby_size df))).
  { destruct (smart_spacing config); simpl in H; inversion H; reflexivity. }
  rewrite Hm. unfold Spec.max_nodes.
  destruct (decide (groupby_size df = ∅)) as [He|Hne].
  - apply groupby_size_empty in He. by subst.
  - destruct df as [|r df']; [done|].
    apply max_list_same_elements, groupby_size_values.
Qed.

Lemma calculate_layout_years (lp : LayoutParams) :
  layout_result = Ok lp -> years lp = Py.sorted_int (Py.unique (col_year df)).
Proof.
  run_calculate_layout.
  destruct (smart_spacing config); simpl; intros H; inversion H; reflexivity.
Qed.

Lemma calculate_layout_spacing (lp : LayoutParams) :
  layout_result = Ok lp ->
  adjusted_spacing lp =
    if smart_spacing config
    then Py.max (min_year_spacing config)
                (Py.min (Py.int_mul_float (Z.of_nat (max_nodes lp)) (5 # 2))
                        (year_spacing config))
    else year_spacing config.
Proof.
  run_calculate_layout.
  destruct (smart_spacing config); simpl; intros H; inversion H; reflexivity.
Qed.

Lemma calculate_layout_branch (lp : LayoutParams) :
  layout_result = Ok lp ->
  adjusted_branch lp =
    if smart_spacing config
    then Py.max (branch_distance config)
                (Py.int_mul_float (Z.of_nat (max_nodes lp)) (3 # 5))
    else branch_distance config.
Proof.
  run_calculate_layout.
  destruct (smart_spacing config); simpl; intros H; inversion H; reflexivity.
Qed.

End CalculateLayout.

(** C2.  With smart spacing the adjusted spacing is the required width
    [max_nodes * 2.5] clamped between [min_year_spacing] and
    [year_spacing]; without it, it is [year_spacing] itself.  Here
    [max_nodes] is the largest number of records of any year. *)
Theorem adjusted_spacing_is_clamp
    (config : LayoutConfig) (df : DataFrame) (self : SmartLayoutEngine.t) :
  exists lp,
    Py.value (SmartLayoutEngine.calculate_layout config df self) = Ok lp
    /\ max_nodes lp = Spec.max_nodes df
    /\ adjusted_spacing lp =
         if smart_spacing config
         then Spec.clamp (inject_Z (Z.of_nat (max_nodes lp)) * (5 # 2))
                         (min_year_spacing config) (year_spacing config)
         else year_spacing config.
Proof.
  destruct (calculate_layout_returns config df self) as [lp Hlp].
  exists lp. split; [exact Hlp|]. split.
  - by apply (calculate_layout_max_nodes config df self).
  - rewrite (calculate_layout_spacing config df self lp Hlp).
    destruct (smart_spacing config); [|reflexivity].
    unfold Spec.clamp. by rewrite py_max_Qmax, py_min_Qmin.
Qed.

(** C3 fails as stated: with [year_spacing = 1.5] below the default
    [min_year_spacing = 2.0] and smart spacing enabled, the adjusted
    spacing is [2.0], above [year_spacing]. *)
Lemma spacing_interval_counterexample :
  exists lp,
    Py.value (SmartLayoutEngine.calculate_layout
                Examples.narrow_layout Examples.df3 SmartLayoutEngine.init) = Ok lp
    /\ smart_spacing Examples.narrow_layout = true
    /\ ~ (min_year_spacing Examples.narrow_layout <= adjusted_spacing lp
          /\ adjusted_spacing lp <= year_spacing Examples.narrow_layout)%Q.
Proof.
  eexists. split; [reflexivity|]. split; [reflexivity|].
  intros [_ H]. vm_compute in H. by apply H.
Qed.

(** C3, amended.  When [min_year_spacing <= year_spacing], smart spacing
    keeps the adjusted spacing inside [[min_year_spacing, year_spacing]];
    with smart spacing disabled it is [year_spacing] itself. *)
Theorem adjusted_spacing_interval
    (config : LayoutConfig) (df : DataFrame) (self : SmartLayoutEngine.t) :
  (min_year_spacing config <= year_spacing config)%Q ->
  exists lp,
    Py.value (SmartLayoutEngine.calculate_layout config df self) = Ok lp
    /\ if smart_spacing config
       then (min_year_spacing config <= adjusted_spacing lp
             /\ adjusted_spacing lp <= year_spacing config)%Q
       else adjusted_spacing lp = year_spacing config.
Proof.
  intros Hle.
  destruct (calculate_layout_returns config df self) as [lp Hlp].
  exists lp. split; [exact Hlp|].
  rewrite (calculate_layout_spacing config df self lp Hlp).
  destruct (smart_spacing config); [|reflexivity].
  split; [apply py_max_lower | by apply py_clamp_upper].
Qed.

Lemma adjusted_spacing_interval_witness :
  (min_year_spacing (Examples.with_smart Defaults.layout)
     <= year_spacing (Examples.with_smart Defaults.layout))%Q
  /\ exists lp,
       Py.value (SmartLayoutEngine.calculate_layout
                   (Examples.with_smart Defaults.layout) Examples.df_dense
                   SmartLayoutEngine.init) = Ok lp
       /\ (2 <= adjusted_spacing lp /\ adjusted_spacing lp <= 27 # 10)%Q.
Proof.
  assert (H : (min_year_spacing (Examples.with_smart Defaults.layout)
               <= year_spacing (Examples.with_smart Defaults.layout))%Q)
    by (vm_compute; discriminate).
  split; [exact H|].
  exact (adjusted_spacing_interval (Examples.with_smart Defaults.layout)
           Examples.df_dense SmartLayoutEngine.init H).
Defined.

(** The lower bound needs no assumption on the configuration. *)
Lemma adjusted_spacing_at_least_min
    (config : LayoutConfig) (df : DataFrame) (self : SmartLayoutEngine.t)
    (lp : LayoutParams) :
  Py.value (SmartLayoutEngine.calculate_layout config df self) = Ok lp ->
  smart_spacing config = true ->
  (min_year_spacing config <= adjusted_spacing lp)%Q.
Proof.
  intros Hlp Hs.
  rewrite (calculate_layout_spacing config df self lp Hlp), Hs.
  apply py_max_lower.
Qed.

Section Positions.
Variable sp : Q.

Local Abbreviation place :=
  (fun (pos : gmap Z Q) '(i, year) =>
     <[year := (inject_Z 0 + Py.int_mul_float (Z.of_nat i) sp)%Q]> pos).

Lemma enumerate_snoc {A} (l : list A) (x : A) :
  Py.enumerate (l ++ [x]) = Py.enumerate l ++ [(length l, x)].
Proof.
  unfold Py.enumerate. rewrite imap_app. simpl.
  by rewrite Nat.add_0_r.
Qed.

Lemma positions_lookup (years : list Z) (i : nat) (y : Z) :
  NoDup years -> years !! i = Some y ->
  foldl place ∅ (Py.enumerate years) !! y
    = Some (inject_Z 0 + Py.int_mul_float (Z.of_nat i) sp)%Q.
Proof.
  revert i y. induction years as [|z years IH] using rev_ind; intros i y Hnd Hi.
  - done.
  - rewrite enumerate_snoc, foldl_app. simpl.
    apply NoDup_app in Hnd as (Hnd & Hdisj & _).
    destruct (decide (i = length years)) as [->|Hne].
    + rewrite list_lookup_middle in Hi by done. inversion Hi; subst.
      by rewrite lookup_insert_eq.
    + assert (Hlt : (i < length years)%nat).
      { apply lookup_lt_Some in Hi. rewrite length_app in Hi. simpl in Hi. lia. }
      rewrite lookup_app_l in Hi by done.
      assert (z ≠ y).
      { intros ->. eapply Hdisj; [by eapply list_elem_of_lookup_2 | apply list_elem_of_here]. }
      rewrite lookup_insert_ne by done. by apply IH.
Qed.

Lemma positions_absent (years : list Z) (y : Z) :
  y ∉ years -> foldl place ∅ (Py.enumerate years) !! y = None.
Proof.
  induction years as [|z years IH] using rev_ind; intros Hy.
  - done.
  - rewrite enumerate_snoc, foldl_app. simpl.
    rewrite elem_of_app, list_elem_of_singleton in Hy.
    rewrite lookup_insert_ne by (intros ->; tauto).
    apply IH. tauto.
Qed.

End Positions.

Lemma calculate_layout_positions
    (config : LayoutConfig) (df : DataFrame) (self : SmartLayoutEngine.t)
    (lp : LayoutParams) :
  Py.value (SmartLayoutEngine.calculate_layout config df self) = Ok lp ->
  positions lp =
    foldl (fun (pos : gmap Z Q) '(i, year) =>
             <[year := (inject_Z 0 + Py.int_mul_float (Z.of_nat i) (adjusted_spacing lp))%Q]> pos)
          ∅ (Py.enumerate (years lp))
  /\ total_width lp =
       if (1 <? length (years lp))%nat
       then Py.Float (Py.int_mul_float (Z.of_nat (length (years lp)) - 1) (adjusted_spacing lp))
       else Py.Int 0.
Proof.
  run_calculate_layout.
  destruct (smart_spacing config); simpl; intros H; inversion H; split; reflexivity.
Qed.

Lemma years_sorted_distinct (df : DataFrame) :
  StronglySorted Z.lt (Py.sorted_int (Py.unique (col_year df)))
  /\ forall y, y ∈ Py.sorted_int (Py.unique (col_year df)) ↔ y ∈ col_year df.
Proof.
  split.
  - apply sorted_int_ascending, unique_NoDup.
  - intros y. unfold Py.sorted_int. by rewrite sorted_elem, unique_elem.
Qed.

Lemma StronglySorted_lt_NoDup (l : list Z) : StronglySorted Z.lt l -> NoDup l.
Proof.
  induction 1 as [|x l Hl IH Hall]; constructor; [|done].
  intros Hin. rewrite Forall_forall in Hall. specialize (Hall x Hin). lia.
Qed.

(* ================================================================== *)
(** * Layout engine: [determine_side] *)
(* ================================================================== *)

Section MonadLaws.
Context {S A B : Type}.

Lemma bind_get (k : S -> Py.M S B) (s : S) : Py.bind Py.get k s = k s s.
Proof. unfold Py.bind, Py.get. by destruct (k s s) as [[r s'] w]. Qed.

Lemma bind_ret (a : A) (k : A -> Py.M S B) (s : S) :
  Py.bind (Py.ret a) k s = k a s.
Proof. unfold Py.bind, Py.ret. by destruct (k a s) as [[r s'] w]. Qed.

Lemma bind_run (m : Py.M S A) (k : A -> Py.M S B) (s s1 : S) (a : A) (w1 : list string) :
  m s = (Ok a, s1, w1) ->
  Py.bind m k s = ((k a s1).1.1, (k a s1).1.2, w1 ++ (k a s1).2).
Proof. unfold Py.bind. intros ->. by destruct (k a s1) as [[r s'] w]. Qed.

End MonadLaws.

Lemma list_index_spec (year : Z) (l : list Z) :
  Py.list_index year l =
    if decide (year ∈ l) then Ok (Spec.position year l) else Raise Py.ValueError.
Proof.
  induction l as [|y l IH]; simpl.
  - destruct (decide (year ∈ [])) as [H|_]; [inversion H | done].
  - destruct (Z.eqb_spec y year) as [->|Hne].
    + destruct (decide (year ∈ year :: l)) as [_|Hn];
        [|exfalso; apply Hn, list_elem_of_here].
      by destruct (decide (year = year)).
    + rewrite IH. destruct (decide (y = year)); [done|].
      destruct (decide (year ∈ l)) as [Hin|Hnin];
        destruct (decide (year ∈ y :: l)) as [Hin'|Hnin']; simpl; try done.
      * exfalso. apply Hnin'. by apply list_elem_of_further.
      * exfalso. apply elem_of_cons in Hin' as [->|?]; done.
Qed.

Lemma nat_mod2_even (n : nat) : (n mod 2 =? 0)%nat = Nat.even n.
Proof.
  destruct (Nat.even n) eqn:He.
  - apply Nat.even_spec in He as [k ->].
    rewrite Nat.mul_comm, Nat.Div0.mod_mul. reflexivity.
  - apply Nat.eqb_neq. intros Hm.
    apply Nat.Div0.mod_divides in Hm as [k ->].
    rewrite Nat.even_mul in He. discriminate.
Qed.

Lemma Z_mod2_odd (z : Z) : (z mod 2 =? 1)%Z = Z.odd z.
Proof. rewrite Zmod_odd. by destruct (Z.odd z). Qed.

Lemma Z_mod2_even (z : Z) : (z mod 2 =? 0)%Z = Z.even z.
Proof. rewrite Zmod_even. by destruct (Z.even z). Qed.

Lemma side_by_order_run (year_order : list Z) (year : Z) (self : SmartLayoutEngine.t) :
  SmartLayoutEngine.side_by_order year_order year self
    = (Ok (Spec.order_rule year_order year), self, []).
Proof.
  unfold SmartLayoutEngine.side_by_order, Spec.order_rule, Spec.index_or_zero.
  unfold Py.bind, Py.try_except, Py.lift, Py.ret.
  rewrite list_index_spec.
  destruct (decide (year ∈ year_order)); rewrite <- ?nat_mod2_even; reflexivity.
Qed.

Lemma order_rule_singleton (year : Z) :
  Spec.order_rule [year] year = Spec.order_rule [] year.
Proof.
  unfold Spec.order_rule, Spec.index_or_zero. simpl.
  destruct (decide (year ∈ [year])); destruct (decide (year ∈ [])); simpl;
    by destruct (decide (year = year)).
Qed.

(** The only exception [int] raises on a [str]. *)
Lemma int_of_str_raises (s : string) (e : Py.exn) :
  Py.int_of_str s = Raise e -> e = Py.ValueError.
Proof.
  unfold Py.int_of_str.
  destruct (match Py.drop_trailing_spaces _ with "" => _ | _ => _ end) as [z|];
    [destruct (_ <? _)%nat|]; intros H; by inversion H.
Qed.

(** The records [determine_side] sends to [logger.warning]. *)
Lemma determine_side_run
    (time_config : TimeLogicConfig) (year : Z) (self : SmartLayoutEngine.t) :
  let upper := default "" (upper_years time_config) in
  SmartLayoutEngine.determine_side time_config year self
    = (Ok (Spec.determine_side upper (SmartLayoutEngine._year_order self) year),
       self,
       if Spec.is_keyword (Py.lower upper) then []
       else match Spec.year_list (Py.lower upper) with
            | Some _ => []
            | None => [SmartLayoutEngine.warn_msg (Py.lower upper)]
            end).
Proof.
  intros upper. unfold SmartLayoutEngine.determine_side.
  rewrite bind_get. fold upper.
  unfold Spec.determine_side, Spec.is_keyword.
  set (rule := Py.lower upper).
  set (yo := match SmartLayoutEngine._year_order self with [] => [year] | _ => _ end).
  assert (Hyo : Spec.order_rule yo year
                = Spec.order_rule (SmartLayoutEngine._year_order self) year).
  { unfold yo. destruct (SmartLayoutEngine._year_order self); [|done].
    apply order_rule_singleton. }
  destruct (bool_decide (rule ∈ ["order"; "sequence"; "index"])) eqn:Hk.
  { rewrite side_by_order_run, Hyo.
    apply bool_decide_eq_true in Hk.
    rewrite bool_decide_eq_true_2; [done|].
    rewrite !elem_of_cons in Hk. rewrite !elem_of_cons. tauto. }
  apply bool_decide_eq_false in Hk.
  destruct (String.eqb_spec rule "odd") as [Ho|Ho].
  { rewrite (bool_decide_eq_true_2 (rule = "odd")) by done.
    rewrite bool_decide_eq_true_2 by (rewrite !elem_of_cons; tauto).
    unfold Py.ret. by rewrite Z_mod2_odd. }
  rewrite (bool_decide_eq_false_2 (rule = "odd")) by done.
  destruct (String.eqb_spec rule "even") as [He|He].
  { rewrite (bool_decide_eq_true_2 (rule = "even")) by done.
    rewrite bool_decide_eq_true_2 by (rewrite !elem_of_cons; tauto).
    unfold Py.ret. by rewrite Z_mod2_even. }
  rewrite (bool_decide_eq_false_2 (rule = "even")) by done.
  rewrite bool_decide_eq_false_2.
  2:{ rewrite !elem_of_cons in Hk. rewrite !elem_of_cons.
      intros [?|[?|[?|[?|[?|H]]]]]; try tauto; inversion H. }
  unfold Spec.year_list, Py.try_except, Py.bind, Py.lift, Py.ret, Py.warning.
  destruct (Py.rmapM _ _) as [l|e] eqn:Hparse; simpl; [done|].
  assert (e = Py.ValueError) as ->.
  { clear -Hparse. revert e Hparse.
    induction (List.filter _ _) as [|tok toks IH]; intros e; simpl; [done|].
    destruct (Py.int_of_str (Py.strip tok)) as [z|e'] eqn:Htok; simpl.
    - destruct (Py.rmapM _ toks); simpl; [done|].
      intros H; inversion H; subst. by apply IH.
    - intros H; inversion H; subst. by apply int_of_str_raises in Htok. }
  simpl. by rewrite side_by_order_run, Hyo.
Qed.

(** C5.  [determine_side] follows the rule selected by [upper_years]:
    index parity in the year order for "order"/"sequence"/"index" (in
    any letter case, index 0 for an absent year), year parity for "odd"
    and "even", membership for a comma-separated list of integers; the
    sample cases of the specification are instances.  The year order
    the engine holds after [calculate_layout] is the list of distinct
    years of the dataset in ascending order. *)
Theorem determine_side_rule
    (time_config : TimeLogicConfig) (year : Z) (self : SmartLayoutEngine.t) :
  Py.value (SmartLayoutEngine.determine_side time_config year self)
    = Ok (Spec.determine_side (default "" (upper_years time_config))
                              (SmartLayoutEngine._year_order self) year)
  /\ (let odd := Examples.with_upper_years (Some "odd") in
      Py.value (SmartLayoutEngine.determine_side odd 2021 self) = Ok "above"
      /\ Py.value (SmartLayoutEngine.determine_side odd 2020 self) = Ok "below")
  /\ (let even := Examples.with_upper_years (Some "even") in
      Py.value (SmartLayoutEngine.determine_side even 2020 self) = Ok "above"
      /\ Py.value (SmartLayoutEngine.determine_side even 2021 self) = Ok "below")
  /\ (let listed := Examples.with_upper_years (Some "2020,2022") in
      Py.value (SmartLayoutEngine.determine_side listed 2020 self) = Ok "above"
      /\ Py.value (SmartLayoutEngine.determine_side listed 2021 self) = Ok "below"
      /\ Py.value (SmartLayoutEngine.determine_side listed 2022 self) = Ok "above")
  /\ (forall config df,
        SmartLayoutEngine._year_order
          (Py.state (SmartLayoutEngine.calculate_layout config df self))
        = Py.sorted_int (Py.unique (col_year df))).
Proof.
  rewrite !determine_side_run. repeat split.
  intros config df.
  unfold SmartLayoutEngine.calculate_layout, Py.state, Py.bind, Py.put.
  by destruct (smart_spacing config).
Qed.

(** The cases of [Spec.determine_side], one by one. *)
Lemma spec_side_order (upper : string) (year_order : list Z) (year : Z) :
  Py.lower upper ∈ ["order"; "sequence"; "index"] ->
  Spec.determine_side upper year_order year
    = if Nat.even (Spec.index_or_zero year year_order) then "above" else "below".
Proof.
  intros H. unfold Spec.determine_side. by rewrite bool_decide_eq_true_2.
Qed.

Lemma spec_side_odd (upper : string) (year_order : list Z) (year : Z) :
  Py.lower upper = "odd" ->
  Spec.determine_side upper year_order year = if Z.odd year then "above" else "below".
Proof. intros H. unfold Spec.determine_side. by rewrite H. Qed.

Lemma spec_side_even (upper : string) (year_order : list Z) (year : Z) :
  Py.lower upper = "even" ->
  Spec.determine_side upper year_order year = if Z.even year then "above" else "below".
Proof. intros H. unfold Spec.determine_side. by rewrite H. Qed.

Lemma spec_side_list (upper : string) (year_order : list Z) (year : Z) (l : list Z) :
  Spec.is_keyword (Py.lower upper) = false ->
  Spec.year_list (Py.lower upper) = Some l ->
  Spec.determine_side upper year_order year
    = if bool_decide (year ∈ l) then "above" else "below".
Proof.
  unfold Spec.is_keyword, Spec.determine_side. intros Hk Hl.
  apply bool_decide_eq_false in Hk. rewrite !elem_of_cons in Hk.
  rewrite bool_decide_eq_false_2 by (rewrite !elem_of_cons; tauto).
  rewrite (bool_decide_eq_false_2 (_ = "odd")) by tauto.
  rewrite (bool_decide_eq_false_2 (_ = "even")) by tauto.
  by rewrite Hl.
Qed.

(** With the order rule and the years 2020, 2021, 2022. *)
Example determine_side_order_cases :
  let order := Examples.with_upper_years (Some "order") in
  Py.value (SmartLayoutEngine.determine_side order 2020 Examples.engine3) = Ok "above"
  /\ Py.value (SmartLayoutEngine.determine_side order 2021 Examples.engine3) = Ok "below"
  /\ Py.value (SmartLayoutEngine.determine_side order 2022 Examples.engine3) = Ok "above".
Proof. repeat split. Qed.

Lemma spec_side_values (upper : string) (year_order : list Z) (year : Z) :
  Spec.determine_side upper year_order year = "above"
  \/ Spec.determine_side upper year_order year = "below".
Proof.
  unfold Spec.determine_side, Spec.order_rule.
  repeat match goal with
         | |- context [if ?b then _ else _] => destruct b
         | |- context [match ?o with Some _ => _ | None => _ end] => destruct o
         end; auto.
Qed.

(** A malformed rule: one warning, then the order rule. *)
Example determine_side_malformed :
  SmartLayoutEngine.determine_side
    (Examples.with_upper_years (Some "2020,abc")) 2021 Examples.engine3
  = (Ok "below", Examples.engine3,
     [SmartLayoutEngine.warn_msg "2020,abc"]).
Proof. reflexivity. Qed.

(** Digits of another script are digits: the list is read, nothing is
    logged. *)
Example determine_side_fullwidth_digits :
  SmartLayoutEngine.determine_side
    (Examples.with_upper_years (Some "２０２０")) 2020
    {| SmartLayoutEngine._year_order := [2019; 2020]%Z |}
  = (Ok "above", {| SmartLayoutEngine._year_order := [2019; 2020]%Z |}, []).
Proof. vm_compute. reflexivity. Qed.

(** A no-break space after the digits is white space and is stripped. *)
Example determine_side_no_break_space :
  SmartLayoutEngine.determine_side
    (Examples.with_upper_years (Some ("2020" +:+ Py.encode [160%N]))) 2020
    {| SmartLayoutEngine._year_order := [2019; 2020]%Z |}
  = (Ok "above", {| SmartLayoutEngine._year_order := [2019; 2020]%Z |}, []).
Proof. vm_compute. reflexivity. Qed.

(** Letters outside ASCII are folded too: the warning shows the rule in
    lower case. *)
Example determine_side_accented_rule :
  SmartLayoutEngine.determine_side
    (Examples.with_upper_years (Some "ÉVEN")) 2020
    {| SmartLayoutEngine._year_order := [2019; 2020]%Z |}
  = (Ok "below", {| SmartLayoutEngine._year_order := [2019; 2020]%Z |},
     [SmartLayoutEngine.warn_msg "éven"]).
Proof. vm_compute. reflexivity. Qed.

(** A number with more digits than the interpreter converts: the
    conversion fails, the warning is logged and the order rule
    applies. *)
Example determine_side_too_many_digits :
  let rule := string_of_list_ascii (repeat "1"%char 4301) in
  SmartLayoutEngine.determine_side
    (Examples.with_upper_years (Some rule)) 2020
    {| SmartLayoutEngine._year_order := [2019; 2020]%Z |}
  = (Ok "below", {| SmartLayoutEngine._year_order := [2019; 2020]%Z |},
     [SmartLayoutEngine.warn_msg rule]).
Proof. vm_compute. reflexivity. Qed.

(** C10.  With an empty or missing rule every year is placed below: the
    rule parses to the empty list, nothing is logged and the order rule
    is not consulted. *)
Theorem determine_side_empty_rule
    (time_config : TimeLogicConfig) (year : Z) (self : SmartLayoutEngine.t) :
  upper_years time_config = None \/ upper_years time_config = Some "" ->
  SmartLayoutEngine.determine_side time_config year self = (Ok "below", self, [])
  /\ Spec.year_list (Py.lower (default "" (upper_years time_config))) = Some [].
Proof.
  intros H. rewrite determine_side_run.
  assert (default "" (upper_years time_config) = "") as ->.
  { by destruct H as [-> | ->]. }
  split; reflexivity.
Qed.

Lemma determine_side_empty_rule_witness :
  (upper_years (Examples.with_upper_years None) = None
   \/ upper_years (Examples.with_upper_years None) = Some "")
  /\ SmartLayoutEngine.determine_side
       (Examples.with_upper_years None) 2020 Examples.engine3
     = (Ok "below", Examples.engine3, []).
Proof.
  assert (H : upper_years (Examples.with_upper_years None) = None
              \/ upper_years (Examples.with_upper_years None) = Some "")
    by (left; reflexivity).
  split; [exact H|].
  exact (proj1 (determine_side_empty_rule
                  (Examples.with_upper_years None) 2020 Examples.engine3 H)).
Defined.

(* ================================================================== *)
(** * Colour assignment *)
(* ================================================================== *)

Section StringOrder.

Lemma string_compare_OT (a b : string) :
  String.compare a b = String_as_OT.compare a b.
Proof.
  revert b. induction a as [|x a IH]; intros [|y b]; reflexivity.
Qed.

Lemma string_ltb_trans (a b c : string) :
  String.ltb a b = true -> String.ltb b c = true -> String.ltb a c = true.
Proof.
  unfold String.ltb.
  rewrite (string_compare_OT a b), (string_compare_OT b c), (string_compare_OT a c).
  intros H1 H2.
  destruct (String_as_OT.compare a b) eqn:Hab; try discriminate.
  destruct (String_as_OT.compare b c) eqn:Hbc; try discriminate.
  assert (H : String_as_OT.lt a c).
  { eapply (@StrictOrder_Transitive _ _ String_as_OT.lt_strorder); eassumption. }
  unfold String_as_OT.lt in H. by rewrite H.
Qed.

Lemma string_ltb_irrefl (a : string) : String.ltb a a = false.
Proof.
  unfold String.ltb.
  destruct (String.compare a a) eqn:H; try reflexivity.
  pose proof (String.compare_antisym a a) as Ha. rewrite H in Ha. discriminate.
Qed.

Lemma string_leb_ltb (a b : string) :
  String.leb a b = true -> a ≠ b -> String.ltb a b = true.
Proof.
  unfold String.leb, String.ltb.
  destruct (String.compare a b) eqn:H; try done.
  intros _ Hne. by apply String.compare_eq_iff in H.
Qed.

Lemma string_ltb_leb (a b : string) : String.ltb a b = true -> String.leb a b = true.
Proof. unfold String.leb, String.ltb. by destruct (String.compare a b). Qed.

Lemma string_leb_trans (a b c : string) :
  String.leb a b = true -> String.leb b c = true -> String.leb a c = true.
Proof.
  intros Hab Hbc.
  destruct (decide (a = b)) as [->|Hne1]; [done|].
  destruct (decide (b = c)) as [->|Hne2]; [done|].
  apply string_ltb_leb. eapply string_ltb_trans; by apply string_leb_ltb.
Qed.

Lemma string_ltb_asym (a b : string) :
  String.ltb a b = true -> String.ltb b a = false.
Proof.
  intros Hab. destruct (String.ltb b a) eqn:Hba; [|done].
  pose proof (string_ltb_trans _ _ _ Hab Hba) as H.
  by rewrite string_ltb_irrefl in H.
Qed.

Lemma sorted_str_ascending (l : list string) :
  NoDup l -> StronglySorted (fun a b => String.ltb a b = true) (Py.sorted_str l).
Proof.
  intros Hnd.
  assert (Hs : StronglySorted (fun a b => String.leb a b = true) (Py.sorted_str l)).
  { apply sorted_StronglySorted; [apply String.leb_total | apply string_leb_trans]. }
  assert (Hn : NoDup (Py.sorted_str l)) by by apply sorted_NoDup.
  induction Hs as [|x l' Hl IH Hall]; [constructor|].
  apply NoDup_cons in Hn as [Hx Hn].
  constructor; [by apply IH|].
  apply Forall_forall. intros y Hy.
  rewrite Forall_forall in Hall.
  apply string_leb_ltb; [by apply Hall|]. by intros ->.
Qed.

Lemma filter_none {A} (P : A -> Prop) `{forall x, Decision (P x)} (l : list A) :
  Forall (fun x => ~ P x) l -> filter P l = [].
Proof.
  induction 1 as [|x l Hx Hl IH]; [done|].
  rewrite filter_cons. by destruct (decide (P x)).
Qed.

Lemma rank_in_ascending (l : list string) (i : nat) (c : string) :
  StronglySorted (fun a b => String.ltb a b = true) l ->
  l !! i = Some c -> Spec.rank c l = i.
Proof.
  unfold Spec.rank. intros Hs. revert i.
  induction Hs as [|x l Hl IH Hall]; intros i Hi; [done|].
  rewrite Forall_forall in Hall. rewrite filter_cons.
  destruct i as [|i]; simpl in Hi.
  - inversion Hi; subst x.
    destruct (decide (String.ltb c c = true)) as [Hcc|_];
      [by rewrite string_ltb_irrefl in Hcc|].
    rewrite filter_none; [done|].
    apply Forall_forall. intros y Hy. rewrite string_ltb_asym; [done|]. by apply Hall.
  - destruct (decide (String.ltb x c = true)) as [_|Hn].
    + simpl. f_equal. by apply IH.
    + exfalso. apply Hn, Hall. by eapply list_elem_of_lookup_2.
Qed.

Lemma rank_permutation (c : string) (l1 l2 : list string) :
  l1 ≡ₚ l2 -> Spec.rank c l1 = Spec.rank c l2.
Proof. unfold Spec.rank. by intros ->. Qed.

End StringOrder.

Section GetCategoryColors.
Variable self : ColorConfig.t.

(** The colour given to the category at index [i] of the sorted list. *)
Local Abbreviation color_at i c :=
  (match ColorConfig.legacy_mapping self !! c with
   | Some color => Some color
   | None => ColorConfig.DEFAULT_COLORS !! (i mod length ColorConfig.DEFAULT_COLORS)%nat
   end).

Lemma assign_color_ok (m : gmap string string) (i : nat) (c : string) :
  exists color,
    ColorConfig.assign_color self m (i, c) = Ok (<[c := color]> m)
    /\ color_at i c = Some color.
Proof.
  unfold ColorConfig.assign_color.
  destruct (ColorConfig.legacy_mapping self !! c) as [color|]; [by exists color|].
  assert (Hlt : (i mod length ColorConfig.DEFAULT_COLORS
                 < length ColorConfig.DEFAULT_COLORS)%nat).
  { apply Nat.mod_upper_bound. simpl. lia. }
  apply lookup_lt_is_Some in Hlt as [color Hc].
  exists color. unfold Py.list_get. by rewrite Hc.
Qed.

Lemma assign_colors_snoc (m : gmap string string)
    (entries : list (nat * string)) (entry : nat * string) :
  ColorConfig.assign_colors self m (entries ++ [entry])
    = Py.rbind (ColorConfig.assign_colors self m entries)
               (fun m' => ColorConfig.assign_color self m' entry).
Proof.
  revert m. induction entries as [|e entries IH]; intros m; simpl.
  - by destruct (ColorConfig.assign_color self m entry).
  - destruct (ColorConfig.assign_color self m e); simpl; [apply IH | done].
Qed.

Lemma assign_colors_spec (l : list string) :
  NoDup l ->
  exists m,
    ColorConfig.assign_colors self ∅ (Py.enumerate l) = Ok m
    /\ (forall c, c ∉ l -> m !! c = None)
    /\ (forall i c, l !! i = Some c -> is_Some (m !! c) /\ m !! c = color_at i c).
Proof.
  induction l as [|c l IH] using rev_ind; intros Hnd.
  - exists ∅. split; [done|]. split; [intros; apply lookup_empty | done].
  - apply NoDup_app in Hnd as (Hnd & Hdisj & _).
    destruct (IH Hnd) as (m & Hm & Hout & Hin).
    destruct (assign_color_ok m (length l) c) as (color & Hc & Hcolor).
    exists (<[c := color]> m). split; [|split].
    + by rewrite enumerate_snoc, assign_colors_snoc, Hm.
    + intros c' Hc'. rewrite elem_of_app, list_elem_of_singleton in Hc'.
      rewrite lookup_insert_ne by (intros ->; tauto). apply Hout. tauto.
    + intros i c' Hi.
      destruct (decide (i = length l)) as [->|Hne].
      * rewrite list_lookup_middle in Hi by done. inversion Hi; subst c'.
        rewrite lookup_insert_eq. by rewrite Hcolor.
      * assert (Hlt : (i < length l)%nat).
        { apply lookup_lt_Some in Hi. rewrite length_app in Hi. simpl in Hi. lia. }
        rewrite lookup_app_l in Hi by done.
        rewrite lookup_insert_ne; [by apply Hin|].
        intros ->. eapply Hdisj; [by eapply list_elem_of_lookup_2 | apply list_elem_of_here].
Qed.

Lemma get_category_colors_spec (categories : list string) :
  NoDup categories ->
  exists color_map,
    ColorConfig.get_category_colors self categories = Ok color_map
    /\ (forall c, c ∈ dom color_map ↔ c ∈ categories)
    /\ (forall c, c ∈ categories ->
          color_map !! c = Spec.color_of self categories c).
Proof.
  intros Hnd. unfold ColorConfig.get_category_colors.
  assert (Hnd' : NoDup (Py.sorted_str categories)) by by apply sorted_NoDup.
  destruct (assign_colors_spec _ Hnd') as (m & Hm & Hout & Hin).
  exists m. split; [exact Hm|]. split.
  - intros c. rewrite elem_of_dom. split.
    + intros Hsome. destruct (decide (c ∈ categories)) as [|Hn]; [done|].
      rewrite Hout in Hsome; [by destruct Hsome|].
      unfold Py.sorted_str. by rewrite sorted_elem.
    + intros Hc. assert (Hc' : c ∈ Py.sorted_str categories).
      { unfold Py.sorted_str. by rewrite sorted_elem. }
      apply list_elem_of_lookup in Hc' as [i Hi]. by apply (Hin i c).
  - intros c Hc. assert (Hc' : c ∈ Py.sorted_str categories).
    { unfold Py.sorted_str. by rewrite sorted_elem. }
    apply list_elem_of_lookup in Hc' as [i Hi].
    destruct (Hin i c Hi) as [_ ->]. unfold Spec.color_of.
    rewrite (rank_permutation c categories (Py.sorted_str categories))
      by (unfold Py.sorted_str; by rewrite sorted_perm).
    rewrite (rank_in_ascending _ i c); [done | by apply sorted_str_ascending | done].
Qed.

End GetCategoryColors.

(* ================================================================== *)
(** * Generator: running the section builders *)
(* ================================================================== *)

Section Loops.
Context {S A B : Type}.

Lemma for_each_run (body : A -> Py.M S B) (f : A -> B) (w : A -> list string)
    (s : S) (l : list A) :
  (forall x, x ∈ l -> body x s = (Ok (f x), s, w x)) ->
  Py.for_each body l s = (Ok (f <$> l), s, concat (w <$> l)).
Proof.
  induction l as [|x l IH]; intros Hbody; [done|].
  simpl. unfold Py.bind.
  rewrite (Hbody x) by apply list_elem_of_here.
  rewrite IH by (intros y Hy; apply Hbody; by apply list_elem_of_further).
  simpl. by rewrite app_nil_r.
Qed.

Lemma rmapM_ok (f : A -> Py.result B) (g : A -> B) (l : list A) :
  (forall x, x ∈ l -> f x = Ok (g x)) -> Py.rmapM f l = Ok (g <$> l).
Proof.
  induction l as [|x l IH]; intros Hf; [done|].
  simpl. rewrite (Hf x) by apply list_elem_of_here. simpl.
  by rewrite IH by (intros y Hy; apply Hf; by apply list_elem_of_further).
Qed.

End Loops.

Lemma zoom_determine_side
    (time_config : TimeLogicConfig) (year : Z) (self : LaTeXGenerator.t) :
  let upper := default "" (upper_years time_config) in
  Py.zoom LaTeXGenerator.layout_engine LaTeXGenerator.set_layout_engine
    (SmartLayoutEngine.determine_side time_config year) self
  = (Ok (Spec.determine_side upper
           (SmartLayoutEngine._year_order (LaTeXGenerator.layout_engine self)) year),
     self,
     if Spec.is_keyword (Py.lower upper) then []
     else match Spec.year_list (Py.lower upper) with
          | Some _ => []
          | None => [SmartLayoutEngine.warn_msg (Py.lower upper)]
          end).
Proof.
  intros upper. unfold Py.zoom. rewrite determine_side_run.
  by destruct self.
Qed.

Section MatrixRows.
Variables (cfg : LaTeXGenerator.Config) (group : list Row).

Local Abbreviation cell i r :=
  (LaTeXGenerator.Cell (Spec.node_for cfg r).1 (Spec.node_for cfg r).2
     (Spec.paired_with_next (length group) i)).

(** Rows produced for the records from index [j] on.  At an odd index
    of a paired matrix the record was already emitted together with its
    predecessor. *)
Lemma matrix_rows_from (j : nat) (rest : list Row) :
  drop j group = rest ->
  exists rows,
    Py.rmapM (LaTeXGenerator.matrix_row cfg group)
             (imap (fun i r => (j + i, r)%nat) rest) = Ok rows
    /\ concat rows =
         if ((3 <? length group)%nat && Nat.odd j)%bool
         then imap (fun i r => cell (S j + i)%nat r) (tail rest)
         else imap (fun i r => cell (j + i)%nat r) rest.
Proof.
  revert j. induction rest as [|r rest IH]; intros j Hdrop.
  - exists []. split; [done|]. by destruct (_ && _)%bool.
  - assert (Hj : group !! j = Some r).
    { rewrite <- (Nat.add_0_r j), <- lookup_drop, Hdrop. done. }
    assert (Hdrop' : drop (S j) group = rest).
    { rewrite <- (Nat.add_1_r j), <- drop_drop, Hdrop. done. }
    assert (Hlen : length group = (j + S (length rest))%nat).
    { rewrite <- (take_drop j group) at 1. rewrite length_app, Hdrop.
      rewrite length_take_le; [done|]. apply lookup_lt_Some in Hj. lia. }
    destruct (IH (S j) Hdrop') as (rows & Hrows & Hcat).
    rewrite imap_cons.
    assert (Hshift : imap ((fun i r => (j + i, r)%nat) ∘ S) rest
                     = imap (fun i r => (S j + i, r)%nat) rest).
    { apply imap_ext. intros i x _. simpl. f_equal. lia. }
    rewrite Hshift. cbn [Py.rmapM]. rewrite Hrows.
    rewrite Nat.add_0_r.
    unfold LaTeXGenerator.matrix_row at 1.
    rewrite nat_mod2_even.
    assert (Hodd_mod : (j mod 2 =? 1)%nat = Nat.odd j).
    { rewrite <- Nat.negb_even, <- nat_mod2_even.
      pose proof (Nat.mod_upper_bound j 2 ltac:(lia)).
      destruct (j mod 2)%nat as [|[|?]] eqn:E; simpl; try done. lia. }
    rewrite Hodd_mod.
    rewrite Nat.odd_succ in Hcat.
    destruct (3 <? length group)%nat eqn:Hk; simpl in *.
    + destruct (Nat.even j) eqn:Hev.
      * assert (Ho : Nat.odd j = false) by (rewrite <- Nat.negb_even, Hev; done).
        rewrite Ho in *. simpl in *.
        destruct rest as [|r' rest'].
        -- assert (Hlast : (j <? length group - 1)%nat = false).
           { apply Nat.ltb_ge. simpl in Hlen. lia. }
           rewrite Hlast. simpl.
           inversion Hrows; subst rows. eexists. split; [reflexivity|].
           simpl. unfold Spec.paired_with_next. rewrite Nat.add_0_r.
           by rewrite Hk, Hev, Hlast.
        -- assert (Hnext : (j <? length group - 1)%nat = true).
           { apply Nat.ltb_lt. simpl in Hlen. lia. }
           rewrite Hnext. simpl.
           assert (Hj' : group !! (j + 1)%nat = Some r').
           { rewrite Nat.add_1_r, <- (Nat.add_0_r (S j)), <- lookup_drop, Hdrop'. done. }
           unfold Py.list_get. rewrite Hj'. simpl.
           eexists. split; [reflexivity|].
           simpl. rewrite Hcat. simpl.
           rewrite !Nat.add_0_r.
           assert (Hp : Spec.paired_with_next (length group) j = true).
           { unfold Spec.paired_with_next. by rewrite Hk, Hev, Hnext. }
           assert (Hq : Spec.paired_with_next (length group) (j + 1) = false).
           { unfold Spec.paired_with_next.
             rewrite Nat.add_1_r, Nat.even_succ, Ho.
             by rewrite Bool.andb_false_r. }
           rewrite Hp, Hq. do 2 f_equal.
           apply imap_ext. intros i x _. simpl. do 2 f_equal; lia.
      * assert (Ho : Nat.odd j = true) by (rewrite <- Nat.negb_even, Hev; done).
        rewrite Ho in *. simpl in *.
        eexists. split; [reflexivity|]. simpl. exact Hcat.
    + eexists. split; [reflexivity|]. simpl. rewrite Hcat.
      assert (Hp : Spec.paired_with_next (length group) (j + 0) = false).
      { unfold Spec.paired_with_next. by rewrite Hk. }
      rewrite Hp. f_equal.
      apply imap_ext. intros i x _. simpl. do 2 f_equal; lia.
Qed.

Lemma matrix_rows_run :
  exists rows,
    Py.rmapM (LaTeXGenerator.matrix_row cfg group) (Py.enumerate group) = Ok rows
    /\ concat rows = Spec.cells cfg group.
Proof.
  destruct (matrix_rows_from 0 group eq_refl) as (rows & Hrows & Hcat).
  exists rows. split; [exact Hrows|].
  rewrite Hcat. simpl. by rewrite Bool.andb_false_r.
Qed.

End MatrixRows.

Section MethodNodes.
Variables (cfg : LaTeXGenerator.Config) (df : DataFrame) (lp : LayoutParams).

Lemma year_block_absent (y : Z) (self : LaTeXGenerator.t) :
  y ∉ col_year df ->
  LaTeXGenerator.year_block cfg df lp y self = (Ok [], self, []).
Proof.
  intros Hy. unfold LaTeXGenerator.year_block.
  by rewrite bool_decide_eq_false_2.
Qed.

(** The lines appended for one year of the dataset. *)
Lemma year_block_run (y : Z) (self : LaTeXGenerator.t) :
  y ∈ col_year df ->
  exists lines w mark,
    LaTeXGenerator.year_block cfg df lp y self = (Ok lines, self, w)
    /\ match get_group df y with
       | [r] =>
           exists anchor,
             lines = [ LaTeXGenerator.Blank;
                       LaTeXGenerator.YearComment y mark;
                       LaTeXGenerator.SingleNode
                         (Spec.node_for cfg r).1 anchor (adjusted_branch lp) y
                         (Spec.node_for cfg r).2 ]
       | group =>
           exists position anchor,
             lines = [ LaTeXGenerator.Blank;
                       LaTeXGenerator.YearComment y mark;
                       LaTeXGenerator.MatrixOpen position (adjusted_branch lp) y anchor ]
                     ++ Spec.cells cfg group ++ [ LaTeXGenerator.MatrixClose ]
       end.
Proof.
  intros Hy. unfold LaTeXGenerator.year_block.
  rewrite bool_decide_eq_true_2 by done. simpl.
  erewrite bind_run by apply zoom_determine_side.
  set (side := Spec.determine_side _ _ _).
  set (w := if Spec.is_keyword _ then _ else _).
  destruct (get_group df y) as [|r [|r' group]] eqn:Hg.
  - simpl. destruct (matrix_rows_run cfg []) as (rows & Hrows & Hcat).
    unfold Py.bind, Py.lift, Py.ret. simpl.
    do 3 eexists. split; [by rewrite app_nil_r|]. by do 2 eexists.
  - simpl. do 3 eexists. split; [by rewrite app_nil_r|]. by eexists.
  - destruct (matrix_rows_run cfg (r :: r' :: group)) as (rows & Hrows & Hcat).
    cbn [length Nat.eqb]. unfold Py.bind, Py.lift, Py.ret.
    rewrite Hrows. cbn [fst snd]. rewrite Hcat.
    do 3 eexists. split; [by rewrite app_nil_r|]. by do 2 eexists.
Qed.

Lemma method_node_lines_run (self : LaTeXGenerator.t) :
  exists blocks w,
    LaTeXGenerator.method_node_lines cfg df lp self
      = (Ok ([ LaTeXGenerator.Blank; LaTeXGenerator.Banner;
               LaTeXGenerator.Title; LaTeXGenerator.Banner ] ++ concat blocks),
         self, w)
    /\ Forall2 (fun y block =>
                  Py.value (LaTeXGenerator.year_block cfg df lp y self) = Ok block)
               (Py.sorted_int (Py.unique (col_year df))) blocks.
Proof.
  unfold LaTeXGenerator.method_node_lines.
  assert (Hall : forall y, exists lines w,
            LaTeXGenerator.year_block cfg df lp y self = (Ok lines, self, w)).
  { intros y. destruct (decide (y ∈ col_year df)) as [Hy|Hy].
    - destruct (year_block_run y self Hy) as (lines & w & _ & H & _). eauto.
    - rewrite year_block_absent by done. eauto. }
  generalize (Py.sorted_int (Py.unique (col_year df))). intros ys.
  assert (Hloop : exists blocks w,
            Py.for_each (LaTeXGenerator.year_block cfg df lp) ys self
              = (Ok blocks, self, w)
            /\ Forall2 (fun y block =>
                 Py.value (LaTeXGenerator.year_block cfg df lp y self) = Ok block)
                 ys blocks).
  { induction ys as [|y ys IH].
    - exists [], []. split; [done | constructor].
    - destruct (Hall y) as (lines & w & Hy).
      destruct IH as (blocks & w' & Hblocks & Hf).
      exists (lines :: blocks), (w ++ w' ++ []). split.
      + simpl. unfold Py.bind. by rewrite Hy, Hblocks.
      + constructor; [by rewrite Hy | done]. }
  destruct Hloop as (blocks & w & Hblocks & Hf).
  exists blocks, (w ++ []). split; [|done].
  unfold Py.bind. by rewrite Hblocks.
Qed.

Lemma cells_nodes (group : list Row) :
  omap LaTeXGenerator.node_of (Spec.cells cfg group) = Spec.node_for cfg <$> group.
Proof.
  unfold Spec.cells. generalize (length group). intros k.
  assert (H : forall (f : nat -> nat),
    omap LaTeXGenerator.node_of
      (imap (fun i r => LaTeXGenerator.Cell (Spec.node_for cfg r).1
                          (Spec.node_for cfg r).2
                          (Spec.paired_with_next k (f i))) group)
    = Spec.node_for cfg <$> group).
  { induction group as [|r group IH]; intros f; [done|].
    simpl. f_equal. apply (IH (f ∘ S)). }
  apply (H id).
Qed.


Lemma cells_count (group : list Row) :
  length (List.filter LaTeXGenerator.is_node (Spec.cells cfg group)) = length group
  /\ List.filter LaTeXGenerator.is_matrix (Spec.cells cfg group) = [].
Proof.
  unfold Spec.cells.
  assert (H : forall (k : nat) (f : nat -> nat),
    let cs := imap (fun i r => LaTeXGenerator.Cell (Spec.node_for cfg r).1
                                 (Spec.node_for cfg r).2
                                 (Spec.paired_with_next k (f i))) group in
    length (List.filter LaTeXGenerator.is_node cs) = length group
    /\ List.filter LaTeXGenerator.is_matrix cs = []).
  { induction group as [|r group IH]; intros k f; [done|].
    simpl. destruct (IH k (f ∘ S)) as [H1 H2]. split; [by f_equal | done]. }
  apply (H (length group) id).
Qed.

End MethodNodes.

Section RenderedLines.
Variable float_str : Q -> string.

Lemma render_starts_node (l : LaTeXGenerator.node_line) :
  Spec.starts_node (LaTeXGenerator.render float_str l) = LaTeXGenerator.is_node l.
Proof. destruct l; reflexivity. Qed.

Lemma render_starts_matrix (l : LaTeXGenerator.node_line) :
  Spec.starts_matrix (LaTeXGenerator.render float_str l) = LaTeXGenerator.is_matrix l.
Proof. destruct l; reflexivity. Qed.

Lemma filter_rendered (p : string -> bool) (q : LaTeXGenerator.node_line -> bool)
    (ls : list LaTeXGenerator.node_line) :
  (forall l, p (LaTeXGenerator.render float_str l) = q l) ->
  length (List.filter p (LaTeXGenerator.render float_str <$> ls))
    = length (List.filter q ls).
Proof.
  intros Hpq. induction ls as [|l ls IH]; [done|].
  rewrite fmap_cons. cbn [List.filter]. rewrite Hpq.
  destruct (q l); cbn [length]; by rewrite IH.
Qed.

End RenderedLines.



(** The end-to-end scenario: three years with one record each give three
    single nodes and no container. *)
Example method_nodes_df3 :
  Py.value (LaTeXGenerator._generate_method_nodes (fun _ => "1.2")
              Examples.config Examples.df3 Examples.layout_dense
              (LaTeXGenerator.set_layout_engine Examples.engine3 LaTeXGenerator.init))
  = Ok (Py.join LaTeXGenerator.nl
          [ "";
            "    % ========================================";
            "    % 2. Define all method nodes";
            "    % ========================================";
            "";
            "    % --- 2020 (upper) ---";
            "    \node[a, above=1.2cm of Y2020] (M2020) {M1~{\tiny\cite{R1}}};";
            "";
            "    % --- 2021 (lower) ---";
            "    \node[b, below=1.2cm of Y2021] (M2021) {M2~{\tiny\cite{R2}}};";
            "";
            "    % --- 2022 (upper) ---";
            "    \node[a, above=1.2cm of Y2022] (M2022) {M3~{\tiny\cite{R3}}};" ]).
Proof. vm_compute. reflexivity. Qed.

(** The rendered lines of a block with four records: one container
    line, four node lines in two rows. *)
Example year_block_dense_rendered :
  (fun r => match r with Ok ls => Some (LaTeXGenerator.render (fun _ => "2.4") <$> ls)
                    | Raise _ => None end)
    (Py.value (LaTeXGenerator.year_block Examples.config Examples.df_dense
                 Examples.layout_dense
                 2022 (LaTeXGenerator.set_layout_engine Examples.engine3
                         LaTeXGenerator.init)))
  = Some [ "";
           "    % --- 2022 (upper) ---";
           "    \matrix[methodmatrix, above=2.4cm of Y2022, anchor=south] (M2022) {";
           "        \node[a] {M3~{\tiny\cite{R3}}}; &";
           "        \node[a] {M4~{\tiny\cite{R4}}}; \\";
           "        \node[a] {M5~{\tiny\cite{R5}}}; &";
           "        \node[a] {M6~{\tiny\cite{R6}}}; \\";
           "    };" ].
Proof. vm_compute. reflexivity. Qed.

Lemma bind_ok {S A B : Type} (m : Py.M S A) (k : A -> Py.M S B) (s s1 s2 : S) (a : A)
    (r : Py.result B) (w1 w2 : list string) :
  m s = (Ok a, s1, w1) -> k a s1 = (r, s2, w2) ->
  Py.bind m k s = (r, s2, w1 ++ w2).
Proof. unfold Py.bind. by intros -> ->. Qed.

Section Sequencing.
Context {S A B : Type}.

Lemma for_each_ok (body : A -> Py.M S B) (f : A -> B) (s : S) (l : list A) :
  (forall x, x ∈ l -> exists w, body x s = (Ok (f x), s, w)) ->
  exists w, Py.for_each body l s = (Ok (f <$> l), s, w).
Proof.
  induction l as [|x l IH]; intros Hbody; [by exists []|].
  destruct (Hbody x) as [w Hx]; [apply list_elem_of_here|].
  destruct IH as [w' Hl]; [intros y Hy; apply Hbody; by apply list_elem_of_further|].
  eexists. simpl.
  eapply bind_ok; [exact Hx|].
  eapply bind_ok; [exact Hl|]. reflexivity.
Qed.

Lemma rmapM_total (f : A -> Py.result B) (l : list A) :
  (forall x, x ∈ l -> exists y, f x = Ok y) -> exists ys, Py.rmapM f l = Ok ys.
Proof.
  induction l as [|x l IH]; intros Hf; [by exists []|].
  destruct (Hf x) as [y Hy]; [apply list_elem_of_here|].
  destruct IH as [ys Hys]; [intros z Hz; apply Hf; by apply list_elem_of_further|].
  exists (y :: ys). simpl. by rewrite Hy, Hys.
Qed.

End Sequencing.

Section Sections.
Variable float_str : Q -> string.
Variables (cfg : LaTeXGenerator.Config) (df : DataFrame).

Lemma calculate_layout_run (config : LayoutConfig) :
  exists lp,
    forall self,
      SmartLayoutEngine.calculate_layout config df self
        = (Ok lp,
           {| SmartLayoutEngine._year_order := Py.sorted_int (Py.unique (col_year df)) |},
           []).
Proof.
  unfold SmartLayoutEngine.calculate_layout, Py.bind, Py.put.
  destruct (smart_spacing config); eexists; intros self; reflexivity.
Qed.

Lemma generate_styles_run (categories : list string) :
  NoDup categories ->
  exists text color_map,
    ColorConfig.get_category_colors (LaTeXGenerator.colors cfg) categories = Ok color_map
    /\ forall self,
         exists w,
           LaTeXGenerator._generate_styles cfg categories self
             = (Ok text, LaTeXGenerator.set_category_colors color_map self, w).
Proof.
  intros Hnd.
  destruct (get_category_colors_spec (LaTeXGenerator.colors cfg) categories Hnd)
    as (cm & Hcm & Hdom & _).
  eexists. exists cm. split; [exact Hcm|]. intros self.
  unfold LaTeXGenerator._generate_styles.
  destruct (for_each_ok
    (fun cat =>
       Py.bind Py.get (fun self0 =>
       Py.bind (Py.lift (Py.dict_get (LaTeXGenerator.category_colors self0) cat))
         (fun color => Py.ret (LaTeXGenerator.style_def cfg cat color))))
    (fun cat => LaTeXGenerator.style_def cfg cat (default "" (cm !! cat)))
    (LaTeXGenerator.set_category_colors cm self)
    (Py.sorted_str categories)) as [w Hloop].
  { intros cat Hcat. rewrite bind_get. simpl.
    assert (Hsome : is_Some (cm !! cat)).
    { apply elem_of_dom, Hdom. unfold Py.sorted_str in Hcat.
      by rewrite sorted_elem in Hcat. }
    destruct Hsome as [color Hcolor].
    unfold Py.dict_get. rewrite Hcolor. simpl. by eexists. }
  eexists.
  eapply bind_ok; [unfold Py.lift; by rewrite Hcm|].
  eapply bind_ok; [reflexivity|].
  eapply bind_ok; [exact Hloop|]. reflexivity.
Qed.

Lemma generate_timeline_axis_ok (config : LayoutConfig)
    (self : SmartLayoutEngine.t) (lp : LayoutParams) :
  Py.value (SmartLayoutEngine.calculate_layout config df self) = Ok lp ->
  exists text, LaTeXGenerator._generate_timeline_axis float_str lp = Ok text.
Proof.
  intros Hlp.
  pose proof (calculate_layout_years config df self lp Hlp) as Hy.
  destruct (calculate_layout_positions config df self lp Hlp) as [Hpos _].
  destruct (years_sorted_distinct df) as [Hsorted _].
  rewrite <- Hy in Hsorted.
  assert (Hnd : NoDup (years lp)) by by apply StronglySorted_lt_NoDup.
  unfold LaTeXGenerator._generate_timeline_axis.
  destruct (rmapM_total
    (fun year =>
       Py.rbind (Py.dict_get (positions lp) year) (fun pos =>
       Ok ("    \coordinate (Y" +:+ Py.str_int year +:+ ") at (" +:+
           float_str pos +:+ ",0);")))
    (years lp)) as [coords Hcoords].
  { intros y Hin. apply list_elem_of_lookup in Hin as [i Hi].
    unfold Py.dict_get. rewrite Hpos.
    rewrite (positions_lookup _ _ i y Hnd Hi). simpl. by eexists. }
  rewrite Hcoords. simpl.
  destruct (1 <? length (years lp))%nat; [|by eexists].
  destruct (rmapM_total
    (fun i =>
       Py.rbind (Py.list_get (years lp) i) (fun y =>
       Py.rbind (Py.list_get (years lp) (i + 1)) (fun y' =>
       Ok (Py.str_int y +:+ "/" +:+ Py.str_int y'))))
    (seq 0 (length (years lp) - 1))) as [pairs Hpairs].
  { intros i Hi. apply elem_of_seq in Hi.
    destruct (lookup_lt_is_Some_2 (years lp) i) as [y Hyi]; [lia|].
    destruct (lookup_lt_is_Some_2 (years lp) (i + 1)) as [y' Hyi']; [lia|].
    unfold Py.list_get. rewrite Hyi, Hyi'. simpl. by eexists. }
  rewrite Hpairs. simpl. by eexists.
Qed.

Lemma generate_method_nodes_run (lp : LayoutParams) (self : LaTeXGenerator.t) :
  exists text w,
    LaTeXGenerator._generate_method_nodes float_str cfg df lp self = (Ok text, self, w).
Proof.
  destruct (method_node_lines_run cfg df lp self) as (blocks & w & Hlines & _).
  unfold LaTeXGenerator._generate_method_nodes.
  do 2 eexists. eapply bind_ok; [exact Hlines|]. reflexivity.
Qed.

Lemma generate_background_layer_run (self : LaTeXGenerator.t) :
  exists text w,
    LaTeXGenerator._generate_background_layer float_str cfg df self = (Ok text, self, w).
Proof.
  unfold LaTeXGenerator._generate_background_layer.
  match goal with
  | |- context [Py.for_each ?body ?l] =>
      destruct (for_each_ok body
        (fun year =>
           if String.eqb (Spec.determine_side
                            (default "" (upper_years (LaTeXGenerator.time_logic cfg)))
                            (SmartLayoutEngine._year_order
                               (LaTeXGenerator.layout_engine self)) year) "above"
           then "        " +:+
                ("\draw[conn] (M" +:+ Py.str_int year +:+ ".south) -- " +:+
                 "([yshift=" +:+ float_str (spine_length (LaTeXGenerator.layout cfg)) +:+
                 "cm]Y" +:+ Py.str_int year +:+ ");")
           else "        " +:+
                ("\draw[conn] (M" +:+ Py.str_int year +:+ ".north) -- " +:+
                 "([yshift=-" +:+ float_str (spine_length (LaTeXGenerator.layout cfg)) +:+
                 "cm]Y" +:+ Py.str_int year +:+ ");"))
        self l) as [w Hloop]
  end.
  { intros year _. eexists.
    eapply bind_ok; [apply zoom_determine_side|].
    destruct (String.eqb _ "above"); reflexivity. }
  do 2 eexists. eapply bind_ok; [exact Hloop|]. reflexivity.
Qed.

Lemma generate_caption_run (categories : list string) (self : LaTeXGenerator.t) :
  (forall c, c ∈ categories -> is_Some (LaTeXGenerator.category_colors self !! c)) ->
  exists text w,
    LaTeXGenerator._generate_caption cfg categories self = (Ok text, self, w).
Proof.
  intros Hdom. unfold LaTeXGenerator._generate_caption.
  destruct (show_legend (LaTeXGenerator.output cfg)).
  - destruct (for_each_ok
      (fun category =>
         Py.bind Py.get (fun self0 =>
         Py.bind (Py.lift (Py.dict_get (LaTeXGenerator.category_colors self0) category))
           (fun fill_color =>
              Py.ret (LaTeXGenerator.legend_part category fill_color +:+ " "))))
      (fun category =>
         LaTeXGenerator.legend_part category
           (default "" (LaTeXGenerator.category_colors self !! category)) +:+ " ")
      self (Py.sorted_str categories)) as [w Hloop].
    { intros c Hc. rewrite bind_get.
      destruct (Hdom c) as [color Hcolor].
      { unfold Py.sorted_str in Hc. by rewrite sorted_elem in Hc. }
      unfold Py.dict_get. rewrite Hcolor. simpl. by eexists. }
    do 2 eexists.
    eapply bind_ok; [|reflexivity].
    eapply bind_ok; [exact Hloop|]. reflexivity.
  - do 2 eexists. eapply bind_ok; reflexivity.
Qed.

End Sections.

(** C7.  The colour table computed for a dataset, and cached by
    [_generate_styles], has exactly the categories of the dataset as
    keys; a category of the fixed table gets its configured colour, any
    other one the palette colour at its rank among the categories,
    modulo the palette size. *)
Theorem category_colors_cover
    (cfg : LaTeXGenerator.Config) (df : DataFrame) (self : LaTeXGenerator.t) :
  let categories := Py.unique (col_category df) in
  exists color_map,
    ColorConfig.get_category_colors (LaTeXGenerator.colors cfg) categories = Ok color_map
    /\ LaTeXGenerator.category_colors
         (Py.state (LaTeXGenerator._generate_styles cfg categories self)) = color_map
    /\ (forall c, c ∈ dom color_map ↔ c ∈ col_category df)
    /\ (forall c, c ∈ col_category df ->
          is_Some (color_map !! c)
          /\ color_map !! c = Spec.color_of (LaTeXGenerator.colors cfg) categories c).
Proof.
  intros categories.
  assert (Hnd : NoDup categories) by apply unique_NoDup.
  destruct (get_category_colors_spec (LaTeXGenerator.colors cfg) categories Hnd)
    as (cm & Hcm & Hdom & Hcolor).
  destruct (generate_styles_run cfg categories Hnd) as (text & cm' & Hcm' & Hrun).
  rewrite Hcm in Hcm'. inversion Hcm'; subst cm'.
  destruct (Hrun self) as [w Hself].
  exists cm. split; [exact Hcm|]. split; [by rewrite Hself|]. split.
  - intros c. rewrite Hdom. apply unique_elem.
  - intros c Hc. apply unique_elem in Hc. split.
    + by apply elem_of_dom, Hdom.
    + by apply Hcolor.
Qed.

(** A known and two unknown categories: "hybrid" keeps its configured
    colour, "a" (rank 0) and "zz" (rank 2) take palette entries 0 and 2. *)
Example category_colors_sample :
  exists color_map,
    ColorConfig.get_category_colors Defaults.colors ["zz"; "hybrid"; "a"] = Ok color_map
    /\ color_map !! "a" = Some "cyan!20"
    /\ color_map !! "hybrid" = Some "gray!30"
    /\ color_map !! "zz" = Some "yellow!40"
    /\ color_map !! "b" = None.
Proof. eexists. repeat split; vm_compute; reflexivity. Qed.

Section Generate.
Variable float_str : Q -> string.
Variables (cfg : LaTeXGenerator.Config) (df : DataFrame).

(** The output of [generate] does not depend on the attributes the
    generator holds when it is called. *)
Lemma generate_run :
  exists out,
    forall self,
      Py.value (LaTeXGenerator.generate float_str cfg df self) = Ok out.
Proof.
  set (categories := Py.unique (col_category df)).
  destruct (calculate_layout_run df (LaTeXGenerator.layout cfg)) as [lp Hlp].
  set (engine := {| SmartLayoutEngine._year_order :=
                      Py.sorted_int (Py.unique (col_year df)) |}) in Hlp.
  assert (Hnd : NoDup categories) by apply unique_NoDup.
  destruct (generate_styles_run cfg categories Hnd) as (p2 & cm & Hcm & Hstyles).
  destruct (get_category_colors_spec (LaTeXGenerator.colors cfg) categories Hnd)
    as (cm' & Hcm' & Hdom & _).
  rewrite Hcm in Hcm'. inversion Hcm'; subst cm'. clear Hcm'.
  set (s0 := {| LaTeXGenerator.layout_engine := engine;
                LaTeXGenerator.category_colors := cm |}).
  destruct (generate_timeline_axis_ok float_str df (LaTeXGenerator.layout cfg)
              SmartLayoutEngine.init lp) as [p3 Hp3].
  { by rewrite Hlp. }
  destruct (generate_method_nodes_run float_str cfg df lp s0) as (p4 & w4 & Hp4).
  destruct (generate_background_layer_run float_str cfg df s0) as (p5 & w5 & Hp5).
  destruct (generate_caption_run cfg categories s0) as (p8 & w8 & Hp8).
  { intros c Hc. by apply elem_of_dom, Hdom. }
  eexists. intros self.
  destruct (Hstyles (LaTeXGenerator.set_layout_engine engine self)) as [w2 Hp2].
  unfold LaTeXGenerator.generate. fold categories.
  erewrite bind_ok; [reflexivity | |].
  { unfold Py.zoom. by rewrite Hlp. }
  eapply bind_ok; [reflexivity|].
  eapply bind_ok; [exact Hp2|].
  change (LaTeXGenerator.set_category_colors cm
            (LaTeXGenerator.set_layout_engine engine self)) with s0.
  eapply bind_ok; [unfold Py.lift; by rewrite Hp3|].
  eapply bind_ok; [exact Hp4|].
  eapply bind_ok; [exact Hp5|].
  eapply bind_ok; [reflexivity|].
  eapply bind_ok; [reflexivity|].
  eapply bind_ok; [exact Hp8|].
  reflexivity.
Qed.

End Generate.

(** C6.  Whatever the rule string, [determine_side] returns "above" or
    "below" without raising and leaves the engine unchanged.  When the
    rule is not a keyword and is not a list of integers, exactly one
    warning is logged and the side is the one of the order rule;
    otherwise nothing is logged.  Generation with such a rule runs to
    its end and returns the document. *)
Theorem determine_side_never_raises
    (time_config : TimeLogicConfig) (year : Z) (self : SmartLayoutEngine.t) :
  let rule := Py.lower (default "" (upper_years time_config)) in
  let run := SmartLayoutEngine.determine_side time_config year self in
  (exists side,
     Py.value run = Ok side
     /\ Py.state run = self
     /\ (side = "above" \/ side = "below")
     /\ match Spec.is_keyword rule, Spec.year_list rule with
        | false, None =>
            side = Spec.order_rule (SmartLayoutEngine._year_order self) year
            /\ Py.log run = [SmartLayoutEngine.warn_msg rule]
        | _, _ => Py.log run = []
        end)
  /\ (forall float_str layout visual colors arrows output df generator,
        exists out,
          Py.value (LaTeXGenerator.generate float_str
                      (LaTeXGenerator.Build_Config
                         layout time_config visual colors arrows output)
                      df generator) = Ok out).
Proof.
  intros rule run. split.
  - unfold run. rewrite determine_side_run.
    eexists. split; [reflexivity|]. split; [reflexivity|].
    split; [apply spec_side_values|].
    fold rule. unfold Py.log. simpl.
    destruct (Spec.is_keyword rule) eqn:Hk; [done|].
    destruct (Spec.year_list rule) eqn:Hl; [done|].
    split; [|done].
    unfold Spec.determine_side. fold rule.
    unfold Spec.is_keyword in Hk.
    apply bool_decide_eq_false in Hk. rewrite !elem_of_cons in Hk.
    destruct (bool_decide (rule ∈ ["order"; "sequence"; "index"])) eqn:Hk'; [done|].
    rewrite (bool_decide_eq_false_2 (_ = "odd")) by tauto.
    rewrite (bool_decide_eq_false_2 (_ = "even")) by tauto.
    by rewrite Hl.
  - intros float_str layout visual colors arrows output df generator.
    destruct (generate_run float_str
                (LaTeXGenerator.Build_Config
                   layout time_config visual colors arrows output) df)
      as [out Hout].
    by exists out.
Qed.

(** C1.  For a fixed dataset and configuration [generate] returns the
    same string from any two generator states, in particular when it is
    called a second time on the generator left by a first call. *)
Theorem generate_deterministic
    (float_str : Q -> string) (cfg : LaTeXGenerator.Config) (df : DataFrame)
    (self1 self2 : LaTeXGenerator.t) :
  exists out,
    Py.value (LaTeXGenerator.generate float_str cfg df self1) = Ok out
    /\ Py.value (LaTeXGenerator.generate float_str cfg df self2) = Ok out
    /\ Py.value (LaTeXGenerator.generate float_str cfg df
                   (Py.state (LaTeXGenerator.generate float_str cfg df self1))) = Ok out.
Proof.
  destruct (generate_run float_str cfg df) as [out Hout].
  exists out. by rewrite !Hout.
Qed.

(* ================================================================== *)
(** * Further properties of the layout engine *)
(* ================================================================== *)

Lemma positions_dom (sp : Q) (years : list Z) :
  dom (foldl (fun (pos : gmap Z Q) '(i, year) =>
                <[year := (inject_Z 0 + Py.int_mul_float (Z.of_nat i) sp)%Q]> pos)
             ∅ (Py.enumerate years))
  = list_to_set years.
Proof.
  induction years as [|z years IH] using rev_ind; [apply dom_empty_L|].
  rewrite enumerate_snoc, foldl_app. simpl.
  rewrite dom_insert_L, IH, list_to_set_app_L. simpl.
  rewrite (union_empty_r_L {[z]}). apply (comm_L (∪)).
Qed.

Lemma groupby_size_dom (df : DataFrame) :
  dom (groupby_size df) = list_to_set (col_year df).
Proof.
  apply set_eq. intros y. rewrite elem_of_dom, groupby_size_lookup, elem_of_list_to_set.
  destruct (decide (y ∈ col_year df)) as [Hy|Hy].
  - split; [done | by eexists].
  - split; [by intros [? ?] | done].
Qed.

Lemma calculate_layout_year_counts
    (config : LayoutConfig) (df : DataFrame) (self : SmartLayoutEngine.t)
    (lp : LayoutParams) :
  Py.value (SmartLayoutEngine.calculate_layout config df self) = Ok lp ->
  year_counts lp = groupby_size df.
Proof.
  run_calculate_layout.
  destruct (smart_spacing config); simpl; intros H; inversion H; reflexivity.
Qed.

(** X2.  Invariants of a computed layout: [max_nodes] is at least 1 and
    bounds every count; each year of the dataset is counted with its
    number of records (at least 1) and no other year is; some year
    reaches [max_nodes] unless the dataset is empty, where [max_nodes]
    is 1; the position map and the count map have the years of the
    layout as keys; and the engine remembers those years. *)
Theorem calculate_layout_invariants
    (config : LayoutConfig) (df : DataFrame) (self : SmartLayoutEngine.t) :
  exists lp,
    Py.value (SmartLayoutEngine.calculate_layout config df self) = Ok lp
    /\ (1 <= max_nodes lp)%nat
    /\ (forall y,
          year_counts lp !! y
          = if decide (y ∈ col_year df) then Some (Spec.records_of df y) else None)
    /\ (forall y n, year_counts lp !! y = Some n -> (1 <= n <= max_nodes lp)%nat)
    /\ match df with
       | [] => max_nodes lp = 1%nat /\ years lp = [] /\ total_width lp = Py.Int 0
       | _ => exists y, year_counts lp !! y = Some (max_nodes lp)
       end
    /\ dom (positions lp) = list_to_set (years lp)
    /\ dom (year_counts lp) = list_to_set (years lp)
    /\ SmartLayoutEngine._year_order
         (Py.state (SmartLayoutEngine.calculate_layout config df self)) = years lp.
Proof.
  destruct (calculate_layout_returns config df self) as [lp Hlp].
  pose proof (calculate_layout_years config df self lp Hlp) as Hy.
  pose proof (calculate_layout_year_counts config df self lp Hlp) as Hc.
  pose proof (calculate_layout_max_nodes config df self lp Hlp) as Hm.
  destruct (calculate_layout_positions config df self lp Hlp) as [Hpos Htw].
  assert (Hle : forall y, y ∈ col_year df ->
            (1 <= Spec.records_of df y <= Spec.max_nodes df)%nat).
  { intros y Hin. split; [by apply records_of_pos|].
    unfold Spec.max_nodes. destruct df as [|r df']; [inversion Hin|].
    apply max_list_elem_of_le. by apply list_elem_of_fmap_2. }
  exists lp. split; [exact Hlp|].
  split.
  { rewrite Hm. unfold Spec.max_nodes. destruct df as [|r df']; [done|].
    destruct (Hle (year r)) as [H1 H2]; [apply list_elem_of_here|].
    unfold Spec.max_nodes in H2. lia. }
  split.
  { intros y. rewrite Hc. apply groupby_size_lookup. }
  split.
  { intros y n. rewrite Hc, groupby_size_lookup, Hm.
    destruct (decide (y ∈ col_year df)) as [Hin|]; [|done].
    intros H; inversion H; subst n. by apply Hle. }
  split.
  { destruct df as [|r df'].
    - split; [by rewrite Hm|]. split; [by rewrite Hy|]. by rewrite Htw, Hy.
    - rewrite Hm, Hc. unfold Spec.max_nodes.
      assert (Hin : max_list (Spec.records_of (r :: df') <$> col_year (r :: df'))
                    ∈ (Spec.records_of (r :: df') <$> col_year (r :: df')))
        by by apply max_list_elem_of.
      apply list_elem_of_fmap in Hin as (y & Heq & Hyin).
      exists y. rewrite groupby_size_lookup.
      destruct (decide (y ∈ col_year (r :: df'))); [by rewrite Heq | done]. }
  assert (Hset : list_to_set (years lp) =@{gset Z} list_to_set (col_year df)).
  { apply set_eq. intros y. rewrite !elem_of_list_to_set, Hy.
    unfold Py.sorted_int. by rewrite sorted_elem, unique_elem. }
  split.
  { rewrite Hpos. apply positions_dom. }
  split.
  { by rewrite Hc, groupby_size_dom, Hset. }
  rewrite Hy.
  unfold SmartLayoutEngine.calculate_layout, Py.state, Py.bind, Py.put.
  by destruct (smart_spacing config).
Qed.

Section NodeDistribution.
Variables (time_config : TimeLogicConfig) (df : DataFrame).

(** The entry stored for a year placed on [side] with [count] records. *)
Local Abbreviation entry_of side count :=
  (<["above" := if String.eqb side "above" then count else 0%nat]>
     (<["below" := if String.eqb side "below" then count else 0%nat]>
        (<["total" := count]> (∅ : gmap string nat)))).

Local Abbreviation side_in order y :=
  (Spec.determine_side (default "" (upper_years time_config)) order y).

Lemma distribute_run (years : list Z) (distribution : gmap Z (gmap string nat))
    (self : SmartLayoutEngine.t) :
  exists w,
    SmartLayoutEngine.distribute time_config df distribution years self
    = (Ok (foldl (fun d y =>
                    <[y := entry_of (side_in (SmartLayoutEngine._year_order self) y)
                                    (length (get_group df y))]> d)
                 distribution years),
       self, w).
Proof.
  revert distribution. induction years as [|y years IH]; intros distribution.
  - by exists [].
  - destruct (IH (<[y := entry_of (side_in (SmartLayoutEngine._year_order self) y)
                                 (length (get_group df y))]> distribution))
      as [w Hw].
    eexists. simpl.
    eapply bind_ok; [apply determine_side_run|]. exact Hw.
Qed.

Lemma distribution_lookup (f : Z -> gmap string nat) (years : list Z)
    (d : gmap Z (gmap string nat)) (y : Z) :
  foldl (fun d y => <[y := f y]> d) d years !! y
  = if decide (y ∈ years) then Some (f y) else d !! y.
Proof.
  revert d. induction years as [|z years IH]; intros d; simpl.
  - destruct (decide (y ∈ [])) as [H|_]; [inversion H | done].
  - rewrite IH.
    destruct (decide (y ∈ years)) as [Hin|Hnin].
    + destruct (decide (y ∈ z :: years)) as [_|Hn]; [done|].
      exfalso. apply Hn. by apply list_elem_of_further.
    + destruct (decide (z = y)) as [->|Hne].
      * rewrite lookup_insert_eq.
        destruct (decide (y ∈ y :: years)) as [_|Hn]; [done|].
        exfalso. apply Hn, list_elem_of_here.
      * rewrite lookup_insert_ne by done.
        destruct (decide (y ∈ z :: years)) as [Hin'|_]; [|done].
        apply elem_of_cons in Hin' as [->|?]; done.
Qed.

Lemma get_node_distribution_run (self : SmartLayoutEngine.t) :
  let years := Py.sorted_int (Py.unique (col_year df)) in
  let order := match SmartLayoutEngine._year_order self with
               | [] => years
               | _ => SmartLayoutEngine._year_order self
               end in
  exists w,
    SmartLayoutEngine.get_node_distribution time_config df self
    = (Ok (foldl (fun d y =>
                    <[y := entry_of (side_in order y) (length (get_group df y))]> d)
                 ∅ years),
       {| SmartLayoutEngine._year_order := order |}, w).
Proof.
  intros years order. unfold SmartLayoutEngine.get_node_distribution.
  rewrite bind_get. fold years.
  destruct self as [old]. simpl in *.
  destruct old as [|y0 old'].
  - destruct (distribute_run years ∅ {| SmartLayoutEngine._year_order := years |})
      as [w Hw].
    eexists. eapply bind_ok; [reflexivity|]. exact Hw.
  - destruct (distribute_run years ∅
                {| SmartLayoutEngine._year_order := y0 :: old' |}) as [w Hw].
    eexists. eapply bind_ok; [reflexivity|]. exact Hw.
Qed.

End NodeDistribution.

(** X3.  [get_node_distribution] never raises and has exactly the years
    of the dataset as keys.  The entry of a year has the keys "above",
    "below" and "total"; "total" is the number of records of the year
    and the whole of it is counted on the side [determine_side] gives
    the year, the other side getting 0.  The side is taken with respect
    to the year order the engine already holds, or to the years of this
    dataset when it holds none. *)
Theorem get_node_distribution_spec
    (time_config : TimeLogicConfig) (df : DataFrame) (self : SmartLayoutEngine.t) :
  let order := match SmartLayoutEngine._year_order self with
               | [] => Py.sorted_int (Py.unique (col_year df))
               | _ => SmartLayoutEngine._year_order self
               end in
  exists distribution,
    Py.value (SmartLayoutEngine.get_node_distribution time_config df self)
      = Ok distribution
    /\ dom distribution = list_to_set (col_year df)
    /\ forall y entry,
         distribution !! y = Some entry ->
         let n := Spec.records_of df y in
         let above :=
           String.eqb (Spec.determine_side (default "" (upper_years time_config))
                         order y) "above" in
         dom entry = {["above"; "below"; "total"]}
         /\ entry !! "total" = Some n
         /\ (1 <= n)%nat
         /\ entry !! "above" = Some (if above then n else 0%nat)
         /\ entry !! "below" = Some (if above then 0%nat else n).
Proof.
  intros order.
  destruct (get_node_distribution_run time_config df self) as [w Hrun].
  fold order in Hrun.
  eexists. split; [by rewrite Hrun|].
  assert (Hyears : forall y, y ∈ Py.sorted_int (Py.unique (col_year df)) ↔ y ∈ col_year df).
  { intros y. unfold Py.sorted_int. by rewrite sorted_elem, unique_elem. }
  split.
  - apply set_eq. intros y.
    rewrite elem_of_dom, distribution_lookup, elem_of_list_to_set, <- Hyears.
    destruct (decide (y ∈ Py.sorted_int (Py.unique (col_year df)))) as [Hin|Hnin].
    + split; [done | by eexists].
    + rewrite lookup_empty. split; [by intros [? ?] | done].
  - intros y entry. rewrite distribution_lookup.
    destruct (decide (y ∈ Py.sorted_int (Py.unique (col_year df)))) as [Hin|Hnin];
      [|by rewrite lookup_empty].
    intros Hentry. inversion Hentry as [He]. clear Hentry He.
    rewrite records_of_get_group.
    set (side := Spec.determine_side _ order y).
    split.
    { rewrite !dom_insert_L, dom_empty_L. set_solver. }
    split; [done|].
    split; [by apply records_of_pos, Hyears|].
    split; [done|].
    rewrite lookup_insert_ne by done. rewrite lookup_insert_eq.
    destruct (spec_side_values (default "" (upper_years time_config)) order y)
      as [Hs|Hs]; fold side in Hs; by rewrite Hs.
Qed.

(** X4.  [get_node_distribution] sets the year order of the engine only
    when the engine holds none.  After [calculate_layout] on a first
    dataset with at least one record, the distribution of a second
    dataset is computed against, and leaves in place, the year order of
    the first. *)
Theorem get_node_distribution_keeps_order
    (time_config : TimeLogicConfig) (config : LayoutConfig)
    (df1 df2 : DataFrame) (self : SmartLayoutEngine.t) :
  let laid_out := Py.state (SmartLayoutEngine.calculate_layout config df1 self) in
  let years1 := Py.sorted_int (Py.unique (col_year df1)) in
  let years2 := Py.sorted_int (Py.unique (col_year df2)) in
  SmartLayoutEngine._year_order
    (Py.state (SmartLayoutEngine.get_node_distribution time_config df2 self))
  = match SmartLayoutEngine._year_order self with
    | [] => years2
    | _ => SmartLayoutEngine._year_order self
    end
  /\ SmartLayoutEngine._year_order
       (Py.state (SmartLayoutEngine.get_node_distribution time_config df2 laid_out))
     = match df1 with
       | [] => years2
       | _ => years1
       end.
Proof.
  intros laid_out years1 years2.
  assert (Hkeep : forall e,
    SmartLayoutEngine._year_order
      (Py.state (SmartLayoutEngine.get_node_distribution time_config df2 e))
    = match SmartLayoutEngine._year_order e with
      | [] => years2
      | _ => SmartLayoutEngine._year_order e
      end).
  { intros e. destruct (get_node_distribution_run time_config df2 e) as [w Hrun].
    by rewrite Hrun. }
  split; [apply Hkeep|].
  rewrite Hkeep.
  assert (Hlaid : SmartLayoutEngine._year_order laid_out = years1).
  { unfold laid_out, SmartLayoutEngine.calculate_layout, Py.state, Py.bind, Py.put.
    by destruct (smart_spacing config). }
  rewrite Hlaid.
  destruct df1 as [|r df1']; [done|].
  assert (Hin : year r ∈ years1).
  { unfold years1, Py.sorted_int. rewrite sorted_elem, unique_elem.
    apply list_elem_of_here. }
  clearbody years1 laid_out. destruct years1; [inversion Hin | done].
Qed.

Lemma position_lookup (l : list Z) (i : nat) (y : Z) :
  NoDup l -> l !! i = Some y -> Spec.position y l = i.
Proof.
  intros Hnd. revert i. induction Hnd as [|x l Hx Hnd IH]; intros i Hi; [done|].
  simpl. destruct i as [|i]; simpl in Hi.
  - inversion Hi; subst. by destruct (decide (y = y)).
  - destruct (decide (x = y)) as [->|Hne].
    + exfalso. apply Hx. by eapply list_elem_of_lookup_2.
    + f_equal. by apply IH.
Qed.

Lemma index_or_zero_lookup (l : list Z) (i : nat) (y : Z) :
  NoDup l -> l !! i = Some y -> Spec.index_or_zero y l = i.
Proof.
  intros Hnd Hi. unfold Spec.index_or_zero.
  destruct (decide (y ∈ l)) as [_|Hn]; [by apply position_lookup|].
  exfalso. apply Hn. by eapply list_elem_of_lookup_2.
Qed.

(** X5.  Under the order rule ("order", "sequence" or "index" in any
    letter case) a freshly built engine, which has no year order yet,
    places every year above; once [calculate_layout] has run, the
    [i]-th smallest year of the dataset is above for even [i] and below
    for odd [i], so neighbouring years alternate. *)
Theorem order_rule_alternates
    (time_config : TimeLogicConfig) (config : LayoutConfig) (df : DataFrame)
    (self : SmartLayoutEngine.t) :
  Py.lower (default "" (upper_years time_config)) ∈ ["order"; "sequence"; "index"] ->
  (forall y,
     SmartLayoutEngine.determine_side time_config y SmartLayoutEngine.init
     = (Ok "above", SmartLayoutEngine.init, []))
  /\ (forall i y,
        Py.sorted_int (Py.unique (col_year df)) !! i = Some y ->
        Py.value (SmartLayoutEngine.determine_side time_config y
                    (Py.state (SmartLayoutEngine.calculate_layout config df self)))
        = Ok (if Nat.even i then "above" else "below")).
Proof.
  intros Hrule. split.
  - intros y. rewrite determine_side_run.
    rewrite spec_side_order by done.
    unfold Spec.is_keyword.
    rewrite bool_decide_eq_true_2; [done|].
    rewrite !elem_of_cons in Hrule. rewrite !elem_of_cons. tauto.
  - intros i y Hi.
    set (e := Py.state (SmartLayoutEngine.calculate_layout config df self)).
    assert (Horder : SmartLayoutEngine._year_order e
                     = Py.sorted_int (Py.unique (col_year df))).
    { unfold e, SmartLayoutEngine.calculate_layout, Py.state, Py.bind, Py.put.
      by destruct (smart_spacing config). }
    clearbody e. rewrite determine_side_run. unfold Py.value. cbn [fst].
    rewrite spec_side_order by done. rewrite Horder.
    rewrite (index_or_zero_lookup _ i y); [done| |done].
    apply sorted_NoDup, unique_NoDup.
Qed.

Lemma order_rule_alternates_witness :
  Py.lower (default "" (upper_years Defaults.time_logic))
    ∈ ["order"; "sequence"; "index"]
  /\ Py.value (SmartLayoutEngine.determine_side Defaults.time_logic 2021
                 (Py.state (SmartLayoutEngine.calculate_layout
                              Defaults.layout Examples.df3 SmartLayoutEngine.init)))
     = Ok "below".
Proof.
  assert (H : Py.lower (default "" (upper_years Defaults.time_logic))
              ∈ ["order"; "sequence"; "index"]) by apply list_elem_of_here.
  split; [exact H|].
  exact (proj2 (order_rule_alternates Defaults.time_logic Defaults.layout
                  Examples.df3 SmartLayoutEngine.init H) 1%nat 2021%Z eq_refl).
Defined.

(* ================================================================== *)
(** * Further properties of the colour assignment *)
(* ================================================================== *)

Section AnyCategoryList.
Variable self : ColorConfig.t.

Local Abbreviation color_at i c :=
  (match ColorConfig.legacy_mapping self !! c with
   | Some color => Some color
   | None => ColorConfig.DEFAULT_COLORS !! (i mod length ColorConfig.DEFAULT_COLORS)%nat
   end).

Lemma assign_colors_last (l : list string) :
  exists m,
    ColorConfig.assign_colors self ∅ (Py.enumerate l) = Ok m
    /\ (forall c, c ∉ l -> m !! c = None)
    /\ (forall i c, l !! i = Some c ->
          (forall j, (i < j)%nat -> l !! j ≠ Some c) ->
          is_Some (m !! c) /\ m !! c = color_at i c).
Proof.
  induction l as [|c0 l IH] using rev_ind.
  - exists ∅. split; [done|]. split; [intros; apply lookup_empty | done].
  - destruct IH as (m & Hm & Hout & Hin).
    destruct (assign_color_ok self m (length l) c0) as (color & Hc & Hcolor).
    exists (<[c0 := color]> m). split; [|split].
    + by rewrite enumerate_snoc, assign_colors_snoc, Hm.
    + intros c Hc'. rewrite elem_of_app, list_elem_of_singleton in Hc'.
      rewrite lookup_insert_ne by (intros ->; tauto). apply Hout. tauto.
    + intros i c Hi Hlast.
      destruct (decide (i = length l)) as [->|Hne].
      * rewrite list_lookup_middle in Hi by done. inversion Hi; subst c.
        rewrite lookup_insert_eq. by rewrite Hcolor.
      * assert (Hlt : (i < length l)%nat).
        { apply lookup_lt_Some in Hi. rewrite length_app in Hi. simpl in Hi. lia. }
        rewrite lookup_app_l in Hi by done.
        assert (c0 ≠ c).
        { intros ->. apply (Hlast (length l) Hlt). by apply list_lookup_middle. }
        rewrite lookup_insert_ne by done. apply (Hin i c Hi).
        intros j Hj Hjc. apply (Hlast j Hj).
        rewrite lookup_app_l; [done|]. by apply lookup_lt_Some in Hjc.
Qed.

End AnyCategoryList.

Lemma last_occurrence {A} `{EqDecision A} (l : list A) (x : A) :
  x ∈ l -> exists i, l !! i = Some x /\ forall j, (i < j)%nat -> l !! j ≠ Some x.
Proof.
  induction l as [|y l IH] using rev_ind; [by intros H; inversion H|].
  intros Hin. destruct (decide (y = x)) as [->|Hne].
  - exists (length l). split; [by apply list_lookup_middle|].
    intros j Hj Hjx. apply lookup_lt_Some in Hjx.
    rewrite length_app in Hjx. simpl in Hjx. lia.
  - apply elem_of_app in Hin as [Hin|Hin];
      [|apply list_elem_of_singleton in Hin; congruence].
    destruct (IH Hin) as (i & Hi & Hlast).
    exists i. split.
    + rewrite lookup_app_l; [done|]. by apply lookup_lt_Some in Hi.
    + intros j Hj Hjx.
      destruct (decide (j < length l)%nat) as [Hlt|Hge].
      * rewrite lookup_app_l in Hjx by done. by apply (Hlast j Hj).
      * assert (j = length l) as ->.
        { apply lookup_lt_Some in Hjx. rewrite length_app in Hjx. simpl in Hjx. lia. }
        rewrite list_lookup_middle in Hjx by done. congruence.
Qed.

Lemma last_rank_in_sorted (l : list string) (i : nat) (c : string) :
  StronglySorted (fun a b => String.leb a b = true) l ->
  l !! i = Some c ->
  (forall j, (i < j)%nat -> l !! j ≠ Some c) ->
  length (filter (fun c' => String.leb c' c = true) l) = S i.
Proof.
  intros Hs. revert i.
  induction Hs as [|x l Hl IH Hall]; intros i Hi Hlast; [done|].
  rewrite Forall_forall in Hall. rewrite filter_cons.
  destruct i as [|i]; simpl in Hi.
  - inversion Hi; subst x.
    destruct (decide (String.leb c c = true)) as [_|Hn].
    + simpl. f_equal. rewrite filter_none; [done|].
      apply Forall_forall. intros y Hy Hyc.
      apply list_elem_of_lookup in Hy as [j Hj].
      apply (Hlast (S j)); [lia|]. simpl.
      rewrite Hj. f_equal. apply String.leb_antisym; [done | by apply Hall, list_elem_of_lookup_2 with j].
    + exfalso. apply Hn. destruct (String.leb_total c c); done.
  - destruct (decide (String.leb x c = true)) as [_|Hn].
    + simpl. f_equal. apply IH; [done|].
      intros j Hj. apply (Hlast (S j)). lia.
    + exfalso. apply Hn, Hall. by eapply list_elem_of_lookup_2.
Qed.

(** X6.  [get_category_colors] accepts any list of names, repeated ones
    included, and never raises.  Its keys are the names of the list; a
    name of the fixed table keeps the configured colour, any other name
    gets a colour of the palette, the one at the index of its last
    occurrence in the sorted list, modulo the palette size. *)
Theorem get_category_colors_any_list
    (self : ColorConfig.t) (categories : list string) :
  exists color_map,
    ColorConfig.get_category_colors self categories = Ok color_map
    /\ dom color_map = list_to_set categories
    /\ forall c, c ∈ categories ->
         match ColorConfig.legacy_mapping self !! c with
         | Some color => color_map !! c = Some color
         | None =>
             exists color,
               color_map !! c = Some color
               /\ color ∈ ColorConfig.DEFAULT_COLORS
               /\ ColorConfig.DEFAULT_COLORS
                    !! (Spec.last_rank c categories mod length ColorConfig.DEFAULT_COLORS)%nat
                  = Some color
         end.
Proof.
  unfold ColorConfig.get_category_colors.
  destruct (assign_colors_last self (Py.sorted_str categories)) as (m & Hm & Hout & Hin).
  assert (Helem : forall c, c ∈ Py.sorted_str categories ↔ c ∈ categories).
  { intros c. unfold Py.sorted_str. by rewrite sorted_elem. }
  exists m. split; [exact Hm|]. split.
  - apply set_eq. intros c. rewrite elem_of_dom, elem_of_list_to_set, <- Helem. split.
    + intros Hsome. destruct (decide (c ∈ Py.sorted_str categories)) as [|Hn]; [done|].
      rewrite Hout in Hsome by done. by destruct Hsome.
    + intros Hc. destruct (last_occurrence _ _ Hc) as (i & Hi & Hlast).
      by apply (Hin i c).
  - intros c Hc. apply Helem in Hc.
    destruct (last_occurrence _ _ Hc) as (i & Hi & Hlast).
    destruct (Hin i c Hi Hlast) as [[color Hsome] Hcolor].
    assert (Hrank : Spec.last_rank c categories = i).
    { unfold Spec.last_rank.
      assert (Hperm : Py.sorted_str categories ≡ₚ categories) by apply sorted_perm.
      rewrite <- Hperm.
      rewrite (last_rank_in_sorted _ i c); [lia| |done|done].
      apply sorted_StronglySorted; [apply String.leb_total | apply string_leb_trans]. }
    rewrite Hrank.
    destruct (ColorConfig.legacy_mapping self !! c) as [legacy|]; [done|].
    exists color. rewrite Hsome in Hcolor. split; [done|]. split; [|done].
    by eapply list_elem_of_lookup_2.
Qed.

(** X7.  The palette has twenty colours and is reused cyclically: two
    categories of a dataset that are not in the fixed table and whose
    ranks differ by a multiple of twenty get the same colour. *)
Theorem palette_wraps_around
    (self : ColorConfig.t) (categories : list string) (c1 c2 : string) :
  NoDup categories ->
  c1 ∈ categories -> c2 ∈ categories ->
  ColorConfig.legacy_mapping self !! c1 = None ->
  ColorConfig.legacy_mapping self !! c2 = None ->
  (Spec.rank c1 categories mod 20 = Spec.rank c2 categories mod 20)%nat ->
  exists color_map color,
    ColorConfig.get_category_colors self categories = Ok color_map
    /\ color_map !! c1 = Some color
    /\ color_map !! c2 = Some color.
Proof.
  intros Hnd H1 H2 Hl1 Hl2 Hmod.
  destruct (get_category_colors_spec self categories Hnd) as (m & Hm & Hdom & Hcolor).
  assert (Hsome : is_Some (m !! c1)) by by apply elem_of_dom, Hdom.
  destruct Hsome as [color Hc1].
  exists m, color. split; [exact Hm|]. split; [exact Hc1|].
  rewrite (Hcolor c2 H2). rewrite (Hcolor c1 H1) in Hc1.
  unfold Spec.color_of in *. rewrite Hl1 in Hc1. rewrite Hl2.
  change (length ColorConfig.DEFAULT_COLORS) with 20%nat in *.
  by rewrite <- Hmod.
Qed.

Lemma palette_wraps_around_witness :
  exists color_map color,
    ColorConfig.get_category_colors Defaults.colors
      [ "a"; "b"; "c"; "d"; "e"; "f"; "g"; "h"; "i"; "j"; "k";
        "l"; "m"; "n"; "o"; "p"; "q"; "r"; "s"; "t"; "u" ] = Ok color_map
    /\ color_map !! "a" = Some color
    /\ color_map !! "u" = Some color.
Proof.
  apply (palette_wraps_around Defaults.colors
           [ "a"; "b"; "c"; "d"; "e"; "f"; "g"; "h"; "i"; "j"; "k";
             "l"; "m"; "n"; "o"; "p"; "q"; "r"; "s"; "t"; "u" ] "a" "u").
  - repeat (apply NoDup_cons; split;
            [rewrite ?elem_of_cons, elem_of_nil; intros Hdup;
             repeat (destruct Hdup as [Hdup|Hdup]; [discriminate|]); done|]).
    apply NoDup_nil_2.
  - apply list_elem_of_here.
  - apply list_elem_of_lookup. exists 20%nat. reflexivity.
  - reflexivity.
  - reflexivity.
  - vm_compute. reflexivity.
Defined.

(* ================================================================== *)
(** * Configuration dictionaries *)
(* ================================================================== *)

Section DataclassDictionaries.
Variable cls : Dataclass.class.
Hypothesis Hdefaults :
  dom (Dataclass.defaults cls) = list_to_set (C := gset string) (Dataclass.annotations cls).

Lemma defaults_lookup_annotated (k : string) :
  k ∈ Dataclass.annotations cls ↔ is_Some (Dataclass.defaults cls !! k).
Proof. by rewrite <- elem_of_dom, Hdefaults, elem_of_list_to_set. Qed.

Lemma dataclass_from_dict_lookup (data : gmap string Dataclass.value) (k : string) :
  Dataclass.from_dict cls data !! k =
    if decide (k ∈ Dataclass.annotations cls)
    then match data !! k with
         | Some v => Some v
         | None => Dataclass.defaults cls !! k
         end
    else None.
Proof.
  unfold Dataclass.from_dict, Dataclass.construct.
  rewrite lookup_union, map_lookup_filter.
  destruct (decide (k ∈ Dataclass.annotations cls)) as [Hk|Hk].
  - destruct (data !! k) as [v|] eqn:Hv; simpl.
    + rewrite option_guard_True by done. simpl.
      by destruct (Dataclass.defaults cls !! k).
    + by destruct (Dataclass.defaults cls !! k).
  - assert (Hnone : Dataclass.defaults cls !! k = None).
    { apply eq_None_not_Some. by rewrite <- defaults_lookup_annotated. }
    rewrite Hnone. destruct (data !! k) as [v|]; simpl; [|done].
    by rewrite option_guard_False.
Qed.

Lemma dataclass_to_dict_lookup (self : gmap string Dataclass.value) (k : string) :
  Dataclass.to_dict cls self !! k =
    if decide (k ∈ Dataclass.annotations cls)
    then match self !! k with
         | Some v => Some v
         | None => Dataclass.defaults cls !! k
         end
    else None.
Proof.
  unfold Dataclass.to_dict.
  rewrite map_lookup_filter, lookup_union.
  destruct (decide (k ∈ Dataclass.annotations cls)) as [Hk|Hk].
  - destruct (self !! k) as [v|] eqn:Hv; simpl.
    + destruct (Dataclass.defaults cls !! k); simpl; by rewrite option_guard_True.
    + destruct (Dataclass.defaults cls !! k); simpl; [by rewrite option_guard_True|done].
  - destruct (self !! k) as [v|], (Dataclass.defaults cls !! k); simpl;
      try done; by rewrite option_guard_False.
Qed.

Lemma dataclass_from_dict_dom (data : gmap string Dataclass.value) :
  dom (Dataclass.from_dict cls data) = list_to_set (C := gset string) (Dataclass.annotations cls).
Proof.
  apply set_eq. intros k.
  rewrite elem_of_dom, elem_of_list_to_set, dataclass_from_dict_lookup.
  destruct (decide (k ∈ Dataclass.annotations cls)) as [Hk|Hk].
  - split; [done|]. intros _. destruct (data !! k); [done|].
    by apply defaults_lookup_annotated.
  - split; [by intros [? ?]|done].
Qed.

Lemma dataclass_to_dict_id (self : gmap string Dataclass.value) :
  dom self = list_to_set (C := gset string) (Dataclass.annotations cls) ->
  Dataclass.to_dict cls self = self.
Proof.
  intros Hdom. apply map_eq. intros k. rewrite dataclass_to_dict_lookup.
  destruct (decide (k ∈ Dataclass.annotations cls)) as [Hk|Hk].
  - assert (Hs : is_Some (self !! k)).
    { by rewrite <- elem_of_dom, Hdom, elem_of_list_to_set. }
    destruct Hs as [v Hv]. by rewrite Hv.
  - symmetry. apply not_elem_of_dom. by rewrite Hdom, elem_of_list_to_set.
Qed.

Lemma dataclass_from_dict_id (self : gmap string Dataclass.value) :
  dom self = list_to_set (C := gset string) (Dataclass.annotations cls) ->
  Dataclass.from_dict cls self = self.
Proof.
  intros Hdom. apply map_eq. intros k. rewrite dataclass_from_dict_lookup.
  destruct (decide (k ∈ Dataclass.annotations cls)) as [Hk|Hk].
  - assert (Hs : is_Some (self !! k)).
    { by rewrite <- elem_of_dom, Hdom, elem_of_list_to_set. }
    destruct Hs as [v Hv]. by rewrite Hv.
  - symmetry. apply not_elem_of_dom. by rewrite Hdom, elem_of_list_to_set.
Qed.

Lemma dataclass_update_from_dict (values old : gmap string Dataclass.value) :
  Dataclass.from_dict cls (Dataclass.to_dict cls values ∪ old)
  = Dataclass.from_dict cls (Dataclass.to_dict cls values).
Proof.
  apply map_eq. intros k. rewrite !dataclass_from_dict_lookup.
  destruct (decide (k ∈ Dataclass.annotations cls)) as [Hk|Hk]; [|done].
  rewrite lookup_union, dataclass_to_dict_lookup.
  rewrite decide_True by done.
  destruct (values !! k) as [v|]; [by destruct (old !! k)|].
  apply defaults_lookup_annotated in Hk as [d Hd]. rewrite Hd.
  by destruct (old !! k).
Qed.

End DataclassDictionaries.

Lemma LayoutConfig_defaults_dom :
  dom (Dataclass.defaults LayoutConfig_class)
  = list_to_set (C := gset string) (Dataclass.annotations LayoutConfig_class).
Proof.
  unfold LayoutConfig_class, LayoutConfig_fields. cbn [Dataclass.defaults Dataclass.annotations].
  by rewrite dom_list_to_map_L.
Qed.

Lemma TimeLogicConfig_defaults_dom :
  dom (Dataclass.defaults TimeLogicConfig_class)
  = list_to_set (C := gset string) (Dataclass.annotations TimeLogicConfig_class).
Proof.
  unfold TimeLogicConfig_class, TimeLogicConfig_fields. cbn [Dataclass.defaults Dataclass.annotations].
  by rewrite dom_list_to_map_L.
Qed.

Lemma VisualConfig_defaults_dom :
  dom (Dataclass.defaults VisualConfig_class)
  = list_to_set (C := gset string) (Dataclass.annotations VisualConfig_class).
Proof.
  unfold VisualConfig_class, VisualConfig_fields. cbn [Dataclass.defaults Dataclass.annotations].
  by rewrite dom_list_to_map_L.
Qed.

Lemma ColorConfig_defaults_dom :
  dom (Dataclass.defaults ColorConfig_class)
  = list_to_set (C := gset string) (Dataclass.annotations ColorConfig_class).
Proof.
  unfold ColorConfig_class, ColorConfig_fields. cbn [Dataclass.defaults Dataclass.annotations].
  by rewrite dom_list_to_map_L.
Qed.

Lemma ArrowConfig_defaults_dom :
  dom (Dataclass.defaults ArrowConfig_class)
  = list_to_set (C := gset string) (Dataclass.annotations ArrowConfig_class).
Proof.
  unfold ArrowConfig_class, ArrowConfig_fields. cbn [Dataclass.defaults Dataclass.annotations].
  by rewrite dom_list_to_map_L.
Qed.

Lemma OutputConfig_defaults_dom :
  dom (Dataclass.defaults OutputConfig_class)
  = list_to_set (C := gset string) (Dataclass.annotations OutputConfig_class).
Proof.
  unfold OutputConfig_class, OutputConfig_fields. cbn [Dataclass.defaults Dataclass.annotations].
  by rewrite dom_list_to_map_L.
Qed.

Lemma of_config_well_formed (cfg : LaTeXGenerator.Config) :
  TimelineFishboneConfig.well_formed (TimelineFishboneConfig.of_config cfg).
Proof.
  unfold TimelineFishboneConfig.well_formed, TimelineFishboneConfig.of_config.
  cbn [TimelineFishboneConfig.layout TimelineFishboneConfig.time_logic
       TimelineFishboneConfig.visual TimelineFishboneConfig.colors
       TimelineFishboneConfig.arrows TimelineFishboneConfig.output].
  unfold LayoutConfig_fields, TimeLogicConfig_fields, VisualConfig_fields,
    ColorConfig_fields, ArrowConfig_fields, OutputConfig_fields.
  rewrite !dom_list_to_map_L. repeat split; reflexivity.
Qed.

Lemma to_dict_section (self : TimelineFishboneConfig.t) :
  TimelineFishboneConfig.section_of (TimelineFishboneConfig.to_dict self) "layout"
    = Dataclass.to_dict LayoutConfig_class (TimelineFishboneConfig.layout self)
  /\ TimelineFishboneConfig.section_of (TimelineFishboneConfig.to_dict self) "time_logic"
    = Dataclass.to_dict TimeLogicConfig_class (TimelineFishboneConfig.time_logic self)
  /\ TimelineFishboneConfig.section_of (TimelineFishboneConfig.to_dict self) "visual"
    = Dataclass.to_dict VisualConfig_class (TimelineFishboneConfig.visual self)
  /\ TimelineFishboneConfig.section_of (TimelineFishboneConfig.to_dict self) "colors"
    = Dataclass.to_dict ColorConfig_class (TimelineFishboneConfig.colors self)
  /\ TimelineFishboneConfig.section_of (TimelineFishboneConfig.to_dict self) "arrows"
    = Dataclass.to_dict ArrowConfig_class (TimelineFishboneConfig.arrows self)
  /\ TimelineFishboneConfig.section_of (TimelineFishboneConfig.to_dict self) "output"
    = Dataclass.to_dict OutputConfig_class (TimelineFishboneConfig.output self).
Proof.
  unfold TimelineFishboneConfig.section_of, TimelineFishboneConfig.to_dict,
    TimelineFishboneConfig.to_dict_items.
  cbn [list_to_map foldr uncurry fst snd].
  repeat split;
    repeat (first [ rewrite lookup_insert_eq; reflexivity
                  | rewrite lookup_insert_ne by done ]).
Qed.

Lemma merge_section_lookup
    (items : list (string * gmap string Dataclass.value))
    (merged_dict : gmap string (gmap string Dataclass.value)) (section : string) :
  NoDup items.*1 ->
  foldl TimelineFishboneConfig.merge_section merged_dict items !! section =
    match merged_dict !! section with
    | Some old =>
        Some (match (list_to_map items : gmap string _) !! section with
              | Some values => values ∪ old
              | None => old
              end)
    | None => None
    end.
Proof.
  revert merged_dict.
  induction items as [|[s0 v0] items IH]; intros merged_dict Hnd.
  - simpl. rewrite lookup_empty. by destruct (merged_dict !! section).
  - rewrite fmap_cons in Hnd. apply NoDup_cons in Hnd as [Hfresh Hnd].
    cbn [foldl]. rewrite (IH _ Hnd). cbn [list_to_map foldr uncurry fst snd].
    assert (Hrest : (list_to_map items : gmap string _) !! s0 = None).
    { by apply not_elem_of_list_to_map_1. }
    unfold TimelineFishboneConfig.merge_section.
    destruct (decide (section = s0)) as [->|Hne].
    + rewrite lookup_insert_eq, Hrest.
      destruct (merged_dict !! s0) as [old|] eqn:Hold.
      * by rewrite lookup_insert_eq.
      * by rewrite Hold.
    + rewrite (lookup_insert_ne _ s0 section) by done.
      destruct (merged_dict !! s0) as [old|] eqn:Hold; [|done].
      by rewrite lookup_insert_ne by done.
Qed.

Lemma to_dict_items_keys (self : TimelineFishboneConfig.t) :
  (TimelineFishboneConfig.to_dict_items self).*1
  = ["layout"; "time_logic"; "visual"; "colors"; "arrows"; "output"].
Proof. reflexivity. Qed.

Lemma merged_section (self other : TimelineFishboneConfig.t) (section : string) :
  TimelineFishboneConfig.section_of
    (foldl TimelineFishboneConfig.merge_section (TimelineFishboneConfig.to_dict self)
       (TimelineFishboneConfig.to_dict_items other)) section
  = TimelineFishboneConfig.section_of (TimelineFishboneConfig.to_dict other) section
    ∪ TimelineFishboneConfig.section_of (TimelineFishboneConfig.to_dict self) section.
Proof.
  unfold TimelineFishboneConfig.section_of.
  rewrite merge_section_lookup.
  2:{ rewrite to_dict_items_keys.
      repeat (apply NoDup_cons; split;
              [rewrite ?elem_of_cons, elem_of_nil; intros Hdup;
               repeat (destruct Hdup as [Hdup|Hdup]; [discriminate|]); done|]).
      apply NoDup_nil_2. }
  fold (TimelineFishboneConfig.to_dict other).
  assert (Hdom : forall c : TimelineFishboneConfig.t,
            is_Some (TimelineFishboneConfig.to_dict c !! section)
            ↔ section ∈ ["layout"; "time_logic"; "visual"; "colors"; "arrows"; "output"]).
  { intros c. unfold TimelineFishboneConfig.to_dict.
    rewrite <- elem_of_dom, dom_list_to_map_L, to_dict_items_keys.
    by rewrite elem_of_list_to_set. }
  destruct (TimelineFishboneConfig.to_dict self !! section) as [old|] eqn:Hold.
  - destruct (TimelineFishboneConfig.to_dict other !! section) as [values|] eqn:Hvalues;
      [done|].
    assert (Hs : is_Some (TimelineFishboneConfig.to_dict other !! section)).
    { apply Hdom, (Hdom self). by rewrite Hold. }
    rewrite Hvalues in Hs. by destruct Hs.
  - destruct (TimelineFishboneConfig.to_dict other !! section) as [values|] eqn:Hvalues.
    + assert (Hs : is_Some (TimelineFishboneConfig.to_dict self !! section)).
      { apply Hdom, (Hdom other). by rewrite Hvalues. }
      rewrite Hold in Hs. by destruct Hs.
    + simpl. by rewrite (left_id_L ∅ (∪)).
Qed.

Lemma from_dict_to_dict_sections (self : TimelineFishboneConfig.t) :
  TimelineFishboneConfig.from_dict (TimelineFishboneConfig.to_dict self) =
    {| TimelineFishboneConfig.layout :=
         Dataclass.from_dict LayoutConfig_class
           (Dataclass.to_dict LayoutConfig_class (TimelineFishboneConfig.layout self));
       TimelineFishboneConfig.time_logic :=
         Dataclass.from_dict TimeLogicConfig_class
           (Dataclass.to_dict TimeLogicConfig_class (TimelineFishboneConfig.time_logic self));
       TimelineFishboneConfig.visual :=
         Dataclass.from_dict VisualConfig_class
           (Dataclass.to_dict VisualConfig_class (TimelineFishboneConfig.visual self));
       TimelineFishboneConfig.colors :=
         Dataclass.from_dict ColorConfig_class
           (Dataclass.to_dict ColorConfig_class (TimelineFishboneConfig.colors self));
       TimelineFishboneConfig.arrows :=
         Dataclass.from_dict ArrowConfig_class
           (Dataclass.to_dict ArrowConfig_class (TimelineFishboneConfig.arrows self));
       TimelineFishboneConfig.output :=
         Dataclass.from_dict OutputConfig_class
           (Dataclass.to_dict OutputConfig_class (TimelineFishboneConfig.output self)) |}.
Proof.
  unfold TimelineFishboneConfig.from_dict.
  destruct (to_dict_section self) as (-> & -> & -> & -> & -> & ->).
  reflexivity.
Qed.

Lemma merge_is_reload (self other : TimelineFishboneConfig.t) :
  TimelineFishboneConfig.merge self other
  = TimelineFishboneConfig.from_dict (TimelineFishboneConfig.to_dict other).
Proof.
  unfold TimelineFishboneConfig.merge.
  cbv zeta. unfold TimelineFishboneConfig.from_dict at 1.
  rewrite !merged_section.
  destruct (to_dict_section self) as (-> & -> & -> & -> & -> & ->).
  rewrite from_dict_to_dict_sections.
  destruct (to_dict_section other) as (-> & -> & -> & -> & -> & ->).
  rewrite (dataclass_update_from_dict _ LayoutConfig_defaults_dom).
  rewrite (dataclass_update_from_dict _ TimeLogicConfig_defaults_dom).
  rewrite (dataclass_update_from_dict _ VisualConfig_defaults_dom).
  rewrite (dataclass_update_from_dict _ ColorConfig_defaults_dom).
  rewrite (dataclass_update_from_dict _ ArrowConfig_defaults_dom).
  rewrite (dataclass_update_from_dict _ OutputConfig_defaults_dom).
  reflexivity.
Qed.

Lemma reload_well_formed (self : TimelineFishboneConfig.t) :
  TimelineFishboneConfig.well_formed self ->
  TimelineFishboneConfig.from_dict (TimelineFishboneConfig.to_dict self) = self.
Proof.
  intros (Hl & Ht & Hv & Hc & Ha & Ho).
  rewrite from_dict_to_dict_sections.
  rewrite (dataclass_to_dict_id _ _ Hl),
    (dataclass_to_dict_id _ _ Ht),
    (dataclass_to_dict_id _ _ Hv),
    (dataclass_to_dict_id _ _ Hc),
    (dataclass_to_dict_id _ _ Ha),
    (dataclass_to_dict_id _ _ Ho).
  rewrite (dataclass_from_dict_id _ LayoutConfig_defaults_dom _ Hl),
    (dataclass_from_dict_id _ TimeLogicConfig_defaults_dom _ Ht),
    (dataclass_from_dict_id _ VisualConfig_defaults_dom _ Hv),
    (dataclass_from_dict_id _ ColorConfig_defaults_dom _ Hc),
    (dataclass_from_dict_id _ ArrowConfig_defaults_dom _ Ha),
    (dataclass_from_dict_id _ OutputConfig_defaults_dom _ Ho).
  by destruct self.
Qed.

Lemma from_dict_empty :
  TimelineFishboneConfig.from_dict ∅ = TimelineFishboneConfig.init.
Proof.
  unfold TimelineFishboneConfig.from_dict, TimelineFishboneConfig.init,
    TimelineFishboneConfig.section_of, Dataclass.from_dict.
  rewrite !lookup_empty. cbn [default]. by rewrite !map_filter_empty.
Qed.

Lemma from_dict_well_formed (data : gmap string (gmap string Dataclass.value)) :
  TimelineFishboneConfig.well_formed (TimelineFishboneConfig.from_dict data).
Proof.
  unfold TimelineFishboneConfig.well_formed, TimelineFishboneConfig.from_dict.
  cbn [TimelineFishboneConfig.layout TimelineFishboneConfig.time_logic
       TimelineFishboneConfig.visual TimelineFishboneConfig.colors
       TimelineFishboneConfig.arrows TimelineFishboneConfig.output].
  repeat split.
  - apply (dataclass_from_dict_dom _ LayoutConfig_defaults_dom).
  - apply (dataclass_from_dict_dom _ TimeLogicConfig_defaults_dom).
  - apply (dataclass_from_dict_dom _ VisualConfig_defaults_dom).
  - apply (dataclass_from_dict_dom _ ColorConfig_defaults_dom).
  - apply (dataclass_from_dict_dom _ ArrowConfig_defaults_dom).
  - apply (dataclass_from_dict_dom _ OutputConfig_defaults_dom).
Qed.

(** X8.  [TimelineFishboneConfig.from_dict] accepts any dictionary of
    sections: the result always has the six sections with exactly the
    fields of their classes; the empty dictionary gives the default
    configuration; and a section under any other name is ignored. *)
Theorem from_dict_total (data : gmap string (gmap string Dataclass.value)) :
  TimelineFishboneConfig.well_formed (TimelineFishboneConfig.from_dict data)
  /\ TimelineFishboneConfig.from_dict ∅ = TimelineFishboneConfig.init
  /\ forall (section : string) (values : gmap string Dataclass.value),
       section ∉ ["layout"; "time_logic"; "visual"; "colors"; "arrows"; "output"] ->
       TimelineFishboneConfig.from_dict (<[section := values]> data)
       = TimelineFishboneConfig.from_dict data.
Proof.
  split; [apply from_dict_well_formed|]. split.
  - apply from_dict_empty.
  - intros section values Hs.
    rewrite !elem_of_cons, elem_of_nil in Hs.
    unfold TimelineFishboneConfig.from_dict, TimelineFishboneConfig.section_of.
    rewrite !lookup_insert_ne by (intros ->; tauto).
    reflexivity.
Qed.

(** X9.  The field rule of [from_dict] in each of the six configuration
    classes: a field takes the value the dictionary gives under its
    name, the class default when the dictionary has no such key; a key
    that is no field of the class is dropped. *)
Theorem dataclass_from_dict_fields
    (cls : Dataclass.class) (data : gmap string Dataclass.value) (k : string) :
  cls ∈ [ LayoutConfig_class; TimeLogicConfig_class; VisualConfig_class;
          ColorConfig_class; ArrowConfig_class; OutputConfig_class ] ->
  match Dataclass.from_dict cls data !! k with
  | Some v =>
      k ∈ Dataclass.annotations cls
      /\ (data !! k = Some v
          \/ data !! k = None /\ Dataclass.defaults cls !! k = Some v)
  | None => k ∉ Dataclass.annotations cls
  end.
Proof.
  intros Hcls.
  assert (Hdefaults : dom (Dataclass.defaults cls)
                      = list_to_set (C := gset string) (Dataclass.annotations cls)).
  { rewrite !elem_of_cons, elem_of_nil in Hcls.
    destruct Hcls as [->|[->|[->|[->|[->|[->|[]]]]]]].
    - apply LayoutConfig_defaults_dom.
    - apply TimeLogicConfig_defaults_dom.
    - apply VisualConfig_defaults_dom.
    - apply ColorConfig_defaults_dom.
    - apply ArrowConfig_defaults_dom.
    - apply OutputConfig_defaults_dom. }
  rewrite (dataclass_from_dict_lookup _ Hdefaults).
  destruct (decide (k ∈ Dataclass.annotations cls)) as [Hk|Hk]; [|done].
  destruct (data !! k) as [v|]; [by split; [|left]|].
  apply (defaults_lookup_annotated _ Hdefaults) in Hk as Hd.
  destruct Hd as [d Hd]. rewrite Hd. split; [done|]. by right.
Qed.

Lemma dataclass_from_dict_fields_witness :
  match Dataclass.from_dict LayoutConfig_class
          (<["year_spacing" := Dataclass.VFloat 3]>
             (<["colour" := Dataclass.VStr "red"]> ∅)) !! "smart_spacing" with
  | Some v =>
      "smart_spacing" ∈ Dataclass.annotations LayoutConfig_class
      /\ ((<["year_spacing" := Dataclass.VFloat 3]>
             (<["colour" := Dataclass.VStr "red"]> ∅) : gmap string Dataclass.value)
            !! "smart_spacing" = Some v
          \/ (<["year_spacing" := Dataclass.VFloat 3]>
                (<["colour" := Dataclass.VStr "red"]> ∅) : gmap string Dataclass.value)
               !! "smart_spacing" = None
             /\ Dataclass.defaults LayoutConfig_class !! "smart_spacing" = Some v)
  | None => "smart_spacing" ∉ Dataclass.annotations LayoutConfig_class
  end.
Proof.
  apply (dataclass_from_dict_fields LayoutConfig_class).
  apply list_elem_of_here.
Defined.

(** X10.  A configuration whose sections hold exactly the fields of
    their classes survives the round trip through its dictionary. *)
Theorem config_dict_round_trip (self : TimelineFishboneConfig.t) :
  TimelineFishboneConfig.well_formed self ->
  TimelineFishboneConfig.from_dict (TimelineFishboneConfig.to_dict self) = self
  /\ TimelineFishboneConfig.to_dict
       (TimelineFishboneConfig.from_dict (TimelineFishboneConfig.to_dict self))
     = TimelineFishboneConfig.to_dict self.
Proof.
  intros Hwf. rewrite (reload_well_formed self Hwf). by split.
Qed.

Lemma config_dict_round_trip_witness :
  TimelineFishboneConfig.from_dict
    (TimelineFishboneConfig.to_dict (TimelineFishboneConfig.of_config Examples.config))
  = TimelineFishboneConfig.of_config Examples.config
  /\ TimelineFishboneConfig.to_dict
       (TimelineFishboneConfig.from_dict
          (TimelineFishboneConfig.to_dict (TimelineFishboneConfig.of_config Examples.config)))
     = TimelineFishboneConfig.to_dict (TimelineFishboneConfig.of_config Examples.config).
Proof.
  apply (config_dict_round_trip (TimelineFishboneConfig.of_config Examples.config)).
  apply of_config_well_formed.
Defined.

(** X11.  [merge] keeps nothing of [self]: the dictionary of [other]
    has every field of every section, so each update overwrites the
    whole section, and the merged configuration is [other] read back
    from its dictionary; it is [other] itself when [other] holds exactly
    the fields of the classes. *)
Theorem merge_returns_other (self other : TimelineFishboneConfig.t) :
  TimelineFishboneConfig.well_formed other ->
  TimelineFishboneConfig.merge self other = other.
Proof.
  intros Hwf. rewrite merge_is_reload. by apply reload_well_formed.
Qed.

Lemma merge_returns_other_witness :
  TimelineFishboneConfig.merge
    (TimelineFishboneConfig.of_config Examples.config) TimelineFishboneConfig.init
  = TimelineFishboneConfig.init.
Proof.
  apply (merge_returns_other (TimelineFishboneConfig.of_config Examples.config)).
  rewrite <- from_dict_empty. apply from_dict_well_formed.
Defined.

(* ================================================================== *)
(** * Further properties of the generator *)
(* ================================================================== *)

Lemma rmapM_raise {A B : Type} (f : A -> Py.result B) (e : Py.exn) (l : list A) :
  (forall x, x ∈ l -> (exists y, f x = Ok y) \/ f x = Raise e) ->
  (exists x, x ∈ l /\ f x = Raise e) ->
  Py.rmapM f l = Raise e.
Proof.
  induction l as [|x l IH]; intros Hall (x0 & Hin & Hx0).
  - by apply elem_of_nil in Hin.
  - simpl. destruct (Hall x) as [[y Hy]|Hr]; [apply list_elem_of_here| |by rewrite Hr].
    rewrite Hy. simpl. rewrite IH; [done| |].
    + intros z Hz. apply Hall. by apply list_elem_of_further.
    + apply elem_of_cons in Hin as [->|Hin]; [congruence|]. by exists x0.
Qed.

Lemma arrow_pairs_run (years : list Z) :
  Py.rmapM
    (fun i =>
       Py.rbind (Py.list_get years i) (fun y =>
       Py.rbind (Py.list_get years (i + 1)) (fun y' =>
       Ok (Py.str_int y +:+ "/" +:+ Py.str_int y'))))
    (seq 0 (length years - 1))
  = Ok (Spec.arrow_pairs years).
Proof.
  erewrite (rmapM_ok _
    (fun i => Py.str_int (default 0%Z (years !! i)) +:+ "/" +:+
              Py.str_int (default 0%Z (years !! (i + 1)%nat)))).
  - f_equal. unfold Spec.arrow_pairs. apply list_eq. intros i.
    rewrite list_lookup_fmap, lookup_zip_with, lookup_tail.
    destruct (decide (i < length years - 1)%nat) as [Hi|Hi].
    + rewrite lookup_seq_lt by done. simpl.
      destruct (lookup_lt_is_Some_2 years i) as [y Hy]; [lia|].
      destruct (lookup_lt_is_Some_2 years (S i)) as [y' Hy']; [lia|].
      replace (i + 1)%nat with (S i) by lia.
      by rewrite Hy, Hy'.
    + rewrite lookup_seq_ge by lia. simpl.
      destruct (years !! i) as [y|] eqn:Hy; [|done]. simpl.
      rewrite (lookup_ge_None_2 years (S i)); [done|].
      apply lookup_lt_Some in Hy. lia.
  - intros i Hi. apply elem_of_seq in Hi.
    destruct (lookup_lt_is_Some_2 years i) as [y Hy]; [lia|].
    destruct (lookup_lt_is_Some_2 years (i + 1)) as [y' Hy']; [lia|].
    unfold Py.list_get. by rewrite Hy, Hy'.
Qed.

Lemma arrow_pairs_length (years : list Z) :
  length (Spec.arrow_pairs years) = (length years - 1)%nat.
Proof.
  unfold Spec.arrow_pairs. rewrite length_zip_with.
  destruct years as [|y years]; [done|]. cbn [tail length]. lia.
Qed.

(** X12.  [_generate_timeline_axis] on any layout parameters: it
    returns the section when every listed year has a position, and
    raises [KeyError] otherwise; the arrow loop never fails on an
    index. *)
Theorem timeline_axis_key_error (float_str : Q -> string) (lp : LayoutParams) :
  if bool_decide (Forall (fun y => is_Some (positions lp !! y)) (years lp))
  then exists text, LaTeXGenerator._generate_timeline_axis float_str lp = Ok text
  else LaTeXGenerator._generate_timeline_axis float_str lp = Raise Py.KeyError.
Proof.
  unfold LaTeXGenerator._generate_timeline_axis.
  destruct (bool_decide _) eqn:Hall.
  - apply bool_decide_eq_true in Hall. rewrite Forall_forall in Hall.
    erewrite (rmapM_ok _
      (fun year => "    \coordinate (Y" +:+ Py.str_int year +:+ ") at (" +:+
                   float_str (default 0%Q (positions lp !! year)) +:+ ",0);")).
    2:{ intros y Hy. destruct (Hall y Hy) as [pos Hpos].
        unfold Py.dict_get. by rewrite Hpos. }
    cbn [Py.rbind]. destruct (1 <? length (years lp))%nat; [|by eexists].
    rewrite arrow_pairs_run. by eexists.
  - apply bool_decide_eq_false in Hall.
    apply not_Forall_Exists in Hall; [|apply _].
    apply Exists_exists in Hall as (y & Hy & Hnone).
    rewrite (rmapM_raise _ Py.KeyError); [done| |].
    + intros x _. unfold Py.dict_get.
      destruct (positions lp !! x); [left; by eexists | by right].
    + exists y. split; [done|]. unfold Py.dict_get.
      simpl in Hnone. apply eq_None_not_Some in Hnone. by rewrite Hnone.
Qed.

(** X13.  The axis section of a computed layout: one coordinate line
    per distinct year of the dataset, and, when there are at least two
    years, one arrow loop over the pairs of consecutive years, one pair
    less than there are years; with fewer than two years no arrow is
    drawn. *)
Theorem timeline_axis_arrows
    (float_str : Q -> string) (config : LayoutConfig) (df : DataFrame)
    (self : SmartLayoutEngine.t) :
  let years := Py.sorted_int (Py.unique (col_year df)) in
  exists lp coords,
    Py.value (SmartLayoutEngine.calculate_layout config df self) = Ok lp
    /\ length coords = length years
    /\ length (Spec.arrow_pairs years) = (length years - 1)%nat
    /\ LaTeXGenerator._generate_timeline_axis float_str lp
       = Ok (Py.join LaTeXGenerator.nl
               ([ "    % ========================================";
                  "    % 1. Draw timeline axis and define year coordinates";
                  "    % ========================================";
                  "    \draw[axis] (0,0) -- (" +:+
                    LaTeXGenerator.num_str float_str (total_width lp) +:+ ",0);";
                  "";
                  "    % Define year positions" ]
                ++ coords
                ++ match years with
                   | [] | [_] => []
                   | _ =>
                       [ "";
                         "    % Draw arrows between year nodes";
                         "    \foreach \year/\nextyear in {" +:+
                           Py.join "," (Spec.arrow_pairs years) +:+ "} {";
                         "        \draw[arrow] (Y\year) -- (Y\nextyear);";
                         "    }" ]
                   end)).
Proof.
  intros years0.
  destruct (calculate_layout_returns config df self) as [lp Hlp].
  pose proof (calculate_layout_years config df self lp Hlp) as Hy.
  destruct (calculate_layout_positions config df self lp Hlp) as [Hpos _].
  destruct (years_sorted_distinct df) as [Hsorted _].
  rewrite <- Hy in Hsorted.
  assert (Hnd : NoDup (years lp)) by by apply StronglySorted_lt_NoDup.
  exists lp.
  exists ((fun year => "    \coordinate (Y" +:+ Py.str_int year +:+ ") at (" +:+
                       float_str (default 0%Q (positions lp !! year)) +:+ ",0);")
            <$> years lp).
  split; [exact Hlp|].
  unfold LaTeXGenerator._generate_timeline_axis.
  erewrite (rmapM_ok _
    (fun year => "    \coordinate (Y" +:+ Py.str_int year +:+ ") at (" +:+
                 float_str (default 0%Q (positions lp !! year)) +:+ ",0);")).
  2:{ intros y Hin. apply list_elem_of_lookup in Hin as [i Hi].
      unfold Py.dict_get. rewrite Hpos.
      by rewrite (positions_lookup _ _ i y Hnd Hi). }
  cbn [Py.rbind]. rewrite arrow_pairs_run.
  fold years0 in Hy. rewrite Hy.
  split; [by rewrite length_fmap|]. split; [apply arrow_pairs_length|].
  destruct years0 as [|y0 [|y1 rest]]; cbn [length Nat.ltb Nat.leb Py.rbind].
  - by rewrite app_nil_r.
  - by rewrite app_nil_r.
  - by rewrite <- !app_assoc.
Qed.

Lemma for_each_reader {S A B : Type} (body : A -> Py.M S B) (r : A -> Py.result B)
    (s : S) (l : list A) :
  (forall x, x ∈ l -> body x s = (r x, s, [])) ->
  Py.for_each body l s = (Py.rmapM r l, s, []).
Proof.
  induction l as [|x l IH]; intros Hbody; [done|].
  simpl. unfold Py.bind.
  rewrite (Hbody x) by apply list_elem_of_here.
  destruct (r x) as [y|e]; [|done]. simpl.
  rewrite IH by (intros z Hz; apply Hbody; by apply list_elem_of_further).
  by destruct (Py.rmapM r l).
Qed.

Section Caption.
Variables (cfg : LaTeXGenerator.Config) (categories : list string).
Variable self : LaTeXGenerator.t.

Lemma legend_loop_run :
  Py.for_each
    (fun category =>
       Py.bind Py.get (fun self0 =>
       Py.bind (Py.lift (Py.dict_get (LaTeXGenerator.category_colors self0) category))
         (fun fill_color =>
            Py.ret (LaTeXGenerator.legend_part category fill_color +:+ " "))))
    (Py.sorted_str categories) self
  = (Py.rmapM
       (fun category =>
          Py.rbind (Py.dict_get (LaTeXGenerator.category_colors self) category)
            (fun fill_color =>
               Ok (LaTeXGenerator.legend_part category fill_color +:+ " ")))
       (Py.sorted_str categories),
     self, []).
Proof.
  apply for_each_reader. intros c _. rewrite bind_get.
  unfold Py.bind, Py.lift, Py.ret.
  by destruct (Py.dict_get (LaTeXGenerator.category_colors self) c).
Qed.

Lemma caption_run :
  LaTeXGenerator._generate_caption cfg categories self
  = ((if show_legend (LaTeXGenerator.output cfg) then
        Py.rbind
          (Py.rmapM
             (fun category =>
                Py.rbind (Py.dict_get (LaTeXGenerator.category_colors self) category)
                  (fun fill_color =>
                     Ok (LaTeXGenerator.legend_part category fill_color +:+ " ")))
             (Py.sorted_str categories))
          (fun parts =>
             Ok (Py.join LaTeXGenerator.nl
                   ([ "\end{tikzpicture}"; "\end{adjustbox}";
                      "\caption{" +:+ caption (LaTeXGenerator.output cfg) +:+ "。" ]
                    ++ [ foldl String.append "颜色标识：" parts ]
                    ++ [ "}}" ]
                    ++ [ "\label{" +:+ label (LaTeXGenerator.output cfg) +:+ "}" ]
                    ++ [ "\end{figure}" ])))
      else
        Ok (Py.join LaTeXGenerator.nl
              ([ "\end{tikzpicture}"; "\end{adjustbox}";
                 "\caption{" +:+ caption (LaTeXGenerator.output cfg) +:+ "。" ]
               ++ [ "}}" ]
               ++ [ "\label{" +:+ label (LaTeXGenerator.output cfg) +:+ "}" ]
               ++ [ "\end{figure}" ]))),
     self, []).
Proof.
  unfold LaTeXGenerator._generate_caption.
  destruct (show_legend (LaTeXGenerator.output cfg)); [|reflexivity].
  unfold Py.bind at 1. unfold Py.bind at 1.
  rewrite legend_loop_run.
  by destruct (Py.rmapM _ _).
Qed.

End Caption.

(** X14.  [_generate_caption] never changes the generator and logs
    nothing.  With the legend switched off it succeeds whatever the
    colour table holds; with the legend on it succeeds when every given
    category has an entry in the colour table and raises [KeyError]
    when one has none, as on a fresh generator whose table is empty. *)
Theorem caption_key_error
    (cfg : LaTeXGenerator.Config) (categories : list string) (self : LaTeXGenerator.t) :
  let run := LaTeXGenerator._generate_caption cfg categories self in
  Py.state run = self
  /\ Py.log run = []
  /\ if (show_legend (LaTeXGenerator.output cfg)
         && negb (bool_decide
                    (Forall (fun c => is_Some (LaTeXGenerator.category_colors self !! c))
                       categories)))%bool
     then Py.value run = Raise Py.KeyError
     else exists text, Py.value run = Ok text.
Proof.
  intros run. unfold run. rewrite caption_run.
  split; [done|]. split; [done|]. unfold Py.value. cbn [fst].
  destruct (show_legend (LaTeXGenerator.output cfg)); [|by eexists].
  cbn [andb].
  destruct (bool_decide _) eqn:Hall; cbn [negb].
  - apply bool_decide_eq_true in Hall. rewrite Forall_forall in Hall.
    erewrite (rmapM_ok _
      (fun category =>
         LaTeXGenerator.legend_part category
           (default "" (LaTeXGenerator.category_colors self !! category)) +:+ " ")).
    + by eexists.
    + intros c Hc. unfold Py.sorted_str in Hc. rewrite sorted_elem in Hc.
      destruct (Hall c Hc) as [color Hcolor].
      unfold Py.dict_get. by rewrite Hcolor.
  - apply bool_decide_eq_false in Hall.
    apply not_Forall_Exists in Hall; [|apply _].
    apply Exists_exists in Hall as (c & Hc & Hnone).
    simpl in Hnone. apply eq_None_not_Some in Hnone.
    rewrite (rmapM_raise _ Py.KeyError); [done| |].
    + intros x _. unfold Py.dict_get.
      destruct (LaTeXGenerator.category_colors self !! x); [left; by eexists | by right].
    + exists c. split.
      * unfold Py.sorted_str. by rewrite sorted_elem.
      * unfold Py.dict_get. by rewrite Hnone.
Qed.

Lemma concat_const_nil {A B : Type} (l : list A) :
  concat ((fun _ => @nil B) <$> l) = [].
Proof. induction l as [|x l IH]; [done|]. simpl. exact IH. Qed.

Lemma concat_const_singleton {A B : Type} (b : B) (l : list A) :
  concat ((fun _ => [b]) <$> l) = replicate (length l) b.
Proof. induction l as [|x l IH]; [done|]. simpl. f_equal. exact IH. Qed.

Section FullRun.
Variable float_str : Q -> string.
Variables (cfg : LaTeXGenerator.Config) (df : DataFrame).

Local Abbreviation warnings :=
  (Spec.side_warnings (default "" (upper_years (LaTeXGenerator.time_logic cfg)))).

Lemma year_block_log (lp : LayoutParams) (y : Z) (self : LaTeXGenerator.t) :
  y ∈ col_year df ->
  Py.log (LaTeXGenerator.year_block cfg df lp y self) = warnings.
Proof.
  intros Hy. unfold LaTeXGenerator.year_block.
  rewrite bool_decide_eq_true_2 by done. cbn [negb].
  erewrite bind_run by apply zoom_determine_side.
  unfold Py.log. cbn [snd]. unfold Spec.side_warnings.
  match goal with |- ?w ++ ?rest = ?w => assert (Hrest : rest = []) end.
  { destruct (length (get_group df y) =? 1)%nat.
    - unfold Py.bind, Py.lift, Py.ret.
      by destruct (Py.list_get (get_group df y) 0).
    - unfold Py.bind, Py.lift, Py.ret.
      by destruct (Py.rmapM _ _). }
  rewrite Hrest. apply app_nil_r.
Qed.

Lemma method_node_lines_full (lp : LayoutParams) (self : LaTeXGenerator.t) :
  exists blocks,
    LaTeXGenerator.method_node_lines cfg df lp self
      = (Ok ([ LaTeXGenerator.Blank; LaTeXGenerator.Banner;
               LaTeXGenerator.Title; LaTeXGenerator.Banner ] ++ concat blocks),
         self,
         concat ((fun _ => warnings) <$> Py.sorted_int (Py.unique (col_year df))))
    /\ Forall2 (fun y block =>
                  Py.value (LaTeXGenerator.year_block cfg df lp y self) = Ok block)
               (Py.sorted_int (Py.unique (col_year df))) blocks.
Proof.
  set (f := fun y =>
              match Py.value (LaTeXGenerator.year_block cfg df lp y self) with
              | Ok block => block
              | Raise _ => []
              end).
  assert (Hbody : forall y, y ∈ Py.sorted_int (Py.unique (col_year df)) ->
            LaTeXGenerator.year_block cfg df lp y self = (Ok (f y), self, warnings)).
  { intros y Hy. unfold Py.sorted_int in Hy. rewrite sorted_elem, unique_elem in Hy.
    destruct (year_block_run cfg df lp y self Hy) as (lines & w & mark & Hrun & _).
    pose proof (year_block_log lp y self Hy) as Hlog.
    unfold f. rewrite Hrun in Hlog |- *. unfold Py.log in Hlog. simpl in Hlog.
    by rewrite Hlog. }
  exists (f <$> Py.sorted_int (Py.unique (col_year df))). split.
  - unfold LaTeXGenerator.method_node_lines.
    eapply eq_trans.
    { eapply bind_ok; [|reflexivity].
      apply (for_each_run _ f (fun _ => warnings)). exact Hbody. }
    by rewrite app_nil_r.
  - apply Forall2_fmap_r, Forall_Forall2_diag, Forall_forall.
    intros y Hy. by rewrite (Hbody y Hy).
Qed.

Lemma background_layer_full (self : LaTeXGenerator.t) :
  exists text,
    LaTeXGenerator._generate_background_layer float_str cfg df self
      = (Ok text, self,
         concat ((fun _ => warnings) <$> Py.sorted_int (Py.unique (col_year df)))).
Proof.
  unfold LaTeXGenerator._generate_background_layer.
  eexists. eapply eq_trans.
  { eapply bind_ok; [|reflexivity].
    apply (for_each_run _
      (fun year =>
         if String.eqb (Spec.determine_side
                          (default "" (upper_years (LaTeXGenerator.time_logic cfg)))
                          (SmartLayoutEngine._year_order
                             (LaTeXGenerator.layout_engine self)) year) "above"
         then "        " +:+
              ("\draw[conn] (M" +:+ Py.str_int year +:+ ".south) -- " +:+
               "([yshift=" +:+ float_str (spine_length (LaTeXGenerator.layout cfg)) +:+
               "cm]Y" +:+ Py.str_int year +:+ ");")
         else "        " +:+
              ("\draw[conn] (M" +:+ Py.str_int year +:+ ".north) -- " +:+
               "([yshift=-" +:+ float_str (spine_length (LaTeXGenerator.layout cfg)) +:+
               "cm]Y" +:+ Py.str_int year +:+ ");"))
      (fun _ => warnings)).
    intros year _.
    erewrite bind_run by apply zoom_determine_side.
    unfold Spec.side_warnings.
    destruct (String.eqb _ "above"); unfold Py.ret; cbn [fst snd];
      by rewrite app_nil_r. }
  by rewrite app_nil_r.
Qed.

Lemma styles_full (categories : list string) (color_map : gmap string string)
    (self : LaTeXGenerator.t) :
  ColorConfig.get_category_colors (LaTeXGenerator.colors cfg) categories = Ok color_map ->
  (forall c, c ∈ categories -> is_Some (color_map !! c)) ->
  exists text,
    LaTeXGenerator._generate_styles cfg categories self
      = (Ok text, LaTeXGenerator.set_category_colors color_map self, []).
Proof.
  intros Hcm Hdom. unfold LaTeXGenerator._generate_styles.
  eexists.
  eapply eq_trans.
  { eapply bind_ok; [unfold Py.lift; by rewrite Hcm|].
    eapply bind_ok; [reflexivity|].
    eapply bind_ok; [|reflexivity].
    apply (for_each_run _
      (fun cat => LaTeXGenerator.style_def cfg cat (default "" (color_map !! cat)))
      (fun _ => [])).
    intros cat Hcat. rewrite bind_get. cbn [LaTeXGenerator.set_category_colors
      LaTeXGenerator.category_colors].
    destruct (Hdom cat) as [color Hcolor].
    { unfold Py.sorted_str in Hcat. by rewrite sorted_elem in Hcat. }
    unfold Py.dict_get, Py.bind, Py.lift, Py.ret. by rewrite Hcolor. }
  by rewrite concat_const_nil.
Qed.

Lemma generate_full (self : LaTeXGenerator.t) :
  let years := Py.sorted_int (Py.unique (col_year df)) in
  exists out color_map,
    ColorConfig.get_category_colors (LaTeXGenerator.colors cfg)
      (Py.unique (col_category df)) = Ok color_map
    /\ LaTeXGenerator.generate float_str cfg df self
       = (Ok out,
          {| LaTeXGenerator.layout_engine := {| SmartLayoutEngine._year_order := years |};
             LaTeXGenerator.category_colors := color_map |},
          concat ((fun _ => warnings) <$> years) ++ concat ((fun _ => warnings) <$> years)).
Proof.
  intros years0.
  set (categories := Py.unique (col_category df)).
  destruct (calculate_layout_run df (LaTeXGenerator.layout cfg)) as [lp Hlp].
  set (engine := {| SmartLayoutEngine._year_order :=
                      Py.sorted_int (Py.unique (col_year df)) |}) in *.
  assert (Hnd : NoDup categories) by apply unique_NoDup.
  destruct (get_category_colors_spec (LaTeXGenerator.colors cfg) categories Hnd)
    as (cm & Hcm & Hdom & _).
  assert (Hsome : forall c, c ∈ categories -> is_Some (cm !! c)).
  { intros c Hc. by apply elem_of_dom, Hdom. }
  set (s0 := {| LaTeXGenerator.layout_engine := engine;
                LaTeXGenerator.category_colors := cm |}).
  destruct (styles_full categories cm (LaTeXGenerator.set_layout_engine engine self)
              Hcm Hsome) as [p2 Hp2].
  destruct (generate_timeline_axis_ok float_str df (LaTeXGenerator.layout cfg)
              SmartLayoutEngine.init lp) as [p3 Hp3].
  { by rewrite Hlp. }
  destruct (method_node_lines_full lp s0) as (blocks & Hp4 & _).
  destruct (background_layer_full s0) as (p5 & Hp5).
  pose proof (caption_run cfg categories s0) as Hp8.
  destruct (generate_caption_run cfg categories s0 Hsome) as (p8 & w8 & Hp8').
  assert (Hw8 : w8 = []).
  { rewrite Hp8' in Hp8. by inversion Hp8. }
  subst w8. clear Hp8.
  eexists. exists cm. split; [exact Hcm|].
  unfold LaTeXGenerator.generate. fold categories.
  eapply eq_trans.
  { eapply bind_ok; [unfold Py.zoom; by rewrite Hlp|].
    eapply bind_ok; [reflexivity|].
    eapply bind_ok; [exact Hp2|].
    change (LaTeXGenerator.set_category_colors cm
              (LaTeXGenerator.set_layout_engine engine self)) with s0.
    eapply bind_ok; [unfold Py.lift; by rewrite Hp3|].
    eapply bind_ok.
    { unfold LaTeXGenerator._generate_method_nodes.
      eapply bind_ok; [exact Hp4|reflexivity]. }
    eapply bind_ok; [exact Hp5|].
    eapply bind_ok; [reflexivity|].
    eapply bind_ok; [reflexivity|].
    eapply bind_ok; [exact Hp8'|].
    reflexivity. }
  cbn [app]. by rewrite !app_nil_r.
Qed.

End FullRun.

(** X15.  After [generate] the generator holds the colour table of the
    dataset's categories and its engine holds the dataset's distinct
    years in ascending order, whatever it held before; a second run on
    the same dataset leaves this state as it is. *)
Theorem generate_post_state
    (float_str : Q -> string) (cfg : LaTeXGenerator.Config) (df : DataFrame)
    (self : LaTeXGenerator.t) :
  let after := Py.state (LaTeXGenerator.generate float_str cfg df self) in
  ColorConfig.get_category_colors (LaTeXGenerator.colors cfg)
    (Py.unique (col_category df)) = Ok (LaTeXGenerator.category_colors after)
  /\ dom (LaTeXGenerator.category_colors after) = list_to_set (col_category df)
  /\ SmartLayoutEngine._year_order (LaTeXGenerator.layout_engine after)
     = Py.sorted_int (Py.unique (col_year df))
  /\ Py.state (LaTeXGenerator.generate float_str cfg df after) = after.
Proof.
  intros after.
  destruct (generate_full float_str cfg df self) as (out & cm & Hcm & Hrun).
  destruct (generate_full float_str cfg df after) as (out' & cm' & Hcm' & Hrun').
  rewrite Hcm in Hcm'. inversion Hcm'; subst cm'.
  assert (Hafter : after =
            {| LaTeXGenerator.layout_engine :=
                 {| SmartLayoutEngine._year_order := Py.sorted_int (Py.unique (col_year df)) |};
               LaTeXGenerator.category_colors := cm |}).
  { unfold after. by rewrite Hrun. }
  split; [by rewrite Hafter|]. split; [|split].
  - rewrite Hafter. cbn [LaTeXGenerator.category_colors].
    destruct (get_category_colors_spec (LaTeXGenerator.colors cfg)
                (Py.unique (col_category df)) (unique_NoDup _)) as (cm2 & Hcm2 & Hdom & _).
    rewrite Hcm in Hcm2. inversion Hcm2; subst cm2.
    apply set_eq. intros c. rewrite Hdom, elem_of_list_to_set. apply unique_elem.
  - by rewrite Hafter.
  - rewrite Hrun'. by rewrite Hafter.
Qed.

(** X16.  What [generate] logs: nothing when the rule of [upper_years]
    is a keyword or a list of integers; otherwise the warning about the
    rule, twice for each distinct year of the dataset (once by the
    method-node section, once by the background layer). *)
Theorem generate_warnings
    (float_str : Q -> string) (cfg : LaTeXGenerator.Config) (df : DataFrame)
    (self : LaTeXGenerator.t) :
  let rule := Py.lower (default "" (upper_years (LaTeXGenerator.time_logic cfg))) in
  let years := Py.sorted_int (Py.unique (col_year df)) in
  Py.log (LaTeXGenerator.generate float_str cfg df self)
  = match Spec.is_keyword rule, Spec.year_list rule with
    | false, None => replicate (2 * length years) (SmartLayoutEngine.warn_msg rule)
    | _, _ => []
    end.
Proof.
  intros rule years0.
  destruct (generate_full float_str cfg df self) as (out & cm & _ & Hrun).
  rewrite Hrun. unfold Py.log. cbn [snd].
  unfold Spec.side_warnings. fold rule. fold years0.
  destruct (Spec.is_keyword rule).
  { by rewrite concat_const_nil. }
  destruct (Spec.year_list rule).
  { by rewrite concat_const_nil. }
  rewrite concat_const_singleton, <- replicate_add. f_equal. lia.
Qed.

Section WholeSection.
Variables (cfg : LaTeXGenerator.Config) (df : DataFrame) (lp : LayoutParams).

Lemma year_block_nodes (y : Z) (self : LaTeXGenerator.t)
    (block : list LaTeXGenerator.node_line) :
  y ∈ col_year df ->
  Py.value (LaTeXGenerator.year_block cfg df lp y self) = Ok block ->
  omap LaTeXGenerator.node_of block = Spec.node_for cfg <$> get_group df y
  /\ length (List.filter LaTeXGenerator.is_matrix block)
     = (if (length (get_group df y) =? 1)%nat then 0 else 1)%nat.
Proof.
  intros Hy Hblock.
  destruct (year_block_run cfg df lp y self Hy) as (block' & w & mark & Hrun & Hshape).
  rewrite Hrun in Hblock. inversion Hblock; subst block'. clear Hblock Hrun.
  destruct (get_group df y) as [|r [|r' rest]].
  - destruct Hshape as (position & anchor & ->). by split.
  - destruct Hshape as (anchor & ->). by split.
  - destruct Hshape as (position & anchor & ->).
    set (g := r :: r' :: rest).
    pose proof (cells_nodes cfg g) as Hn.
    destruct (cells_count cfg g) as [_ Hm].
    assert (Hone : (length g =? 1)%nat = false) by done.
    rewrite Hone. clearbody g. split.
    + simpl. rewrite omap_app, Hn. simpl. by rewrite app_nil_r.
    + simpl. rewrite List.filter_app, Hm. done.
Qed.

Lemma blocks_nodes (self : LaTeXGenerator.t) (ys : list Z)
    (blocks : list (list LaTeXGenerator.node_line)) :
  (forall y, y ∈ ys -> y ∈ col_year df) ->
  Forall2 (fun y block =>
             Py.value (LaTeXGenerator.year_block cfg df lp y self) = Ok block)
          ys blocks ->
  omap LaTeXGenerator.node_of (concat blocks)
    = Spec.node_for cfg <$> concat (get_group df <$> ys)
  /\ length (List.filter LaTeXGenerator.is_matrix (concat blocks))
     = length (filter (fun y => (1 < Spec.records_of df y)%nat) ys).
Proof.
  intros Hys Hf. induction Hf as [|y block ys blocks Hy Hf IH]; [done|].
  destruct IH as [IH1 IH2].
  { intros z Hz. apply Hys. by apply list_elem_of_further. }
  assert (Hin : y ∈ col_year df) by apply Hys, list_elem_of_here.
  destruct (year_block_nodes y self block Hin Hy) as [H1 H2].
  split.
  - simpl. rewrite omap_app, fmap_app, H1, IH1. done.
  - simpl. rewrite List.filter_app, length_app, H2, IH2.
    rewrite filter_cons, records_of_get_group.
    apply records_of_pos in Hin.
    destruct (decide (1 < Spec.records_of df y)%nat) as [Hgt|Hle].
    + rewrite (proj2 (Nat.eqb_neq _ _)) by lia. done.
    + rewrite (proj2 (Nat.eqb_eq _ _)) by lia. done.
Qed.

End WholeSection.

Lemma node_lines_count (ls : list LaTeXGenerator.node_line) :
  length (List.filter LaTeXGenerator.is_node ls)
  = length (omap LaTeXGenerator.node_of ls).
Proof.
  induction ls as [|l ls IH]; [done|].
  destruct l; simpl; by rewrite ?IH.
Qed.

Lemma groups_insert (r : Row) (df : DataFrame) (ys : list Z) :
  NoDup ys -> year r ∈ ys ->
  concat (get_group (r :: df) <$> ys) ≡ₚ r :: concat (get_group df <$> ys).
Proof.
  intros Hnd Hin. induction Hnd as [|y ys Hfresh Hnd IH]; [by inversion Hin|].
  rewrite !fmap_cons. cbn [concat]. unfold get_group at 1. rewrite filter_cons.
  fold (get_group df y).
  destruct (decide (year r = y)) as [Heq|Hne].
  - assert (Hrest : get_group (r :: df) <$> ys = get_group df <$> ys).
    { apply list_fmap_ext. intros i z Hz. unfold get_group. rewrite filter_cons.
      rewrite decide_False; [done|]. intros Hz'. apply Hfresh.
      rewrite <- Heq, Hz'. by eapply list_elem_of_lookup_2. }
    by rewrite Hrest.
  - rewrite IH.
    + by rewrite Permutation_middle.
    + apply elem_of_cons in Hin as [Hin|Hin]; [congruence | done].
Qed.

Lemma groups_partition (df : DataFrame) (ys : list Z) :
  NoDup ys -> (forall r, r ∈ df -> year r ∈ ys) ->
  concat (get_group df <$> ys) ≡ₚ df.
Proof.
  intros Hnd. induction df as [|r df IH]; intros Hall.
  - clear. induction ys as [|y ys IH]; [done|]. simpl. exact IH.
  - rewrite groups_insert; [|done|apply Hall, list_elem_of_here].
    f_equiv. apply IH. intros r' Hr'. apply Hall. by apply list_elem_of_further.
Qed.

(** X17.  The method-node section draws every record of the dataset
    exactly once: its styled nodes, in output order, are the records
    grouped by year in ascending order of the years, in file order
    within a year, each with its category as style.  The number of node
    lines is the number of records, and the number of matrix containers
    is the number of years holding more than one record. *)
Theorem method_nodes_cover_dataset
    (float_str : Q -> string) (cfg : LaTeXGenerator.Config) (df : DataFrame)
    (lp : LayoutParams) (self : LaTeXGenerator.t) :
  let years := Py.sorted_int (Py.unique (col_year df)) in
  let records := concat (get_group df <$> years) in
  exists lines,
    Py.value (LaTeXGenerator.method_node_lines cfg df lp self) = Ok lines
    /\ Py.value (LaTeXGenerator._generate_method_nodes float_str cfg df lp self)
       = Ok (Py.join LaTeXGenerator.nl (LaTeXGenerator.render float_str <$> lines))
    /\ omap LaTeXGenerator.node_of lines = Spec.node_for cfg <$> records
    /\ records ≡ₚ df
    /\ length (List.filter Spec.starts_node
                 (LaTeXGenerator.render float_str <$> lines)) = length df
    /\ length (List.filter Spec.starts_matrix
                 (LaTeXGenerator.render float_str <$> lines))
       = length (filter (fun y => (1 < Spec.records_of df y)%nat) years).
Proof.
  intros years0 records.
  destruct (method_node_lines_run cfg df lp self) as (blocks & w & Hlines & Hf).
  destruct (years_sorted_distinct df) as [Hsorted Helem].
  destruct (blocks_nodes cfg df lp self _ blocks (fun y => proj1 (Helem y)) Hf)
    as [Hnodes Hmatrix].
  assert (Hperm : records ≡ₚ df).
  { apply groups_partition.
    - by apply StronglySorted_lt_NoDup.
    - intros r Hr. apply Helem. unfold col_year. by apply list_elem_of_fmap_2. }
  eexists. split; [by rewrite Hlines|]. split; [|split; [|split; [|split]]].
  - unfold LaTeXGenerator._generate_method_nodes, Py.bind.
    by rewrite Hlines.
  - exact Hnodes.
  - exact Hperm.
  - rewrite (filter_rendered float_str _ _ _ (render_starts_node float_str)).
    rewrite node_lines_count.
    change (omap LaTeXGenerator.node_of
              ([LaTeXGenerator.Blank; LaTeXGenerator.Banner; LaTeXGenerator.Title;
                LaTeXGenerator.Banner] ++ concat blocks))
      with (omap LaTeXGenerator.node_of (concat blocks)).
    rewrite Hnodes, length_fmap. apply Permutation_length, Hperm.
  - rewrite (filter_rendered float_str _ _ _ (render_starts_matrix float_str)).
    exact Hmatrix.
Qed.

(** X18.  [generate] never reads [timeline_width], [time_direction],
    [start_year], [end_year], [lower_years], [input_file] or
    [output_file]: whatever values these seven fields take, the
    document, the state left behind and the log are the same. *)
Theorem generate_ignores_unused_fields
    (float_str : Q -> string) (cfg : LaTeXGenerator.Config) (df : DataFrame)
    (self : LaTeXGenerator.t)
    (width direction lower input output : string) (first last : Z) :
  LaTeXGenerator.generate float_str
    {| LaTeXGenerator.layout :=
         {| timeline_width := width;
            year_spacing := year_spacing (LaTeXGenerator.layout cfg);
            branch_distance := branch_distance (LaTeXGenerator.layout cfg);
            spine_length := spine_length (LaTeXGenerator.layout cfg);
            smart_spacing := smart_spacing (LaTeXGenerator.layout cfg);
            min_year_spacing := min_year_spacing (LaTeXGenerator.layout cfg) |};
       LaTeXGenerator.time_logic :=
         {| time_direction := direction;
            start_year := first;
            end_year := last;
            upper_years := upper_years (LaTeXGenerator.time_logic cfg);
            lower_years := lower |};
       LaTeXGenerator.visual := LaTeXGenerator.visual cfg;
       LaTeXGenerator.colors := LaTeXGenerator.colors cfg;
       LaTeXGenerator.arrows := LaTeXGenerator.arrows cfg;
       LaTeXGenerator.output :=
         {| input_file := input;
            output_file := output;
            show_legend := show_legend (LaTeXGenerator.output cfg);
            caption := caption (LaTeXGenerator.output cfg);
            label := label (LaTeXGenerator.output cfg);
            adjustbox_width := adjustbox_width (LaTeXGenerator.output cfg) |} |}
    df self
  = LaTeXGenerator.generate float_str cfg df self.
Proof.
  destruct cfg as [[] [] ? ? ? []]. reflexivity.
Qed.

Lemma sum_list_cons (x : nat) (l : list nat) :
  sum_list (x :: l) = (x + sum_list l)%nat.
Proof. reflexivity. Qed.

Lemma sum_list_group_lengths (df : DataFrame) (ys : list Z) :
  sum_list ((fun y => length (get_group df y)) <$> ys)
  = length (concat (get_group df <$> ys)).
Proof.
  induction ys as [|y ys IH]; [done|].
  rewrite !fmap_cons, sum_list_cons. cbn [concat].
  rewrite length_app. f_equal. exact IH.
Qed.

Lemma sum_list_pointwise {A : Type} (f g h : A -> nat) (l : list A) :
  (forall x, (f x + g x = h x)%nat) ->
  (sum_list (f <$> l) + sum_list (g <$> l) = sum_list (h <$> l))%nat.
Proof.
  intros Hadd. induction l as [|x l IH]; [done|].
  rewrite !fmap_cons, !sum_list_cons, <- (Hadd x), <- IH. lia.
Qed.

(** X19.  The distribution counts every record once: for each year the
    "above" and "below" counts add up to "total", and the totals of the
    distinct years add up to the number of records of the dataset. *)
Theorem node_distribution_totals
    (time_config : TimeLogicConfig) (df : DataFrame) (self : SmartLayoutEngine.t) :
  let years := Py.sorted_int (Py.unique (col_year df)) in
  exists distribution,
    Py.value (SmartLayoutEngine.get_node_distribution time_config df self)
      = Ok distribution
    /\ let count (key : string) (y : Z) : nat :=
         default 0%nat (distribution !! y ≫= fun entry => entry !! key) in
       (forall y, count "above" y + count "below" y = count "total" y)%nat
       /\ sum_list (count "total" <$> years) = length df
       /\ (sum_list (count "above" <$> years) + sum_list (count "below" <$> years)
           = length df)%nat.
Proof.
  intros years0.
  destruct (get_node_distribution_run time_config df self) as [w Hrun].
  cbv zeta in Hrun. fold years0 in Hrun.
  set (order := match SmartLayoutEngine._year_order self with
                | [] => years0
                | _ => SmartLayoutEngine._year_order self
                end) in Hrun.
  eexists. split; [by rewrite Hrun|].
  intros count.
  assert (Hcount : forall key y,
    count key y =
      if decide (y ∈ years0) then
        default 0%nat
          ((<["above" := if String.eqb (Spec.determine_side
                                          (default "" (upper_years time_config)) order y)
                                       "above"
                         then length (get_group df y) else 0%nat]>
              (<["below" := if String.eqb (Spec.determine_side
                                             (default "" (upper_years time_config)) order y)
                                          "below"
                            then length (get_group df y) else 0%nat]>
                 (<["total" := length (get_group df y)]> (∅ : gmap string nat)))) !! key)
      else 0%nat).
  { intros key y. unfold count. rewrite distribution_lookup.
    destruct (decide (y ∈ years0)); [done|]. by rewrite lookup_empty. }
  assert (Hsplit : forall y, (count "above" y + count "below" y = count "total" y)%nat).
  { intros y. rewrite !Hcount.
    destruct (decide (y ∈ years0)); [|done].
    rewrite lookup_insert_eq.
    rewrite (lookup_insert_ne _ "above" "below") by done. rewrite lookup_insert_eq.
    rewrite (lookup_insert_ne _ "above" "total") by done.
    rewrite (lookup_insert_ne _ "below" "total") by done. rewrite lookup_insert_eq.
    destruct (spec_side_values (default "" (upper_years time_config)) order y)
      as [Hs|Hs]; rewrite Hs; simpl; lia. }
  assert (Htotal : sum_list (count "total" <$> years0) = length df).
  { assert (Hext : count "total" <$> years0
                   = (fun y => length (get_group df y)) <$> years0).
    { apply list_fmap_ext. intros i y Hy. rewrite Hcount.
      rewrite decide_True by by eapply list_elem_of_lookup_2.
      rewrite (lookup_insert_ne _ "above" "total") by done.
      rewrite (lookup_insert_ne _ "below" "total") by done.
      by rewrite lookup_insert_eq. }
    rewrite Hext, sum_list_group_lengths.
    apply Permutation_length, groups_partition.
    - apply StronglySorted_lt_NoDup, years_sorted_distinct.
    - intros r Hr. apply years_sorted_distinct. unfold col_year.
      by apply list_elem_of_fmap_2. }
  split; [exact Hsplit|]. split; [exact Htotal|].
  rewrite <- Htotal. by apply sum_list_pointwise.
Qed.

Section StylesThenCaption.
Variables (cfg : LaTeXGenerator.Config) (categories : list string).

Lemma get_category_colors_total :
  exists color_map,
    ColorConfig.get_category_colors (LaTeXGenerator.colors cfg) categories = Ok color_map
    /\ dom color_map = list_to_set categories.
Proof.
  unfold ColorConfig.get_category_colors.
  destruct (assign_colors_last (LaTeXGenerator.colors cfg) (Py.sorted_str categories))
    as (m & Hm & Hout & Hin).
  assert (Helem : forall c, c ∈ Py.sorted_str categories ↔ c ∈ categories).
  { intros c. unfold Py.sorted_str. by rewrite sorted_elem. }
  exists m. split; [exact Hm|].
  apply set_eq. intros c. rewrite elem_of_dom, elem_of_list_to_set, <- Helem. split.
  - intros Hsome. destruct (decide (c ∈ Py.sorted_str categories)) as [|Hn]; [done|].
    rewrite Hout in Hsome by done. by destruct Hsome.
  - intros Hc. destruct (last_occurrence _ _ Hc) as (i & Hi & Hlast).
    by apply (Hin i c).
Qed.

End StylesThenCaption.

(** X20.  [_generate_styles] accepts any list of categories, repeated
    names and the empty list included: it never raises, logs nothing,
    leaves the engine alone and replaces the colour table by the one of
    these categories.  [_generate_caption] for the same categories then
    succeeds. *)
Theorem styles_then_caption
    (cfg : LaTeXGenerator.Config) (categories : list string) (self : LaTeXGenerator.t) :
  exists styles color_map legend,
    ColorConfig.get_category_colors (LaTeXGenerator.colors cfg) categories = Ok color_map
    /\ dom color_map = list_to_set categories
    /\ LaTeXGenerator._generate_styles cfg categories self
       = (Ok styles,
          {| LaTeXGenerator.layout_engine := LaTeXGenerator.layout_engine self;
             LaTeXGenerator.category_colors := color_map |},
          [])
    /\ Py.value (LaTeXGenerator._generate_caption cfg categories
                   (Py.state (LaTeXGenerator._generate_styles cfg categories self)))
       = Ok legend.
Proof.
  destruct (get_category_colors_total cfg categories) as (cm & Hcm & Hdom).
  assert (Hsome : forall c, c ∈ categories -> is_Some (cm !! c)).
  { intros c Hc. apply elem_of_dom. by rewrite Hdom, elem_of_list_to_set. }
  destruct (styles_full cfg categories cm self Hcm Hsome) as [styles Hstyles].
  destruct (generate_caption_run cfg categories
              (LaTeXGenerator.set_category_colors cm self) Hsome)
    as (legend & w & Hcaption).
  exists styles, cm, legend.
  split; [exact Hcm|]. split; [exact Hdom|]. split; [exact Hstyles|].
  rewrite Hstyles. unfold Py.state. cbn [fst snd]. by rewrite Hcaption.
Qed.

Lemma DEFAULT_COLORS_NoDup : NoDup ColorConfig.DEFAULT_COLORS.
Proof.
  unfold ColorConfig.DEFAULT_COLORS.
  repeat (apply NoDup_cons; split;
          [rewrite ?elem_of_cons, elem_of_nil; intros Hdup;
           repeat (destruct Hdup as [Hdup|Hdup]; [discriminate|]); done|]).
  apply NoDup_nil_2.
Qed.

Lemma rank_lt_length (c : string) (categories : list string) :
  NoDup categories -> c ∈ categories ->
  (Spec.rank c categories < length categories)%nat.
Proof.
  intros Hnd Hc.
  assert (Hc' : c ∈ Py.sorted_str categories).
  { unfold Py.sorted_str. by rewrite sorted_elem. }
  apply list_elem_of_lookup in Hc' as [i Hi].
  rewrite (rank_permutation c categories (Py.sorted_str categories))
    by (unfold Py.sorted_str; by rewrite sorted_perm).
  rewrite (rank_in_ascending _ i c); [| by apply sorted_str_ascending | done].
  apply lookup_lt_Some in Hi. unfold Py.sorted_str in Hi.
  by rewrite sorted_length in Hi.
Qed.

Lemma rank_injective (c1 c2 : string) (categories : list string) :
  NoDup categories -> c1 ∈ categories -> c2 ∈ categories ->
  Spec.rank c1 categories = Spec.rank c2 categories -> c1 = c2.
Proof.
  intros Hnd H1 H2.
  assert (Hin : forall c, c ∈ categories ->
            exists i, Py.sorted_str categories !! i = Some c
                      /\ Spec.rank c categories = i).
  { intros c Hc. assert (Hc' : c ∈ Py.sorted_str categories).
    { unfold Py.sorted_str. by rewrite sorted_elem. }
    apply list_elem_of_lookup in Hc' as [i Hi]. exists i. split; [done|].
    rewrite (rank_permutation c categories (Py.sorted_str categories))
      by (unfold Py.sorted_str; by rewrite sorted_perm).
    apply rank_in_ascending; [by apply sorted_str_ascending | done]. }
  destruct (Hin c1 H1) as (i1 & Hi1 & ->).
  destruct (Hin c2 H2) as (i2 & Hi2 & ->).
  intros ->. congruence.
Qed.

(** X21.  With at most twenty distinct categories, none of them in the
    fixed table, no colour is used twice: two different categories get
    two different colours of the palette. *)
Theorem palette_colors_distinct
    (self : ColorConfig.t) (categories : list string) (c1 c2 : string) :
  NoDup categories ->
  (length categories <= 20)%nat ->
  (forall c, c ∈ categories -> ColorConfig.legacy_mapping self !! c = None) ->
  c1 ∈ categories -> c2 ∈ categories -> c1 ≠ c2 ->
  exists color_map color1 color2,
    ColorConfig.get_category_colors self categories = Ok color_map
    /\ color_map !! c1 = Some color1
    /\ color_map !! c2 = Some color2
    /\ color1 ≠ color2.
Proof.
  intros Hnd Hlen Hnone H1 H2 Hne.
  destruct (get_category_colors_spec self categories Hnd) as (m & Hm & Hdom & Hcolor).
  assert (Hs1 : is_Some (m !! c1)) by by apply elem_of_dom, Hdom.
  assert (Hs2 : is_Some (m !! c2)) by by apply elem_of_dom, Hdom.
  destruct Hs1 as [k1 Hk1]. destruct Hs2 as [k2 Hk2].
  exists m, k1, k2. split; [exact Hm|]. split; [exact Hk1|]. split; [exact Hk2|].
  rewrite (Hcolor c1 H1) in Hk1. rewrite (Hcolor c2 H2) in Hk2.
  unfold Spec.color_of in Hk1, Hk2.
  rewrite (Hnone c1 H1) in Hk1. rewrite (Hnone c2 H2) in Hk2.
  change (length ColorConfig.DEFAULT_COLORS) with 20%nat in Hk1, Hk2.
  pose proof (rank_lt_length c1 categories Hnd H1) as Hr1.
  pose proof (rank_lt_length c2 categories Hnd H2) as Hr2.
  rewrite Nat.mod_small in Hk1 by lia. rewrite Nat.mod_small in Hk2 by lia.
  intros ->. apply Hne, (rank_injective c1 c2 categories Hnd H1 H2).
  by apply (NoDup_lookup _ _ _ k2 DEFAULT_COLORS_NoDup).
Qed.

Lemma palette_colors_distinct_witness :
  exists color_map color1 color2,
    ColorConfig.get_category_colors Defaults.colors ["beta"; "alpha"] = Ok color_map
    /\ color_map !! "alpha" = Some color1
    /\ color_map !! "beta" = Some color2
    /\ color1 ≠ color2.
Proof.
  apply (palette_colors_distinct Defaults.colors ["beta"; "alpha"] "alpha" "beta").
  - apply NoDup_cons. split; [by rewrite list_elem_of_singleton|].
    apply NoDup_singleton.
  - simpl. lia.
  - intros c Hc. rewrite !elem_of_cons, elem_of_nil in Hc.
    destruct Hc as [->|[->|[]]]; reflexivity.
  - apply list_elem_of_further, list_elem_of_here.
  - apply list_elem_of_here.
  - discriminate.
Defined.

(** X22.  The block of a year is drawn on the side [determine_side]
    gives that year: the comment says "upper" for above and "lower" for
    below; a single node is anchored [above] or [below] the year at the
    adjusted branch distance; a matrix is positioned [above] with its
    south anchor, or [below] with its north anchor.  The block ends with
    the node, or with the line that closes the matrix. *)
Theorem year_block_side
    (cfg : LaTeXGenerator.Config) (df : DataFrame) (lp : LayoutParams)
    (y : Z) (self : LaTeXGenerator.t) :
  y ∈ col_year df ->
  exists side block,
    Py.value (SmartLayoutEngine.determine_side (LaTeXGenerator.time_logic cfg) y
                (LaTeXGenerator.layout_engine self)) = Ok side
    /\ Py.value (LaTeXGenerator.year_block cfg df lp y self) = Ok block
    /\ block !! 0%nat = Some LaTeXGenerator.Blank
    /\ block !! 1%nat
       = Some (LaTeXGenerator.YearComment y
                 (if String.eqb side "above" then "upper" else "lower"))
    /\ match get_group df y with
       | [r] =>
           block !! 2%nat
           = Some (LaTeXGenerator.SingleNode (category r)
                     (if String.eqb side "above" then "above" else "below")
                     (adjusted_branch lp) y
                     (LaTeXGenerator._format_method_text cfg (name r) (citation r)))
           /\ length block = 3%nat
       | group =>
           block !! 2%nat
           = Some (LaTeXGenerator.MatrixOpen
                     (if String.eqb side "above" then "above" else "below")
                     (adjusted_branch lp) y
                     (if String.eqb side "above" then "south" else "north"))
           /\ last block = Some LaTeXGenerator.MatrixClose
           /\ length block = (length group + 4)%nat
       end.
Proof.
  intros Hy.
  rewrite determine_side_run.
  set (side := Spec.determine_side _ _ y).
  exists side.
  unfold LaTeXGenerator.year_block.
  rewrite bool_decide_eq_true_2 by done. cbn [negb].
  erewrite bind_run by apply zoom_determine_side.
  fold side.
  destruct (get_group df y) as [|r [|r' group]] eqn:Hg.
  - destruct (matrix_rows_run cfg []) as (rows & Hrows & Hcat).
    cbn [length Nat.eqb]. unfold Py.bind, Py.lift, Py.ret.
    rewrite Hrows. cbn [fst snd]. rewrite Hcat.
    eexists. split; [done|]. split; [reflexivity|]. by repeat split.
  - cbn [length Nat.eqb]. unfold Py.bind, Py.lift, Py.ret. cbn.
    eexists. split; [done|]. split; [reflexivity|]. by repeat split.
  - destruct (matrix_rows_run cfg (r :: r' :: group)) as (rows & Hrows & Hcat).
    cbn [length Nat.eqb]. unfold Py.bind, Py.lift, Py.ret.
    rewrite Hrows. cbn [fst snd]. rewrite Hcat.
    assert (Hlen : length (Spec.cells cfg (r :: r' :: group)) = S (S (length group))).
    { unfold Spec.cells. by rewrite length_imap. }
    set (cs := Spec.cells cfg (r :: r' :: group)) in *. clearbody cs.
    eexists. split; [done|]. split; [reflexivity|].
    split; [done|]. split; [done|]. split; [done|]. split.
    + cbn [app]. rewrite !last_cons, last_snoc. done.
    + cbn [app length]. rewrite length_app, Hlen. simpl. lia.
Qed.

Lemma year_block_side_witness :
  exists side block,
    Py.value (SmartLayoutEngine.determine_side
                (LaTeXGenerator.time_logic Examples.config) 2022
                (LaTeXGenerator.layout_engine LaTeXGenerator.init)) = Ok side
    /\ Py.value (LaTeXGenerator.year_block Examples.config Examples.df_dense
                   Examples.layout_dense 2022 LaTeXGenerator.init) = Ok block
    /\ block !! 1%nat
       = Some (LaTeXGenerator.YearComment 2022
                 (if String.eqb side "above" then "upper" else "lower"))
    /\ last block = Some LaTeXGenerator.MatrixClose
    /\ length block = 8%nat.
Proof.
  assert (Hy : 2022%Z ∈ col_year Examples.df_dense).
  { apply list_elem_of_lookup. exists 2%nat. reflexivity. }
  destruct (year_block_side Examples.config Examples.df_dense Examples.layout_dense
              2022 LaTeXGenerator.init Hy)
    as (side & block & Hside & Hblock & _ & Hmark & _ & Hlast & Hlen).
  exists side, block. by repeat split.
Defined.

(** X23.  The background layer draws one connector per distinct year,
    in ascending order of the years, and on the side of the year's
    nodes: the connector leaves the south of the block and meets the
    upper spine when the block is marked "upper", and leaves the north
    of the block and meets the lower spine when it is marked "lower". *)
Theorem background_connectors_follow_side
    (float_str : Q -> string) (cfg : LaTeXGenerator.Config) (df : DataFrame)
    (lp : LayoutParams) (self : LaTeXGenerator.t) :
  let years := Py.sorted_int (Py.unique (col_year df)) in
  let spine := float_str (spine_length (LaTeXGenerator.layout cfg)) in
  exists head conns,
    Py.value (LaTeXGenerator._generate_background_layer float_str cfg df self)
    = Ok (Py.join LaTeXGenerator.nl (head ++ conns ++ [ "    \end{pgfonlayer}" ]))
    /\ Py.state (LaTeXGenerator._generate_background_layer float_str cfg df self) = self
    /\ length conns = length years
    /\ forall i y,
         years !! i = Some y ->
         exists above block,
           Py.value (LaTeXGenerator.year_block cfg df lp y self) = Ok block
           /\ block !! 1%nat
              = Some (LaTeXGenerator.YearComment y (if above : bool then "upper" else "lower"))
           /\ conns !! i
              = Some (if above
                      then "        \draw[conn] (M" +:+ Py.str_int y +:+ ".south) -- " +:+
                           "([yshift=" +:+ spine +:+ "cm]Y" +:+ Py.str_int y +:+ ");"
                      else "        \draw[conn] (M" +:+ Py.str_int y +:+ ".north) -- " +:+
                           "([yshift=-" +:+ spine +:+ "cm]Y" +:+ Py.str_int y +:+ ");").
Proof.
  intros years0 spine.
  set (side := fun year =>
         Spec.determine_side (default "" (upper_years (LaTeXGenerator.time_logic cfg)))
           (SmartLayoutEngine._year_order (LaTeXGenerator.layout_engine self)) year).
  set (conn := fun year =>
         if String.eqb (side year) "above"
         then "        " +:+
              ("\draw[conn] (M" +:+ Py.str_int year +:+ ".south) -- " +:+
               "([yshift=" +:+ float_str (spine_length (LaTeXGenerator.layout cfg)) +:+
               "cm]Y" +:+ Py.str_int year +:+ ");")
         else "        " +:+
              ("\draw[conn] (M" +:+ Py.str_int year +:+ ".north) -- " +:+
               "([yshift=-" +:+ float_str (spine_length (LaTeXGenerator.layout cfg)) +:+
               "cm]Y" +:+ Py.str_int year +:+ ");")).
  assert (Hrun : exists head,
    LaTeXGenerator._generate_background_layer float_str cfg df self
    = (Ok (Py.join LaTeXGenerator.nl
             (head ++ (conn <$> years0) ++ [ "    \end{pgfonlayer}" ])),
       self,
       concat ((fun _ => Spec.side_warnings
                           (default "" (upper_years (LaTeXGenerator.time_logic cfg))))
                 <$> years0) ++ [])).
  { unfold LaTeXGenerator._generate_background_layer. fold years0.
    eexists. eapply bind_ok.
    - apply (for_each_run _ conn
        (fun _ => Spec.side_warnings
                    (default "" (upper_years (LaTeXGenerator.time_logic cfg))))).
      intros year _.
      erewrite bind_run by apply zoom_determine_side.
      unfold Spec.side_warnings, conn, side.
      destruct (String.eqb _ "above"); unfold Py.ret; cbn [fst snd];
        by rewrite app_nil_r.
    - unfold Py.ret. rewrite <- app_assoc. reflexivity. }
  destruct Hrun as [head Hrun].
  exists head, (conn <$> years0).
  split; [by rewrite Hrun|]. split; [by rewrite Hrun|].
  split; [by rewrite length_fmap|].
  intros i y Hi.
  assert (Hy : y ∈ col_year df).
  { apply years_sorted_distinct. by eapply list_elem_of_lookup_2. }
  exists (String.eqb (side y) "above").
  unfold LaTeXGenerator.year_block.
  rewrite bool_decide_eq_true_2 by done. cbn [negb].
  erewrite bind_run by apply zoom_determine_side.
  fold (side y).
  rewrite list_lookup_fmap, Hi. cbn [fmap option_fmap option_map].
  destruct (get_group df y) as [|r [|r' group]] eqn:Hg.
  - destruct (matrix_rows_run cfg []) as (rows & Hrows & Hcat).
    cbn [length Nat.eqb]. unfold Py.bind, Py.lift, Py.ret.
    rewrite Hrows. cbn [fst snd].
    eexists. split; [reflexivity|]. split; [done|].
    unfold conn. by destruct (String.eqb (side y) "above").
  - cbn [length Nat.eqb]. unfold Py.bind, Py.lift, Py.ret. cbn [Py.list_get lookup list_lookup fst snd].
    eexists. split; [reflexivity|]. split; [done|].
    unfold conn. by destruct (String.eqb (side y) "above").
  - destruct (matrix_rows_run cfg (r :: r' :: group)) as (rows & Hrows & Hcat).
    cbn [length Nat.eqb]. unfold Py.bind, Py.lift, Py.ret.
    rewrite Hrows. cbn [fst snd].
    eexists. split; [reflexivity|]. split; [done|].
    unfold conn. by destruct (String.eqb (side y) "above").
Qed.

(* ================================================================== *)
(** * The layout in binary64 arithmetic *)
(* ================================================================== *)

Section Binary64Order.











End Binary64Order.

Lemma enumerate_insert_lookup {V : Type} (f : nat -> V) (years : list Z) (i : nat) (y : Z) :
  NoDup years -> years !! i = Some y ->
  foldl (fun (pos : gmap Z V) '(i, year) => <[year := f i]> pos) ∅
        (Py.enumerate years) !! y
  = Some (f i).
Proof.
  revert i y. induction years as [|z years IH] using rev_ind; intros i y Hnd Hi.
  - done.
  - rewrite enumerate_snoc, foldl_app. simpl.
    apply NoDup_app in Hnd as (Hnd & Hdisj & _).
    destruct (decide (i = length years)) as [->|Hne].
    + rewrite list_lookup_middle in Hi by done. inversion Hi; subst.
      by rewrite lookup_insert_eq.
    + assert (Hlt : (i < length years)%nat).
      { apply lookup_lt_Some in Hi. rewrite length_app in Hi. simpl in Hi. lia. }
      rewrite lookup_app_l in Hi by done.
      assert (z ≠ y).
      { intros ->. eapply Hdisj; [by eapply list_elem_of_lookup_2 | apply list_elem_of_here]. }
      rewrite lookup_insert_ne by done. by apply IH.
Qed.

Lemma enumerate_insert_absent {V : Type} (f : nat -> V) (years : list Z) (y : Z) :
  y ∉ years ->
  foldl (fun (pos : gmap Z V) '(i, year) => <[year := f i]> pos) ∅
        (Py.enumerate years) !! y
  = None.
Proof.
  induction years as [|z years IH] using rev_ind; intros Hy.
  - done.
  - rewrite enumerate_snoc, foldl_app. simpl.
    rewrite elem_of_app, list_elem_of_singleton in Hy.
    rewrite lookup_insert_ne by (intros ->; tauto).
    apply IH. tauto.
Qed.

Section RoundedCalculateLayout.
Variables (config : RoundedLayout.LayoutConfig) (df : DataFrame)
  (self : SmartLayoutEngine.t).

(** The record [calculate_layout] returns, field by field. *)
Lemma rounded_layout_run :
  exists lp,
    RoundedLayout.calculate_layout config df self
      = (Ok lp,
         {| SmartLayoutEngine._year_order := Py.sorted_int (Py.unique (col_year df)) |},
         [])
    /\ RoundedLayout.year_counts lp = groupby_size df
    /\ RoundedLayout.max_nodes lp = Spec.max_nodes df
    /\ RoundedLayout.years lp = Py.sorted_int (Py.unique (col_year df))
    /\ RoundedLayout.adjusted_spacing lp =
         (if RoundedLayout.smart_spacing config
          then Binary64.max (RoundedLayout.min_year_spacing config)
                 (Binary64.min
                    (Binary64.int_mul_float (Z.of_nat (Spec.max_nodes df))
                       (Binary64.decimal 25 1))
                    (RoundedLayout.year_spacing config))
          else RoundedLayout.year_spacing config)
    /\ RoundedLayout.adjusted_branch lp =
         (if RoundedLayout.smart_spacing config
          then Binary64.max (RoundedLayout.branch_distance config)
                 (Binary64.int_mul_float (Z.of_nat (Spec.max_nodes df))
                    (Binary64.decimal 6 1))
          else RoundedLayout.branch_distance config)
    /\ RoundedLayout.positions lp =
         foldl (fun (pos : gmap Z Binary64.float) '(i, year) =>
                  <[year := Binary64.int_add_float 0
                              (Binary64.int_mul_float (Z.of_nat i)
                                 (RoundedLayout.adjusted_spacing lp))]> pos)
               ∅ (Py.enumerate (Py.sorted_int (Py.unique (col_year df))))
    /\ RoundedLayout.total_width lp =
         (if (1 <? length (Py.sorted_int (Py.unique (col_year df))))%nat
          then RoundedLayout.Float
                 (Binary64.int_mul_float
                    (Z.of_nat (length (Py.sorted_int (Py.unique (col_year df)))) - 1)
                    (RoundedLayout.adjusted_spacing lp))
          else RoundedLayout.Int 0).
Proof.
  assert (Hmax : (if decide (groupby_size df = ∅) then 1%nat
                  else max_list (snd <$> map_to_list (groupby_size df)))
                 = Spec.max_nodes df).
  { unfold Spec.max_nodes.
    destruct (decide (groupby_size df = ∅)) as [He|Hne].
    - apply groupby_size_empty in He. by subst.
    - destruct df as [|r df']; [done|].
      apply max_list_same_elements, groupby_size_values. }
  unfold RoundedLayout.calculate_layout, Py.bind, Py.put, Py.ret.
  rewrite Hmax.
  destruct (RoundedLayout.smart_spacing config); eexists;
    (split; [reflexivity|]); cbn; repeat split; exact Hmax.
Qed.

End RoundedCalculateLayout.





(** X1.  Looking up the position of a year in a computed layout gives
    the float [0 + i * adjusted_spacing], rounded as the interpreter
    rounds it, for the year at index [i], and the float [0.0] for any
    year the dataset does not contain. *)
Theorem get_year_position_rounded
    (config : RoundedLayout.LayoutConfig) (df : DataFrame)
    (self : SmartLayoutEngine.t) :
  exists lp,
    Py.value (RoundedLayout.calculate_layout config df self) = Ok lp
    /\ (forall i y, RoundedLayout.years lp !! i = Some y ->
          RoundedLayout.get_year_position y lp
          = Binary64.int_add_float 0
              (Binary64.int_mul_float (Z.of_nat i)
                 (RoundedLayout.adjusted_spacing lp)))
    /\ (forall y, y ∉ col_year df ->
          RoundedLayout.get_year_position y lp = S754_zero false).
Proof.
  destruct (rounded_layout_run config df self)
    as (lp & Hrun & _ & _ & Hy & _ & _ & Hpos & _).
  destruct (years_sorted_distinct df) as [Hsorted Helem].
  exists lp. split; [by rewrite Hrun|]. split.
  - intros i y Hi. unfold RoundedLayout.get_year_position.
    rewrite Hpos.
    rewrite (enumerate_insert_lookup
               (fun i => Binary64.int_add_float 0
                           (Binary64.int_mul_float (Z.of_nat i)
                              (RoundedLayout.adjusted_spacing lp))) _ i y); [done| |].
    + by apply StronglySorted_lt_NoDup.
    + by rewrite <- Hy.
  - intros y Hout. unfold RoundedLayout.get_year_position.
    rewrite Hpos, enumerate_insert_absent; [done|]. by rewrite Helem.
Qed.

(** The end-to-end scenario in binary64: three years at the default
    spacing lie at the floats [0.0], [2.7] and [5.4], and the width is
    [5.4]. *)
Example rounded_positions_df3 :
  exists lp,
    Py.value (RoundedLayout.calculate_layout
                (Examples.rounded_layout (Binary64.decimal 27 1) false)
                Examples.df3 SmartLayoutEngine.init) = Ok lp
    /\ RoundedLayout.years lp = [2020; 2021; 2022]%Z
    /\ RoundedLayout.positions lp !! 2020%Z = Some (S754_zero false)
    /\ RoundedLayout.positions lp !! 2021%Z = Some (Binary64.decimal 27 1)
    /\ RoundedLayout.positions lp !! 2022%Z = Some (Binary64.decimal 54 1)
    /\ RoundedLayout.total_width lp = RoundedLayout.Float (Binary64.decimal 54 1).
Proof. eexists. repeat split; vm_compute; reflexivity. Qed.

(** The smart-spacing scenario in binary64: four records in 2022 ask
    for a width of [10.0], which the base spacing [2.7] caps; the branch
    distance grows to [4 * 0.6], the float [2.4]. *)
Example rounded_smart_spacing_dense :
  exists lp,
    Py.value (RoundedLayout.calculate_layout
                (Examples.rounded_layout (Binary64.decimal 27 1) true)
                Examples.df_dense SmartLayoutEngine.init) = Ok lp
    /\ RoundedLayout.max_nodes lp = 4%nat
    /\ RoundedLayout.adjusted_spacing lp = Binary64.decimal 27 1
    /\ RoundedLayout.adjusted_branch lp = Binary64.decimal 24 1.
Proof. eexists. repeat split; vm_compute; reflexivity. Qed.

(** For every count up to 4096 the float product [n * 2.5] is the exact
    product, so the required width of the two models is the same
    number. *)
Example required_width_exact :
  forallb
    (fun n =>
       match Binary64.to_Q
               (Binary64.int_mul_float (Z.of_nat n) (Binary64.decimal 25 1)) with
       | Some q => Qeq_bool q (Py.int_mul_float (Z.of_nat n) (5 # 2))
       | None => false
       end)
    (seq 0 4097)
  = true.
Proof. vm_compute. reflexivity. Qed.
